(** * dynafed_storagestats: configuration parsing and storage-stats collection

    A shallow embedding of the parts of [ugrstoragestats.py] and of the
    [dynafed_storagestats] package that read UGR configuration files, validate
    per-share settings and turn endpoint replies into usage statistics.

    Python values are modelled as follows.
    - [str] is [string]; a character is a code point below 256.
    - [int] is [Z].
    - a [dict] is an insertion-ordered association list with unique keys
      ([pydict]); a key that is absent raises [KeyError] on subscription.
    - an exception is a value of [exn]; a computation that may raise is a
      [result]; a method that mutates its object before raising returns the
      mutated object together with the exception.
    - calls to [logging] and [print] have no effect on the values computed and
      are left out. *)

From Stdlib Require Import String Ascii List ZArith NArith Bool Arith Lia.
From Stdlib Require Import DecimalString Permutation.
Import ListNotations.
Local Open Scope string_scope.
Local Open Scope Z_scope.

(** ** Python strings *)

Module PyStr.

Definition code (c : ascii) : N := N_of_ascii c.

Definition in_range (lo hi : N) (c : ascii) : bool :=
  (lo <=? code c)%N && (code c <=? hi)%N.

(** [str.isspace] on code points below 256. *)
Definition isspace (c : ascii) : bool :=
  in_range 9 13 c || in_range 28 32 c || (code c =? 133)%N || (code c =? 160)%N.

Definition isdigit (c : ascii) : bool := in_range 48 57 c.

Definition digit_value (c : ascii) : Z := Z.of_N (code c) - 48.

(** [str.lower] on one code point below 256. *)
Definition lower_char (c : ascii) : ascii :=
  if in_range 65 90 c then ascii_of_N (code c + 32)
  else if in_range 192 222 c && negb (code c =? 215)%N then ascii_of_N (code c + 32)
  else c.

Fixpoint lower (s : string) : string :=
  match s with
  | EmptyString => EmptyString
  | String c s' => String (lower_char c) (lower s')
  end.

Fixpoint lstrip (s : string) : string :=
  match s with
  | EmptyString => EmptyString
  | String c s' => if isspace c then lstrip s' else s
  end.

Fixpoint rstrip (s : string) : string :=
  match s with
  | EmptyString => EmptyString
  | String c s' =>
      match rstrip s' with
      | EmptyString => if isspace c then EmptyString else String c EmptyString
      | r => String c r
      end
  end.

(** [s.strip()] *)
Definition strip (s : string) : string := lstrip (rstrip s).

(** [s.startswith(p)] *)
Definition startswith (p s : string) : bool := prefix p s.

(** [s.endswith(suf)]: some tail of [s] is [suf]. *)
Fixpoint endswith (suf s : string) : bool :=
  (s =? suf)%string ||
  match s with
  | EmptyString => false
  | String _ s' => endswith suf s'
  end.

(** [pat in s] *)
Fixpoint contains (pat s : string) : bool :=
  prefix pat s ||
  match s with
  | EmptyString => false
  | String _ s' => contains pat s'
  end.

(** [s[0:-k]] for [0 < k]. *)
Definition drop_last (k : nat) (s : string) : string :=
  substring 0 (String.length s - k) s.

(** [s.split(sep)] for a non-empty [sep]; [skip] counts the characters of
    the separator occurrence that is being passed over. *)
Fixpoint split_go (sep : string) (skip : nat) (s : string) : list string :=
  match s with
  | EmptyString => [EmptyString]
  | String c s' =>
      match skip with
      | S k => split_go sep k s'
      | O =>
          if prefix sep s
          then EmptyString :: split_go sep (String.length sep - 1) s'
          else match split_go sep 0 s' with
               | p :: ps => String c p :: ps
               | [] => [String c EmptyString]
               end
      end
  end.

Definition split (sep s : string) : list string := split_go sep 0 s.

(** [s.split()]: maximal runs of non-whitespace characters. *)
Fixpoint split_ws (s : string) : list string :=
  match s with
  | EmptyString => []
  | String c s' =>
      if isspace c then split_ws s'
      else match s' with
           | EmptyString => [String c EmptyString]
           | String c' _ =>
               if isspace c' then String c EmptyString :: split_ws s'
               else match split_ws s' with
                    | w :: ws => String c w :: ws
                    | [] => [String c EmptyString]
                    end
           end
  end.

(** [s.partition(sep)[::2]] for a one-character [sep]: the text before and
    after the first separator, or [(s, "")] when there is none. *)
Fixpoint partition2 (sep : ascii) (s : string) : string * string :=
  match s with
  | EmptyString => (EmptyString, EmptyString)
  | String c s' =>
      if (c =? sep)%char then (EmptyString, s')
      else let '(a, b) := partition2 sep s' in (String c a, b)
  end.

(** [l[-1]] *)
Definition last_item (l : list string) : string := List.last l EmptyString.

(** Digits of a decimal literal; single underscores may separate digits. *)
Fixpoint digits_go (acc : Z) (after_digit : bool) (s : string) : option Z :=
  match s with
  | EmptyString => if after_digit then Some acc else None
  | String c s' =>
      if isdigit c then digits_go (10 * acc + digit_value c) true s'
      else if (c =? "_")%char && after_digit then digits_go acc false s'
      else None
  end.

(** The white space [int] passes over at both ends of its argument: the
    white space of C and, from 128 on, the two code points that are white
    space. The separators U+001C to U+001F, which [str.strip] removes,
    are not among them. *)
Definition isspace_int (c : ascii) : bool :=
  in_range 9 13 c || (code c =? 32)%N || (code c =? 133)%N
  || (code c =? 160)%N.

Fixpoint lstrip_int (s : string) : string :=
  match s with
  | EmptyString => EmptyString
  | String c s' => if isspace_int c then lstrip_int s' else s
  end.

Fixpoint rstrip_int (s : string) : string :=
  match s with
  | EmptyString => EmptyString
  | String c s' =>
      match rstrip_int s' with
      | EmptyString =>
          if isspace_int c then EmptyString else String c EmptyString
      | r => String c r
      end
  end.

(** [int(s)] in base ten; [None] stands for [ValueError]. The number of
    digits is not limited, as it is not before Python 3.11. *)
Definition parse_int (s : string) : option Z :=
  match lstrip_int (rstrip_int s) with
  | String "+" r => digits_go 0 false r
  | String "-" r => option_map Z.opp (digits_go 0 false r)
  | t => digits_go 0 false t
  end.

(** The double-quote character, and a string put between two of them. *)
Definition dquote : string := String (ascii_of_N 34) EmptyString.
Definition quoted (s : string) : string := dquote ++ s ++ dquote.

End PyStr.

(** ** Exceptions and results *)

(** The exception classes of [ugrstoragestats.py] that are instantiated, each
    below the class it derives from. *)
Inductive ugr_class :=
(* UGRBaseError > UGRConfigFileError *)
| UGRUnsupportedPluginError
| UGRConfigFileErrorIDMismatch
| UGRConfigFileErrorMissingRequiredOption
| UGRConfigFileErrorInvalidOption
(* UGRBaseError > UGRMemcachedError *)
| UGRStorageStatsMemcachedConnectionError
| UGRStorageStatsMemcachedIndexError
(* UGRBaseError > UGRStorageStatsError *)
| UGRStorageStatsConnectionError
| UGRStorageStatsConnectionErrorS3API
| UGRStorageStatsErrorS3MissingBucketUsage
| UGRStorageStatsErrorDAVQuotaMethod
| UGRStorageStatsConnectionErrorDAVCertPath
(* UGRBaseWarning > UGRConfigFileWarning *)
| UGRConfigFileWarningMissingOption
(* UGRBaseWarning > UGRStorageStatsWarning *)
| UGRStorageStatsQuotaWarning
| UGRStorageStatsCephS3QuotaDisabledWarning.

Inductive exn :=
(* built-in exceptions *)
| KeyError (key : string)
| IndexError
| ValueError
| TypeError
| AttributeError
| UnboundLocalError (name : string)
| SystemExit
| XMLSyntaxError
(* dynafed_storagestats.exceptions, with the arguments the callers pass *)
| DSSConfigFileErrorIDMismatch
    (storage_share error : string) (line_number : nat) (config_file line : string)
| DSSUnsupportedPluginError (error plugin : string)
| ErrorDAVQuotaMethod (error : string)
| DAVZeroQuotaWarning (debug : string)
| DSSErrorAzureContainerNotFound (error status_code debug container : string)
| DSSConnectionErrorAzureAPI (error status_code debug api : string)
| DSSConnectionError (error status_code debug : string)
(* ugrstoragestats.py: class, and the [message] and [debug] attributes the
   chain of constructors leaves on the instance *)
| UGR (cls : ugr_class) (message debug : string).

Inductive result (A : Type) :=
| Ret (a : A)
| Raise (e : exn).
Arguments Ret {A} a.
Arguments Raise {A} e.

Definition bind {A B : Type} (m : result A) (k : A -> result B) : result B :=
  match m with
  | Ret a => k a
  | Raise e => Raise e
  end.

Notation "x <- m ;; k" := (bind m (fun x => k))
  (at level 61, m at next level, right associativity).

(** ** [convert_size_to_bytes] (ugrstoragestats.py) *)

Module Size.
Import PyStr.

(** The [multipliers] dict, in the order it is written. *)
Definition multipliers : list (string * Z) :=
  [ ("kib", 1024); ("mib", 1024 ^ 2); ("gib", 1024 ^ 3); ("tib", 1024 ^ 4);
    ("pib", 1024 ^ 5);
    ("kb", 1000); ("mb", 1000 ^ 2); ("gb", 1000 ^ 3); ("tb", 1000 ^ 4);
    ("pb", 1000 ^ 5) ].

(** [int(x)] outside a [try]: a [ValueError] propagates. *)
Definition int_of_str (s : string) : result Z :=
  match parse_int s with
  | Some n => Ret n
  | None => Raise ValueError
  end.

(** The [for suffix in multipliers] loop; [None] when no suffix matched and
    the loop ran to its end. *)
Fixpoint suffix_loop (table : list (string * Z)) (size : string)
  : option (result Z) :=
  match table with
  | [] => None
  | (suffix, m) :: rest =>
      if endswith suffix (lower size)
      then Some (n <- int_of_str (drop_last (String.length suffix) size) ;;
                 Ret (n * m))
      else suffix_loop rest size
  end.

Definition convert_size_to_bytes (size : string) : result Z :=
  match suffix_loop multipliers size with
  | Some r => r
  | None =>
      if endswith "b" (lower size)
      then int_of_str (drop_last 1 size)
      else match parse_int size with
           | Some n => Ret n
           | None => Raise SystemExit   (* print('Malformed input!'); exit() *)
           end
  end.

End Size.

(** ** Python dicts *)

Module Dict.
Section Operations.
Context {V : Type}.

(** [d.get(k)] *)
Fixpoint get (k : string) (d : list (string * V)) : option V :=
  match d with
  | [] => None
  | (k', v) :: d' => if (k' =? k)%string then Some v else get k d'
  end.

(** [d[k] = v]: an existing key keeps its place, a new key goes last. *)
Fixpoint set (k : string) (v : V) (d : list (string * V)) : list (string * V) :=
  match d with
  | [] => [(k, v)]
  | (k', v') :: d' =>
      if (k' =? k)%string then (k', v) :: d' else (k', v') :: set k v d'
  end.

(** [k in d] *)
Definition mem (k : string) (d : list (string * V)) : bool :=
  match get k d with
  | Some _ => true
  | None => false
  end.

(** [d[k]] *)
Definition subscript (k : string) (d : list (string * V)) : result V :=
  match get k d with
  | Some v => Ret v
  | None => Raise (KeyError k)
  end.

(** [list(d)] *)
Definition keys (d : list (string * V)) : list string := map fst d.
End Operations.
End Dict.

Definition pydict (V : Type) : Type := list (string * V).

(** ** [dynafed_storagestats/configloader.py]: reading the configuration *)

Module ConfigLoader.
Import PyStr.

(** One value of the [_storage_shares] dict: itself a dict whose keys are
    among ['id'], ['url'], ['plugin'] and ['plugin_settings']; a field is
    [None] while its key is absent. *)
Record raw_share := {
  rs_id : option string;
  rs_url : option string;
  rs_plugin : option string;
  rs_plugin_settings : option (pydict string)
}.

Definition empty_share : raw_share :=
  {| rs_id := None; rs_url := None; rs_plugin := None;
     rs_plugin_settings := None |}.

(** The locals of [parse_conf_files] that live across iterations. [_id] is
    [None] until its first assignment and is never reset, not even when the
    next file is opened. *)
Record pstate := {
  storage_shares : pydict raw_share;
  global_settings : pydict string;
  cur_id : option string
}.

Definition initial : pstate :=
  {| storage_shares := []; global_settings := []; cur_id := None |}.

(** [_storage_shares.setdefault(_id, {})] followed by a read of the entry. *)
Definition setdefault_share (id : string) (shares : pydict raw_share) : raw_share :=
  match Dict.get id shares with
  | Some r => r
  | None => empty_share
  end.

(** The three [update] calls of a share-declaration line. *)
Definition declare_share (plugin id url : string) (shares : pydict raw_share)
  : pydict raw_share :=
  let r := setdefault_share id shares in
  Dict.set id
    {| rs_id := Some (strip id);
       rs_url := Some (strip url);
       rs_plugin := Some (last_item (split "/" plugin));
       rs_plugin_settings := rs_plugin_settings r |}
    shares.

(** [setdefault('plugin_settings', {})] and the [update] of a setting line
    that names the current share. *)
Definition add_local_setting (id setting value : string)
    (shares : pydict raw_share) : pydict raw_share :=
  let r := setdefault_share id shares in
  let ps := match rs_plugin_settings r with
            | Some ps => ps
            | None => []
            end in
  Dict.set id
    {| rs_id := rs_id r; rs_url := rs_url r; rs_plugin := rs_plugin r;
       rs_plugin_settings := Some (Dict.set setting value ps) |}
    shares.

(** The body of [for _line_number, _line in enumerate(_file)]. *)
Definition parse_line (config_file : string) (line_number : nat)
    (raw_line : string) (st : pstate) : result pstate :=
  let line := strip raw_line in
  if startswith "#" line then Ret st
  else if contains "glb.locplugin[]" line then
    match tl (split_ws line) with         (* _line.split()[1::] *)
    | [plugin; id; _concurrency; url] =>
        Ret {| storage_shares := declare_share plugin id url (storage_shares st);
               global_settings := global_settings st;
               cur_id := Some id |}
    | _ => Raise ValueError               (* the unpacking fails *)
    end
  else if contains "locplugin" line then
    let '(key, value) := partition2 ":" line in
    match nth_error (split "." key) 1 with
    | None => Raise IndexError
    | Some locid =>
        if (locid =? "*")%string then
          let setting := last_item (split "*." key) in
          Ret {| storage_shares := storage_shares st;
                 global_settings :=
                   Dict.set setting (strip value) (global_settings st);
                 cur_id := cur_id st |}
        else
          match cur_id st with
          | None => Raise (UnboundLocalError "_id")
          | Some id =>
              if (id =? locid)%string then
                let setting := last_item (split (id ++ ".") key) in
                Ret {| storage_shares :=
                         add_local_setting id setting (strip value)
                           (storage_shares st);
                       global_settings := global_settings st;
                       cur_id := cur_id st |}
              else
                Raise (DSSConfigFileErrorIDMismatch id "SettingIDMismatch"
                         line_number config_file (hd "" (split ":" line)))
          end
    end
  else Ret st.

(** One file, given as its name and its lines; [n] is the index
    [enumerate] gives to the first of [lines]. *)
Fixpoint parse_lines (config_file : string) (n : nat) (lines : list string)
    (st : pstate) : result pstate :=
  match lines with
  | [] => Ret st
  | l :: ls =>
      st' <- parse_line config_file n l st ;;
      parse_lines config_file (S n) ls st'
  end.

Fixpoint parse_files (config_files : list (string * list string))
    (st : pstate) : result pstate :=
  match config_files with
  | [] => Ret st
  | (name, lines) :: rest =>
      st' <- parse_lines name 0 lines st ;;
      parse_files rest st'
  end.

(** [if _setting not in share['plugin_settings']: ....update(...)] *)
Definition fill_share (setting value : string) (r : raw_share)
  : result raw_share :=
  match rs_plugin_settings r with
  | None => Raise (KeyError "plugin_settings")
  | Some ps =>
      if Dict.mem setting ps then Ret r
      else Ret {| rs_id := rs_id r; rs_url := rs_url r;
                  rs_plugin := rs_plugin r;
                  rs_plugin_settings := Some (Dict.set setting value ps) |}
  end.

(** [for storage_share in _storage_shares] for one global setting. *)
Fixpoint fill_shares (setting value : string) (shares : pydict raw_share)
  : result (pydict raw_share) :=
  match shares with
  | [] => Ret []
  | (k, r) :: rest =>
      r' <- fill_share setting value r ;;
      rest' <- fill_shares setting value rest ;;
      Ret ((k, r') :: rest')
  end.

(** [for _setting, _value in _global_settings.items()] *)
Fixpoint apply_global_settings (globals : pydict string)
    (shares : pydict raw_share) : result (pydict raw_share) :=
  match globals with
  | [] => Ret shares
  | (setting, value) :: rest =>
      shares' <- fill_shares setting value shares ;;
      apply_global_settings rest shares'
  end.

Definition parse_conf_files (config_files : list (string * list string))
  : result (pydict raw_share) :=
  st <- parse_files config_files initial ;;
  apply_global_settings (global_settings st) (storage_shares st).

End ConfigLoader.

(** ** Python values held by settings and statistics *)

Inductive pyval :=
| VStr (s : string)
| VInt (n : Z)
| VBool (b : bool).

Module Py.

(** [str(v)], as ['%s' % v] prints it. *)
Definition str (v : pyval) : string :=
  match v with
  | VStr s => s
  | VInt n => NilZero.string_of_int (Z.to_int n)
  | VBool true => "True"
  | VBool false => "False"
  end.

(** [v == 'literal'] *)
Definition eq_str (v : pyval) (literal : string) : bool :=
  match v with
  | VStr s => (s =? literal)%string
  | _ => false
  end.

(** The number an operand of [-] stands for; a [str] has none. *)
Definition number (v : pyval) : option Z :=
  match v with
  | VInt n => Some n
  | VBool b => Some (if b then 1 else 0)
  | VStr _ => None
  end.

(** [a - b] *)
Definition sub (a b : pyval) : result pyval :=
  match number a, number b with
  | Some x, Some y => Ret (VInt (x - y))
  | _, _ => Raise TypeError
  end.

(** [int(v)] *)
Definition int (v : pyval) : result Z :=
  match v with
  | VStr s => Size.int_of_str s
  | VInt n => Ret n
  | VBool b => Ret (if b then 1 else 0)
  end.

(** [v.lower()] *)
Definition lower (v : pyval) : result string :=
  match v with
  | VStr s => Ret (PyStr.lower s)
  | _ => Raise AttributeError
  end.

(** [bool(v)], the test of [if v:] *)
Definition truth (v : pyval) : bool :=
  match v with
  | VStr s => negb (s =? "")%string
  | VInt n => negb (n =? 0)
  | VBool b => b
  end.

End Py.

(** ** Methods that mutate their object and may raise *)

(** An action on a state [S]: the state it leaves, and the value returned or
    the exception raised. Assignments made before a [raise] stay. *)
Definition action (S A : Type) : Type := S -> S * result A.

Module Act.
Section WithState.
Context {S : Type}.

Definition ret {A} (a : A) : action S A := fun s => (s, Ret a).
Definition raise {A} (e : exn) : action S A := fun s => (s, Raise e).
Definition lift {A} (r : result A) : action S A := fun s => (s, r).
Definition read {A} (f : S -> result A) : action S A := fun s => (s, f s).
Definition modify (f : S -> S) : action S unit := fun s => (f s, Ret tt).

Definition bind {A B} (m : action S A) (k : A -> action S B) : action S B :=
  fun s =>
    match m s with
    | (s', Ret a) => k a s'
    | (s', Raise e) => (s', Raise e)
    end.
End WithState.
End Act.

Notation "x <~ m ;; k" := (Act.bind m (fun x => k))
  (at level 61, m at next level, right associativity).
Notation "m ;;; k" := (Act.bind m (fun _ => k))
  (at level 61, right associativity).

(** ** Storage shares of the package *)

Module Share.

(** The [stats] dict. *)
Record stats_t := {
  bytesused : pyval;
  bytesfree : pyval;
  filecount : pyval;
  quota : pyval;
  starttime : pyval;
  endtime : pyval
}.

(** Modelled from the spec: the class [StorageShare] of
    [dynafed_storagestats/base.py] is not among the sources; the record
    holds the attributes that the functions below read and write. *)
Record storage_share := {
  id : string;
  uri : pydict pyval;
  plugin_settings : pydict pyval;
  stats : stats_t;
  status : list string;
  debug : list string
}.

Definition with_stats (f : stats_t -> stats_t) (sh : storage_share)
  : storage_share :=
  {| id := id sh; uri := uri sh; plugin_settings := plugin_settings sh;
     stats := f (stats sh); status := status sh; debug := debug sh |}.

Definition set_bytesused (v : pyval) : storage_share -> storage_share :=
  with_stats (fun st =>
    {| bytesused := v; bytesfree := bytesfree st; filecount := filecount st;
       quota := quota st; starttime := starttime st; endtime := endtime st |}).

Definition set_bytesfree (v : pyval) : storage_share -> storage_share :=
  with_stats (fun st =>
    {| bytesused := bytesused st; bytesfree := v; filecount := filecount st;
       quota := quota st; starttime := starttime st; endtime := endtime st |}).

Definition set_filecount (v : pyval) : storage_share -> storage_share :=
  with_stats (fun st =>
    {| bytesused := bytesused st; bytesfree := bytesfree st; filecount := v;
       quota := quota st; starttime := starttime st; endtime := endtime st |}).

Definition set_quota (v : pyval) : storage_share -> storage_share :=
  with_stats (fun st =>
    {| bytesused := bytesused st; bytesfree := bytesfree st;
       filecount := filecount st; quota := v;
       starttime := starttime st; endtime := endtime st |}).

(** [storage_share.debug.append(x)] and [storage_share.status.append(x)] *)
Definition append_debug (x : string) (sh : storage_share) : storage_share :=
  {| id := id sh; uri := uri sh; plugin_settings := plugin_settings sh;
     stats := stats sh; status := status sh; debug := debug sh ++ [x] |}.

Definition append_status (x : string) (sh : storage_share) : storage_share :=
  {| id := id sh; uri := uri sh; plugin_settings := plugin_settings sh;
     stats := stats sh; status := status sh ++ [x]; debug := debug sh |}.

(** [storage_share.plugin_settings[k]] and [storage_share.uri[k]] *)
Definition setting (k : string) : action storage_share pyval :=
  Act.read (fun sh => Dict.subscript k (plugin_settings sh)).

Definition uri_part (k : string) : action storage_share pyval :=
  Act.read (fun sh => Dict.subscript k (uri sh)).

End Share.

(** ** [dynafed_storagestats/xml.py]: the RFC 4331 reply *)

Module Xml.
Import Share.

(** An element of an lxml tree: its tag, its [text] ([None] when the
    element is empty) and its children. *)
Inductive element :=
| Element (tag : string) (text : option string) (children : list element).

Definition tag_of (e : element) : string :=
  match e with Element t _ _ => t end.
Definition text_of (e : element) : option string :=
  match e with Element _ t _ => t end.

(** The elements below [e], in document order. *)
Fixpoint descendants (e : element) : list element :=
  match e with
  | Element _ _ cs => flat_map (fun c => c :: descendants c) cs
  end.

(** [_tree.find('.//' + tag)] *)
Definition find (tag : string) (tree : element) : option element :=
  List.find (fun e => (tag_of e =? tag)%string) (descendants tree).

(** [_tree.find('.//' + tag).text]: reading [text] off [None], when no
    element has the tag, raises [AttributeError]. *)
Definition find_text (tag : string) (tree : element) : result (option string) :=
  match find tag tree with
  | Some e => Ret (text_of e)
  | None => Raise AttributeError
  end.

(** [int(x)] for [x] the [text] of an element. *)
Definition int_of_text (t : option string) : result Z :=
  match t with
  | Some s => Size.int_of_str s
  | None => Raise TypeError
  end.

(** The reply of the endpoint: [content] as [etree.fromstring] reads it
    ([None] when it is not well-formed XML) and [str(response.content)]. *)
Record response := {
  status_code : Z;
  content : option element;
  content_str : string
}.

Definition fromstring (r : response) : result element :=
  match content r with
  | Some tree => Ret tree
  | None => Raise XMLSyntaxError
  end.

Definition quota_available_bytes : string := "{DAV:}quota-available-bytes".
Definition quota_used_bytes : string := "{DAV:}quota-used-bytes".

Definition process_rfc4331_response (r : response)
  : action storage_share unit :=
  _tree <~ Act.lift (fromstring r) ;;
  _node <~ Act.lift (find_text quota_available_bytes _tree) ;;
  match _node with
  | None => Act.raise (ErrorDAVQuotaMethod "UnsupportedMethod")
  | Some _ =>
      used <~ Act.lift (t <- find_text quota_used_bytes _tree ;; int_of_text t) ;;
      Act.modify (set_bytesused (VInt used)) ;;;
      free <~ Act.lift (t <- find_text quota_available_bytes _tree ;; int_of_text t) ;;
      Act.modify (set_bytesfree (VInt free)) ;;;
      q <~ setting "storagestats.quota" ;;
      if Py.eq_str q "api" then
        Act.modify (set_quota (VInt (used + free))) ;;;
        if free =? 0
        then Act.raise (DAVZeroQuotaWarning (content_str r))
        else Act.ret tt
      else
        n <~ Act.lift (Py.int q) ;;
        Act.modify (set_quota (VInt n)) ;;;
        Act.modify (set_bytesfree (VInt (n - used)))
  end.

End Xml.

(** ** [dynafed_storagestats/azure/helpers.py] *)

Module Azure.
Import Share.

(** What [BaseBlobService.list_blobs] does: it returns the blobs, given by
    their [content_length], or raises one of the library's exceptions,
    given by its [str]. *)
Inductive blob_listing :=
| Blobs (content_lengths : list Z)
| AzureMissingResourceHttpError (msg : string)
| AzureHttpError (msg : string)
| AzureException (msg : string).

Definition list_blobs (service : blob_listing) : action storage_share unit :=
  _ <~ uri_part "account" ;;
  _ <~ setting "azure.key" ;;
  _container_name <~ uri_part "container" ;;
  (* the arguments of the debug message are evaluated *)
  _ <~ uri_part "url" ;;
  api <~ setting "storagestats.api" ;;
  _ <~ Act.lift (Py.lower api) ;;
  _ <~ uri_part "account" ;;
  _ <~ uri_part "container" ;;
  timeout <~ setting "conn_timeout" ;;
  _ <~ Act.lift (Py.int timeout) ;;
  match service with
  | AzureMissingResourceHttpError msg =>
      Act.raise (DSSErrorAzureContainerNotFound "ContainerNotFound" "404" msg
                   (Py.str _container_name))
  | AzureHttpError msg =>
      api' <~ setting "storagestats.api" ;;
      Act.raise (DSSConnectionErrorAzureAPI "ConnectionError" "400" msg
                   (Py.str api'))
  | AzureException msg =>
      Act.raise (DSSConnectionError "ConnectionError" "400" msg)
  | Blobs content_lengths =>
      let _total_bytes := fold_left Z.add content_lengths 0 in
      let _total_files := Z.of_nat (List.length content_lengths) in
      Act.modify (set_bytesused (VInt _total_bytes)) ;;;
      q <~ setting "storagestats.quota" ;;
      Act.modify (set_quota q) ;;;
      free <~ Act.lift (Py.sub q (VInt _total_bytes)) ;;
      Act.modify (set_bytesfree free) ;;;
      Act.modify (set_filecount (VInt _total_files))
  end.

End Azure.

(** ** [dynafed_storagestats/configloader.py]: building the share objects *)

Module ShareObjects.
Import ConfigLoader Share.

Inductive share_class :=
| StorageShare
| DAVStorageShare
| S3StorageShare
| AzureStorageShare.

Definition factory (plugin : string) : result share_class :=
  if (plugin =? "libugrlocplugin_dav.so")%string then Ret DAVStorageShare
  else if (plugin =? "libugrlocplugin_http.so")%string then Ret DAVStorageShare
  else if (plugin =? "libugrlocplugin_s3.so")%string then Ret S3StorageShare
  else if (plugin =? "libugrlocplugin_azure.so")%string then Ret AzureStorageShare
  else Raise (DSSUnsupportedPluginError "UnsupportedPlugin" plugin).

(** [storage_shares[_storage_share][key]] *)
Definition field (key : string) (v : option string) : result string :=
  match v with
  | Some x => Ret x
  | None => Raise (KeyError key)
  end.

Section Constructors.
(** The constructors of the four classes live in modules that are not
    among the sources ([base.py], [dav/base.py], [azure/base.py]; the one
    of [s3/base.py] calls into [base.py]); so do the [debug] and
    [error_code] attributes of an exception. *)
Variable new_share : share_class -> raw_share -> result storage_share.
Variable err_debug : exn -> string.
Variable err_code : exn -> string.

(** The body of [for _storage_share in storage_shares]. *)
Definition get_storage_share_object (r : raw_share) : result storage_share :=
  _ <- field "id" (rs_id r) ;;
  match (plugin <- field "plugin" (rs_plugin r) ;;
         cls <- factory plugin ;;
         new_share cls r) with
  | Ret obj => Ret obj
  | Raise (DSSUnsupportedPluginError error plugin) =>
      let ERR := DSSUnsupportedPluginError error plugin in
      _ <- field "id" (rs_id r) ;;
      obj <- new_share StorageShare r ;;
      Ret (append_status ("[ERROR]" ++ err_code ERR)
             (append_debug ("[ERROR]" ++ err_debug ERR) obj))
  | Raise e => Raise e
  end.

Fixpoint get_storage_share_objects (storage_shares : pydict raw_share)
  : result (list storage_share) :=
  match storage_shares with
  | [] => Ret []
  | (_, r) :: rest =>
      obj <- get_storage_share_object r ;;
      objs <- get_storage_share_objects rest ;;
      Ret (obj :: objs)
  end.
End Constructors.

End ShareObjects.

(** ** [ugrstoragestats.py]: endpoints, validation and collection *)

Module Ugr.
Import PyStr.

(** *** Exception classes *)

(** [isinstance(e, UGRConfigFileError)] and so on, by class. *)
Definition is_config_file_error (c : ugr_class) : bool :=
  match c with
  | UGRUnsupportedPluginError | UGRConfigFileErrorIDMismatch
  | UGRConfigFileErrorMissingRequiredOption
  | UGRConfigFileErrorInvalidOption => true
  | _ => false
  end.

Definition is_storagestats_error (c : ugr_class) : bool :=
  match c with
  | UGRStorageStatsConnectionError | UGRStorageStatsConnectionErrorS3API
  | UGRStorageStatsErrorS3MissingBucketUsage
  | UGRStorageStatsErrorDAVQuotaMethod
  | UGRStorageStatsConnectionErrorDAVCertPath => true
  | _ => false
  end.

Definition is_storagestats_warning (c : ugr_class) : bool :=
  match c with
  | UGRStorageStatsQuotaWarning
  | UGRStorageStatsCephS3QuotaDisabledWarning => true
  | _ => false
  end.

Definition is_base_warning (c : ugr_class) : bool :=
  match c with
  | UGRConfigFileWarningMissingOption => true
  | _ => is_storagestats_warning c
  end.

(** What the constructors up to [UGRBaseError] and [UGRBaseException] leave
    on the instance: the message gets its severity in front, and [debug],
    when none is given, is the message. *)
Definition make_exn (severity : string) (cls : ugr_class) (message : string)
    (debug : option string) : exn :=
  let m := severity ++ message in
  UGR cls m (match debug with Some d => d | None => m end).

Definition error := make_exn "[ERROR]".
Definition warning := make_exn "[WARN]".

(** ['[%s][%s] ' % (error, status_code)] *)
Definition tags (error status_code : string) : string :=
  "[" ++ error ++ "][" ++ status_code ++ "] ".

Definition unsupported_plugin (plugin : string) : exn :=
  error UGRUnsupportedPluginError
    (tags "UnsupportedPlugin" "000" ++ "StorageStats method for "
       ++ quoted plugin ++ " not implemented yet.") None.

Definition missing_required_option (option : string) : exn :=
  error UGRConfigFileErrorMissingRequiredOption
    (tags "MissingRequiredOption" "000" ++ quoted option
       ++ " is required. Check your configuration.") None.

Definition missing_option (option : string) (option_default : pyval) : exn :=
  warning UGRConfigFileWarningMissingOption
    (tags "MissingOption" "000" ++ "Unspecified " ++ quoted option
       ++ " option. Using default value " ++ quoted (Py.str option_default))
    None.

Definition connection_error (name status_code debug : string) : exn :=
  error UGRStorageStatsConnectionError
    (tags name status_code ++ "Failed to establish a connection.")
    (Some debug).

Definition dav_quota_method (name : string) : exn :=
  error UGRStorageStatsErrorDAVQuotaMethod
    (tags name "000" ++ "WebDAV Quota Method.") None.

Definition dav_cert_path (certfile debug : string) : exn :=
  error UGRStorageStatsConnectionErrorDAVCertPath
    (tags "ClientCertError" "000" ++ "Invalid client certificate path "
       ++ quoted certfile ++ ".") (Some debug).

(** Raised with [endpoint] alone: [error] is [None], printed by [%s]. *)
Definition memcached_connection_error : exn :=
  error UGRStorageStatsMemcachedConnectionError
    (tags "None" "400" ++ "Failed to connect to memcached.") None.

Definition memcached_index_error (name status_code : string) : exn :=
  error UGRStorageStatsMemcachedIndexError
    (tags name status_code ++ "Unable to get memcached index contents.") None.

Definition quota_warning : exn :=
  warning UGRStorageStatsQuotaWarning
    (tags "NoQuotaGiven" "000"
       ++ "No quota obtained from API or configuration file. Using default of 1TB")
    None.

(** *** The object model *)

(** One entry of [self.validators]; a field is [None] when the entry has
    no such key. *)
Record validator := {
  v_default : option pyval;
  v_required : option bool;
  v_valid : option (list string);
  v_boolean : option bool
}.

Inductive storage_class := StorageStats | S3StorageStats | DAVStorageStats.

Record stats_t := {
  bytesused : pyval;
  bytesfree : pyval;
  files : pyval;
  quota : pyval;
  timestamp : Z
}.

(** The [uri] dict; [bucket] and [domain] are keys only S3 endpoints get. *)
Record uri_t := {
  hostname : option string;
  netloc : string;
  path : string;
  port : option Z;
  scheme : string;
  url : string;
  bucket : option string;
  domain : option string
}.

Record storage_stats := {
  class : storage_class;
  stats : stats_t;
  id : string;
  plugin_options : pydict pyval;
  plugin : string;
  uri : uri_t;
  debug : list string;
  status : string;
  validators : pydict validator;
  storageprotocol : option string
}.

Definition with_stats (f : stats_t -> stats_t) (o : storage_stats) : storage_stats :=
  {| class := class o; stats := f (stats o); id := id o;
     plugin_options := plugin_options o; plugin := plugin o; uri := uri o;
     debug := debug o; status := status o; validators := validators o;
     storageprotocol := storageprotocol o |}.

Definition set_bytesused (v : pyval) : storage_stats -> storage_stats :=
  with_stats (fun st =>
    {| bytesused := v; bytesfree := bytesfree st; files := files st;
       quota := quota st; timestamp := timestamp st |}).

Definition set_bytesfree (v : pyval) : storage_stats -> storage_stats :=
  with_stats (fun st =>
    {| bytesused := bytesused st; bytesfree := v; files := files st;
       quota := quota st; timestamp := timestamp st |}).

Definition set_files (v : pyval) : storage_stats -> storage_stats :=
  with_stats (fun st =>
    {| bytesused := bytesused st; bytesfree := bytesfree st; files := v;
       quota := quota st; timestamp := timestamp st |}).

Definition set_quota (v : pyval) : storage_stats -> storage_stats :=
  with_stats (fun st =>
    {| bytesused := bytesused st; bytesfree := bytesfree st;
       files := files st; quota := v; timestamp := timestamp st |}).

(** [self.plugin_options.update({k: v})] *)
Definition set_option (k : string) (v : pyval) (o : storage_stats) : storage_stats :=
  {| class := class o; stats := stats o; id := id o;
     plugin_options := Dict.set k v (plugin_options o); plugin := plugin o;
     uri := uri o; debug := debug o; status := status o;
     validators := validators o; storageprotocol := storageprotocol o |}.

(** [self.debug.append(d); self.status = m] *)
Definition record_failure (m d : string) (o : storage_stats) : storage_stats :=
  {| class := class o; stats := stats o; id := id o;
     plugin_options := plugin_options o; plugin := plugin o; uri := uri o;
     debug := debug o ++ [d]; status := m; validators := validators o;
     storageprotocol := storageprotocol o |}.

Definition set_uri (u : uri_t) (o : storage_stats) : storage_stats :=
  {| class := class o; stats := stats o; id := id o;
     plugin_options := plugin_options o; plugin := plugin o; uri := u;
     debug := debug o; status := status o; validators := validators o;
     storageprotocol := storageprotocol o |}.

(** [self.storageprotocol = p; self.validators.update(vs)] *)
Definition extend (p : string) (vs : pydict validator) (o : storage_stats)
  : storage_stats :=
  {| class := class o; stats := stats o; id := id o;
     plugin_options := plugin_options o; plugin := plugin o; uri := uri o;
     debug := debug o; status := status o;
     validators := fold_left (fun d kv => Dict.set (fst kv) (snd kv) d) vs
                     (validators o);
     storageprotocol := Some p |}.

Definition option_ (k : string) : action storage_stats pyval :=
  Act.read (fun o => Dict.subscript k (plugin_options o)).

(** [self.plugin_options[k].lower()] *)
Definition option_lower (k : string) : action storage_stats string :=
  v <~ option_ k ;; Act.lift (Py.lower v).

(** *** [validate_plugin_options] *)

(** [convert_size_to_bytes(v)]: [v.lower()] needs a [str]. *)
Definition convert_size (v : pyval) : result Z :=
  match v with
  | VStr s => Size.convert_size_to_bytes s
  | _ => Raise AttributeError
  end.

(** [x in valid] *)
Definition is_valid (v : pyval) (valid : list string) : bool :=
  existsb (Py.eq_str v) valid.

(** The body of [for ep_option in self.validators]. *)
Definition validate_option (ep_option : string) (v : validator)
  : action storage_stats unit :=
  fun self =>
    match Dict.get ep_option (plugin_options self) with
    | None =>
        match v_required v with
        | None => (self, Raise (KeyError "required"))
        | Some true =>
            (set_option ep_option (VStr "") self,
             Raise (missing_required_option ep_option))
        | Some false =>
            match v_default v with
            | None => (self, Raise (KeyError "default"))
            | Some d =>
                match missing_option ep_option d with
                | UGR _ message dbg =>
                    (set_option ep_option d (record_failure message dbg self),
                     Ret tt)
                | e => (self, Raise e)
                end
            end
        end
    | Some value =>
        match v_valid v with
        | None => (self, Ret tt)      (* except KeyError: pass *)
        | Some valid =>
            if negb (is_valid value valid)
            then (* UGRConfigFileErrorInvalidOption has no parameter
                    [valid_options]: the call itself fails *)
                 (self, Raise TypeError)
            else
              match v_boolean v with
              | None => (self, Ret tt)
              | Some _ =>
                  match Py.lower value with
                  | Raise e => (self, Raise e)
                  | Ret low =>
                      if (low =? "false")%string || (low =? "no")%string
                      then (set_option ep_option (VBool false) self, Ret tt)
                      else (set_option ep_option (VBool true) self, Ret tt)
                  end
              end
        end
    end.

Fixpoint validate_options (vs : pydict validator) : action storage_stats unit :=
  match vs with
  | [] => Act.ret tt
  | (ep_option, v) :: rest =>
      validate_option ep_option v ;;; validate_options rest
  end.

Definition validate_plugin_options : action storage_stats unit :=
  vs <~ Act.read (fun self => Ret (validators self)) ;;
  validate_options vs ;;;
  ssl_check <~ option_ "ssl_check" ;;
  (if Py.truth ssl_check
   then fun self =>
          match Dict.get "ca_path" (plugin_options self) with
          | Some ca => (set_option "ssl_check" ca self, Ret tt)
          | None => (self, Ret tt)
          end
   else Act.ret tt) ;;;
  q <~ option_ "quota" ;;
  if negb (Py.eq_str q "api")
  then n <~ Act.lift (convert_size q) ;;
       Act.modify (set_option "quota" (VInt n))
  else Act.ret tt.

(** *** Construction of the endpoint objects *)

(** What [urlsplit] returns, as far as [__init__] reads it. [port] is a
    property that converts the text after the colon when it is read: it
    raises [ValueError] when that text is no number or the number is not
    between 0 and 65535. *)
Record split_result := {
  sr_scheme : string;
  sr_netloc : string;
  sr_path : string;
  sr_hostname : option string;
  sr_port : result (option Z)
}.

(** One value of the dict [get_config] returns. ['id'], ['url'] and
    ['plugin'] are set together when the entry is created;
    ['plugin_options'] exists only once an option line was read. *)
Record endpoint_conf := {
  ep_id : string;
  ep_url : string;
  ep_plugin : string;
  ep_plugin_options : option (pydict string)
}.

Definition base_validators : pydict validator :=
  [ ("quota",
     {| v_default := Some (VStr "api"); v_required := Some false;
        v_valid := None; v_boolean := None |});
    ("ssl_check",
     {| v_default := Some (VBool true); v_required := Some false;
        v_valid := Some ["true"; "false"; "yes"; "no"];
        v_boolean := Some true |}) ].

Definition s3_validators : pydict validator :=
  [ ("s3.alternate",
     {| v_default := Some (VStr "false"); v_required := Some false;
        v_valid := Some ["true"; "false"; "yes"; "no"]; v_boolean := None |});
    ("s3.api",
     {| v_default := Some (VStr "generic"); v_required := Some true;
        v_valid := Some ["ceph-admin"; "generic"]; v_boolean := None |});
    ("s3.priv_key",
     {| v_default := None; v_required := Some true;
        v_valid := None; v_boolean := None |});
    ("s3.pub_key",
     {| v_default := None; v_required := Some true;
        v_valid := None; v_boolean := None |});
    ("s3.region",
     {| v_default := Some (VStr "us-east-1"); v_required := Some true;
        v_valid := None; v_boolean := None |});
    ("s3.signature_ver",
     {| v_default := Some (VStr "s3v4"); v_required := Some false;
        v_valid := Some ["s3"; "s3v4"]; v_boolean := None |}) ].

Definition dav_validators : pydict validator :=
  [ ("cli_certificate",
     {| v_default := None; v_required := Some true;
        v_valid := None; v_boolean := None |});
    ("cli_private_key",
     {| v_default := None; v_required := Some true;
        v_valid := None; v_boolean := None |}) ].

(** [StorageStats.validate_schema] *)
Definition validate_schema (scheme : string) : string :=
  if (scheme =? "dav")%string then "http"
  else if (scheme =? "davs")%string then "https"
  else scheme.

(** [S3StorageStats.validate_schema]; it runs inside
    [StorageStats.__init__], before any default is filled in. *)
Definition s3_validate_schema (options : pydict pyval) (scheme : string)
  : result string :=
  if (scheme =? "s3")%string then
    ssl_check <- Dict.subscript "ssl_check" options ;;
    Ret (if Py.truth ssl_check then "https" else "http")
  else Ret scheme.

(** An action run by a constructor: the object is built unless it raises. *)
Definition construct (m : action storage_stats unit) (self : storage_stats)
  : result storage_stats :=
  match m self with
  | (self', Ret _) => Ret self'
  | (_, Raise e) => Raise e
  end.

(** [try: m except UGRConfigFileError as ERR:
          self.debug.append(ERR.debug); self.status = ERR.message] *)
Definition catch_config_file_error (m : action storage_stats unit)
  : action storage_stats unit :=
  fun self =>
    match m self with
    | (self', Raise (UGR c message dbg)) =>
        if is_config_file_error c
        then (record_failure message dbg self', Ret tt)
        else (self', Raise (UGR c message dbg))
    | r => r
    end.

Definition is_yes (s : string) : bool :=
  (s =? "true")%string || (s =? "yes")%string.

(** The end of [S3StorageStats.__init__]: the bucket name. *)
Definition set_bucket : action storage_stats unit :=
  alternate <~ option_lower "s3.alternate" ;;
  Act.modify (fun self =>
    let u := uri self in
    if is_yes alternate then
      set_uri {| hostname := hostname u; netloc := netloc u; path := path u;
                 port := port u; scheme := scheme u; url := url u;
                 bucket := Some (last_item (split "/" (path u)));
                 domain := domain u |} self
    else
      let '(b, d) := partition2 "." (netloc u) in
      set_uri {| hostname := hostname u; netloc := netloc u; path := path u;
                 port := port u; scheme := scheme u; url := url u;
                 bucket := Some b; domain := Some d |} self).

Section Construction.
(** [urllib.parse.urlsplit]; it raises [ValueError] on a netloc it
    cannot read. *)
Variable urlsplit : string -> result split_result.
(** [int(time.time())] *)
Variable now : Z.

(** [StorageStats.__init__], run for an object of class [c]. *)
Definition init (c : storage_class) (_ep : endpoint_conf)
  : result storage_stats :=
  options <- match ep_plugin_options _ep with
             | Some o => Ret (map (fun kv => (fst kv, VStr (snd kv))) o)
             | None => Raise (KeyError "plugin_options")
             end ;;
  let options := Dict.set "url" (VStr (ep_url _ep)) options in
  _url <- urlsplit (ep_url _ep) ;;
  port' <- sr_port _url ;;
  scheme' <- match c with
             | S3StorageStats => s3_validate_schema options (sr_scheme _url)
             | _ => Ret (validate_schema (sr_scheme _url))
             end ;;
  Ret {| class := c;
         stats := {| bytesused := VInt 0; bytesfree := VInt 0;
                     files := VInt 0; quota := VInt (1000 ^ 4);
                     timestamp := now |};
         id := ep_id _ep;
         plugin_options := options;
         plugin := ep_plugin _ep;
         uri := {| hostname := sr_hostname _url; netloc := sr_netloc _url;
                   path := sr_path _url; port := port';
                   scheme := scheme'; url := ep_url _ep;
                   bucket := None; domain := None |};
         debug := [];
         status := "[OK][OK][200]";
         validators := base_validators;
         storageprotocol := None |}.

(** [S3StorageStats.__init__] *)
Definition init_s3 (_ep : endpoint_conf) : result storage_stats :=
  self <- init S3StorageStats _ep ;;
  construct
    (catch_config_file_error validate_plugin_options ;;; set_bucket)
    (extend "S3" s3_validators self).

(** [DAVStorageStats.__init__] *)
Definition init_dav (_ep : endpoint_conf) : result storage_stats :=
  self <- init DAVStorageStats _ep ;;
  construct (catch_config_file_error validate_plugin_options)
    (extend "DAV" dav_validators self).

Definition factory (plugin : string) : result storage_class :=
  if (plugin =? "libugrlocplugin_dav.so")%string then Ret DAVStorageStats
  else if (plugin =? "libugrlocplugin_http.so")%string then Ret DAVStorageStats
  else if (plugin =? "libugrlocplugin_s3.so")%string then Ret S3StorageStats
  else Raise (unsupported_plugin plugin).

(** [factory(...)(endpoints[endpoint])]: the class is called. *)
Definition new (c : storage_class) (_ep : endpoint_conf)
  : result storage_stats :=
  match c with
  | StorageStats => init StorageStats _ep
  | S3StorageStats => init_s3 _ep
  | DAVStorageStats => init_dav _ep
  end.

(** The body of [for endpoint in endpoints] in [get_endpoints]. *)
Definition get_endpoint (_ep : endpoint_conf) : result storage_stats :=
  match (c <- factory (ep_plugin _ep) ;; new c _ep) with
  | Raise (UGR UGRUnsupportedPluginError message dbg) =>
      ep <- init StorageStats _ep ;;
      Ret (record_failure message dbg ep)
  | r => r
  end.

(** [get_endpoints], from the dict that [get_config] returned. *)
Fixpoint get_endpoints (endpoints : pydict endpoint_conf)
  : result (list storage_stats) :=
  match endpoints with
  | [] => Ret []
  | (_, _ep) :: rest =>
      ep <- get_endpoint _ep ;;
      eps <- get_endpoints rest ;;
      Ret (ep :: eps)
  end.
End Construction.

(** *** Collection *)

(** What [connection.list_objects] does, called with [kwargs]: a reply, with the sizes
    of the objects under ['Contents'] and the ['NextMarker'], either of
    which may be absent; or one of the exceptions the loop handles, with
    the name of its class, its [str], and for a [ClientError] the HTTP
    status code of the reply. *)
Inductive s3_reply :=
| Listing (Contents : option (list Z)) (NextMarker : option string)
| ClientError (name : string) (http_status : Z) (msg : string)
| RequestException (name msg : string)
| ParamValidationError (name msg : string)
| BotoCoreError (name msg : string).

(** What [requests.request] does for the PROPFIND. *)
Inductive dav_reply :=
| Reply (r : Xml.response)
| ConnectionError (name msg : string)
| IOError (msg : string).

(** [s.replace(' ', '')] *)
Fixpoint remove_spaces (s : string) : string :=
  match s with
  | EmptyString => EmptyString
  | String c s' =>
      if (c =? " ")%char then remove_spaces s' else String c (remove_spaces s')
  end.

Section Collection.
(** The S3 service, asked with the endpoint URL, the bucket and the
    marker; the DAV server, asked with the URL. *)
Variable list_objects : string -> string -> option string -> s3_reply.
Variable propfind : string -> dav_reply.
(** The [ceph-admin] branch of [S3StorageStats.get_storagestats]. *)
Variable ceph_admin : action storage_stats unit.

(** The [while True] loop of the generic API. [None]: the loop is still
    running after [fuel] requests. The string ['0'] stored in
    [bytesused] before the first [break] is overwritten by the
    assignment that follows the loop, and is left out. *)
Fixpoint list_loop (fuel : nat) (api_url bucket : string)
    (marker : option string) (total_bytes total_files : Z)
  : option (result (Z * Z)) :=
  match fuel with
  | O => None
  | S fuel' =>
      match list_objects api_url bucket marker with
      | ClientError name http_status msg =>
          Some (Raise (connection_error name (Py.str (VInt http_status)) msg))
      | RequestException name msg | ParamValidationError name msg
      | BotoCoreError name msg =>
          Some (Raise (connection_error name "000" msg))
      | Listing None _ => Some (Ret (total_bytes, total_files))
      | Listing (Some contents) next =>
          let total_bytes' := fold_left Z.add contents total_bytes in
          let total_files' := total_files + Z.of_nat (List.length contents) in
          match next with
          | Some m => list_loop fuel' api_url bucket (Some m)
                        total_bytes' total_files'
          | None => Some (Ret (total_bytes', total_files'))
          end
      end
  end.

(** What is evaluated before the loop: the URL, the arguments of
    [boto3.client], the bucket. *)
Definition generic_setup : action storage_stats (string * string) :=
  alternate <~ option_lower "s3.alternate" ;;
  api_url <~ Act.read (fun self =>
    if is_yes alternate
    then Ret (scheme (uri self) ++ "://" ++ netloc (uri self))
    else match domain (uri self) with
         | Some d => Ret (scheme (uri self) ++ "://" ++ d)
         | None => Raise (KeyError "domain")
         end) ;;
  _ <~ option_ "s3.region" ;;
  _ <~ option_ "s3.pub_key" ;;
  _ <~ option_ "s3.priv_key" ;;
  _ <~ option_ "ssl_check" ;;
  _ <~ option_ "s3.signature_ver" ;;
  b <~ Act.read (fun self =>
    match bucket (uri self) with
    | Some b => Ret b
    | None => Raise (KeyError "bucket")
    end) ;;
  Act.ret (api_url, b).

(** What follows the loop. *)
Definition generic_finish (total_bytes total_files : Z)
  : action storage_stats unit :=
  Act.modify (set_bytesused (VInt total_bytes)) ;;;
  q <~ option_ "quota" ;;
  if Py.eq_str q "api" then
    n <~ Act.lift (Size.convert_size_to_bytes "1TB") ;;
    Act.modify (set_quota (VInt n)) ;;;
    Act.modify (set_files (VInt total_files)) ;;;
    free <~ Act.lift (Py.sub (VInt n) (VInt total_bytes)) ;;
    Act.modify (set_bytesfree free) ;;;
    Act.raise quota_warning
  else
    Act.modify (set_quota q) ;;;
    Act.modify (set_files (VInt total_files)) ;;;
    free <~ Act.lift (Py.sub q (VInt total_bytes)) ;;
    Act.modify (set_bytesfree free).

Definition generic (fuel : nat) (self : storage_stats)
  : option (storage_stats * result unit) :=
  match generic_setup self with
  | (self1, Raise e) => Some (self1, Raise e)
  | (self1, Ret (api_url, b)) =>
      match list_loop fuel api_url b None 0 0 with
      | None => None
      | Some (Raise e) => Some (self1, Raise e)
      | Some (Ret (total_bytes, total_files)) =>
          Some (generic_finish total_bytes total_files self1)
      end
  end.

(** [S3StorageStats.get_storagestats] *)
Definition s3_get_storagestats (fuel : nat) (self : storage_stats)
  : option (storage_stats * result unit) :=
  match option_lower "s3.api" self with
  | (self1, Raise e) => Some (self1, Raise e)
  | (self1, Ret api) =>
      if (api =? "ceph-admin")%string then Some (ceph_admin self1)
      else if (api =? "generic")%string then generic fuel self1
      else Some (self1, Ret tt)
  end.

(** [DAVStorageStats.get_storagestats] *)
Definition dav_get_storagestats : action storage_stats unit :=
  api_url <~ Act.read (fun self =>
    Ret (scheme (uri self) ++ "://" ++ netloc (uri self) ++ path (uri self))) ;;
  _ <~ option_ "cli_certificate" ;;
  _ <~ option_ "cli_private_key" ;;
  _ <~ option_ "ssl_check" ;;
  match propfind api_url with
  | ConnectionError name msg => Act.raise (connection_error name "000" msg)
  | IOError msg =>
      Act.raise (dav_cert_path (remove_spaces (last_item (split ":" msg))) msg)
  | Reply response =>
      tree <~ Act.lift (Xml.fromstring response) ;;
      node <~ Act.lift (Xml.find_text Xml.quota_available_bytes tree) ;;
      match node with
      | None =>
          (* the error is raised and caught on the spot *)
          match dav_quota_method "UnsupportedMethod" with
          | UGR _ message dbg =>
              Act.modify (fun self =>
                record_failure message dbg
                  (set_quota (VInt (-1))
                     (set_bytesfree (VInt (-1))
                        (set_bytesused (VInt (-1)) self))))
          | e => Act.raise e
          end
      | Some _ =>
          used <~ Act.lift (t <- Xml.find_text Xml.quota_used_bytes tree ;;
                            Xml.int_of_text t) ;;
          Act.modify (set_bytesused (VInt used)) ;;;
          free <~ Act.lift (t <- Xml.find_text Xml.quota_available_bytes tree ;;
                            Xml.int_of_text t) ;;
          Act.modify (set_bytesfree (VInt free)) ;;;
          q <~ option_ "quota" ;;
          if Py.eq_str q "api" then
            if negb (free =? 0)
            then Act.modify (set_quota (VInt (used + free)))
            else Act.ret tt
          else Act.modify (set_quota q)
      end
  end.

(** [endpoint.get_storagestats()], by the class of the object. *)
Definition get_storagestats (fuel : nat) (self : storage_stats)
  : option (storage_stats * result unit) :=
  match class self with
  | StorageStats => Some (self, Ret tt)
  | S3StorageStats => s3_get_storagestats fuel self
  | DAVStorageStats => Some (dav_get_storagestats self)
  end.
End Collection.

(** *** The loop of the main program *)

Section Dispatch.
(** The collector the loop calls; [None] when it does not return. *)
Variable collect : storage_stats -> option (storage_stats * result unit).

(** The [try] statement of the loop body. *)
Definition poll (endpoint : storage_stats) : option (result storage_stats) :=
  match collect endpoint with
  | None => None
  | Some (endpoint', Ret _) => Some (Ret endpoint')
  | Some (endpoint', Raise (UGR c message dbg)) =>
      if is_storagestats_warning c || is_storagestats_error c
      then Some (Ret (record_failure message dbg endpoint'))
      else Some (Raise (UGR c message dbg))
  | Some (_, Raise e) => Some (Raise e)
  end.

(** [for endpoint in endpoints], run with neither [-m] nor [--stdout],
    which is how the options are preset: the body is the [try] statement
    alone. The loop with the output steps is [dispatch] below. *)
Fixpoint poll_all (endpoints : list storage_stats)
  : option (result (list storage_stats)) :=
  match endpoints with
  | [] => Some (Ret [])
  | endpoint :: rest =>
      match poll endpoint with
      | None => None
      | Some (Raise e) => Some (Raise e)
      | Some (Ret endpoint') =>
          match poll_all rest with
          | None => None
          | Some (Raise e) => Some (Raise e)
          | Some (Ret rest') => Some (Ret (endpoint' :: rest'))
          end
      end
  end.
End Dispatch.

(** *** The output steps of the loop *)

(** The command-line options the loop reads. *)
Record options_t := {
  memcached_ip : string;
  memcached_port : string;
  output_memcached : bool;
  output_stdout : bool
}.

(** ['%%'.join([self.id, self.storageprotocol, ...])]; an object of the
    base class has no attribute [storageprotocol]. *)
Definition memcached_record (self : storage_stats) : result string :=
  match storageprotocol self with
  | None => Raise AttributeError
  | Some protocol =>
      Ret (id self ++ "%%" ++ protocol
           ++ "%%" ++ Py.str (VInt (timestamp (stats self)))
           ++ "%%" ++ Py.str (quota (stats self))
           ++ "%%" ++ Py.str (bytesused (stats self))
           ++ "%%" ++ Py.str (bytesfree (stats self))
           ++ "%%" ++ status self)
  end.

Section Output.
(** The module [memcache] is not among the sources. Its client is taken
    as it comes: the constructor, called with the server, and the methods
    [set] and [get], called with the server, the index and for [set] the
    value. Any of them may raise. *)
Variable new_client : string -> result unit.
Variable mc_set : string -> string -> string -> result pyval.
Variable mc_get : string -> string -> result (option string).
Variable options : options_t.

(** [StorageStats.upload_to_memcached] *)
Definition upload_to_memcached (memcached_ip memcached_port : string)
  : action storage_stats unit :=
  let memcached_srv := memcached_ip ++ ":" ++ memcached_port in
  _ <~ Act.lift (new_client memcached_srv) ;;
  memcached_index <~ Act.read (fun self => Ret ("Ugrstoragestats_" ++ id self)) ;;
  storagestats <~ Act.read memcached_record ;;
  r <~ Act.lift (mc_set memcached_srv memcached_index storagestats) ;;
  match Py.number r with
  | Some 0 =>
      (* the error is raised and caught on the spot *)
      match memcached_connection_error with
      | UGR _ message dbg => Act.modify (record_failure message dbg)
      | e => Act.raise e
      end
  | _ => Act.ret tt
  end.

(** [StorageStats.get_from_memcached]. Its [finally: return] ends every
    path that entered the [try]: an exception on its way out is dropped,
    and when [get] itself raised, the local it returns was never
    assigned. *)
Definition get_from_memcached : action storage_stats (option string) :=
  let memcached_srv := memcached_ip options ++ ":" ++ memcached_port options in
  _ <~ Act.lift (new_client memcached_srv) ;;
  memcached_index <~ Act.read (fun self => Ret ("Ugrstoragestats_" ++ id self)) ;;
  match mc_get memcached_srv memcached_index with
  | Raise _ => Act.raise (UnboundLocalError "memcached_contents")
  | Ret (Some memcached_contents) => Act.ret (Some memcached_contents)
  | Ret None =>
      match memcached_index_error "MemcachedEmptyIndex" "000" with
      | UGR _ message dbg =>
          Act.modify (record_failure message dbg) ;;;
          (fun self =>
             match memcached_record self with
             | Ret memcached_contents => (self, Ret (Some memcached_contents))
             | Raise _ => (self, Ret None)
             end)
      | _ => Act.ret None
      end
  end.

(** [StorageStats.output_to_stdout], as far as it reads and changes the
    object; what it prints is left out. *)
Definition output_to_stdout : action storage_stats unit :=
  _ <~ Act.lift (new_client (memcached_ip options ++ ":"
                              ++ memcached_port options)) ;;
  _ <~ get_from_memcached ;;
  _ <~ Act.read (fun self =>
         match storageprotocol self with
         | Some protocol => Ret protocol
         | None => Raise AttributeError
         end) ;;
  Act.ret tt.

(** What follows the [try] statement in the loop body. *)
Definition output : action storage_stats unit :=
  (if output_memcached options
   then upload_to_memcached (memcached_ip options) (memcached_port options)
   else Act.ret tt) ;;;
  (if output_stdout options then output_to_stdout else Act.ret tt).

Variable collect : storage_stats -> option (storage_stats * result unit).

(** The body of [for endpoint in endpoints]. *)
Definition round (endpoint : storage_stats) : option (result storage_stats) :=
  match poll collect endpoint with
  | Some (Ret endpoint') =>
      match output endpoint' with
      | (endpoint2, Ret _) => Some (Ret endpoint2)
      | (_, Raise e) => Some (Raise e)
      end
  | r => r
  end.

(** [for endpoint in endpoints], with the output steps. *)
Fixpoint dispatch (endpoints : list storage_stats)
  : option (result (list storage_stats)) :=
  match endpoints with
  | [] => Some (Ret [])
  | endpoint :: rest =>
      match round endpoint with
      | None => None
      | Some (Raise e) => Some (Raise e)
      | Some (Ret endpoint') =>
          match dispatch rest with
          | None => None
          | Some (Raise e) => Some (Raise e)
          | Some (Ret rest') => Some (Ret (endpoint' :: rest'))
          end
      end
  end.
End Output.

End Ugr.

(** ** [xml.py]: the sum of the content lengths *)

Module XmlSum.
Import Xml.

(** [_xml.iter(tag)]: the element itself and the elements below it that
    have the tag, in document order. *)
Definition iter (tag : string) (e : element) : list element :=
  filter (fun x => (tag_of x =? tag)%string) (e :: descendants e).

(** The [for _tags in ...] loop; an element whose [text] is no [str] is
    passed over. *)
Fixpoint sum_contentlength (tags : list element) (_bytesused _filecount : Z)
  : result (Z * Z) :=
  match tags with
  | [] => Ret (_bytesused, _filecount)
  | _tags :: rest =>
      match text_of _tags with
      | Some text =>
          n <- Size.int_of_str text ;;
          sum_contentlength rest (_bytesused + n) (_filecount + 1)
      | None => sum_contentlength rest _bytesused _filecount
      end
  end.

(** [content] is given as [etree.fromstring] reads it, [None] when it is
    not well-formed XML. *)
Definition add_xml_getcontentlength (content : option element)
  : result (Z * Z) :=
  _xml <- match content with
          | Some tree => Ret tree
          | None => Raise XMLSyntaxError
          end ;;
  sum_contentlength (iter "{DAV:}getcontentlength" _xml) 0 0.

End XmlSum.

(** ** [configloader.py]: shares grouped by URL *)

Module Endpoints.
Import Share.

(** [a == b] for two values of a [uri] dict or a mask. *)
Definition eq (a b : pyval) : bool :=
  match a, b with
  | VStr s, VStr t => (s =? t)%string
  | VStr _, _ | _, VStr _ => false
  | _, _ =>
      match Py.number a, Py.number b with
      | Some x, Some y => (x =? y)%Z
      | _, _ => false
      end
  end.

(** [_storage_share_object.id == storage_shares_mask
     or storage_shares_mask is True] *)
Definition selected (id : string) (storage_shares_mask : pyval) : bool :=
  eq (VStr id) storage_shares_mask
  || match storage_shares_mask with
     | VBool true => true
     | _ => false
     end.

(** [_urls_dict.setdefault(url, []); _urls_dict[url].append(share)] *)
Fixpoint add_share (url : pyval) (sh : storage_share)
    (_urls_dict : list (pyval * list storage_share))
  : list (pyval * list storage_share) :=
  match _urls_dict with
  | [] => [(url, [sh])]
  | (u, l) :: rest =>
      if eq u url then (u, (l ++ [sh])%list) :: rest
      else (u, l) :: add_share url sh rest
  end.

(** The first loop: [_urls_dict] after the shares were looked at. *)
Fixpoint urls_dict (storage_share_objects : list storage_share)
    (storage_shares_mask : pyval)
    (_urls_dict : list (pyval * list storage_share))
  : result (list (pyval * list storage_share)) :=
  match storage_share_objects with
  | [] => Ret _urls_dict
  | sh :: rest =>
      if selected (id sh) storage_shares_mask then
        url <- Dict.subscript "url" (uri sh) ;;
        urls_dict rest storage_shares_mask (add_share url sh _urls_dict)
      else urls_dict rest storage_shares_mask _urls_dict
  end.

Section StorageEndpoint.
(** The class [StorageEndpoint] lives in [base.py], which is not among
    the sources: its constructor and its method [add_storage_share] are
    taken as they come. *)
Variable endpoint : Type.
Variable new_endpoint : pyval -> endpoint.
Variable add_storage_share : storage_share -> endpoint -> endpoint.

Definition get_storage_endpoints (storage_share_objects : list storage_share)
    (storage_shares_mask : pyval) : result (list endpoint) :=
  _urls_dict <- urls_dict storage_share_objects storage_shares_mask [] ;;
  Ret (map (fun g =>
              fold_left (fun e sh => add_storage_share sh e) (snd g)
                (new_endpoint (fst g)))
         _urls_dict).
End StorageEndpoint.

End Endpoints.

(** ** [ugrstoragestats.py]: the configuration files *)

Module GetConfig.
Import PyStr.

(** One value of the [endpoints] dict: a dict whose keys are among
    ['id'], ['url'], ['plugin'] and ['plugin_options']. *)
Record entry := {
  e_id : option string;
  e_url : option string;
  e_plugin : option string;
  e_plugin_options : option (pydict string)
}.

Definition empty_entry : entry :=
  {| e_id := None; e_url := None; e_plugin := None;
     e_plugin_options := None |}.

(** The locals that live across the lines and the files; [_id] is [None]
    until a declaration line assigns it. *)
Record state := {
  endpoints : pydict entry;
  cur_id : option string
}.

Definition setdefault_entry (id : string) (d : pydict entry) : entry :=
  match Dict.get id d with
  | Some e => e
  | None => empty_entry
  end.

(** The body of [for line in f]. *)
Definition parse_line (raw_line : string) (st : state) : result state :=
  let line := strip raw_line in
  if negb (startswith "#" line) then
    if contains "glb.locplugin[]" line then
      match tl (split " " line) with      (* line.split(" ")[1::] *)
      | [_plugin; _id; _concurrency; _url] =>
          let e := setdefault_entry _id (endpoints st) in
          Ret {| endpoints :=
                   Dict.set _id
                     {| e_id := Some (strip _id);
                        e_url := Some (strip _url);
                        e_plugin := Some (last_item (split "/" _plugin));
                        e_plugin_options := e_plugin_options e |}
                     (endpoints st);
                 cur_id := Some _id |}
      | _ => Raise ValueError
      end
    else if contains "locplugin" line then
      let '(key, _val) := partition2 ":" line in
      match cur_id st with
      | None => Raise (UnboundLocalError "_id")
      | Some _id =>
          if contains _id key then
            let _option := last_item (split (_id ++ ".") key) in
            let e := setdefault_entry _id (endpoints st) in
            let options := match e_plugin_options e with
                           | Some o => o
                           | None => []
                           end in
            Ret {| endpoints :=
                     Dict.set _id
                       {| e_id := e_id e; e_url := e_url e;
                          e_plugin := e_plugin e;
                          e_plugin_options :=
                            Some (Dict.set _option (strip _val) options) |}
                       (endpoints st);
                   cur_id := cur_id st |}
          else
            (* UGRConfigFileErrorIDMismatch is raised, caught on the
               spot and answered with sys.exit(1) *)
            Raise SystemExit
      end
    else Ret st
  else Ret st.

Fixpoint parse_lines (lines : list string) (st : state) : result state :=
  match lines with
  | [] => Ret st
  | l :: ls => st' <- parse_line l st ;; parse_lines ls st'
  end.

Fixpoint parse_files (files : list (list string)) (st : state)
  : result state :=
  match files with
  | [] => Ret st
  | f :: fs => st' <- parse_lines f st ;; parse_files fs st'
  end.

(** [get_config], given the lines of the files that [glob] found, in the
    order it found them. *)
Definition get_config (files : list (list string)) : result (pydict entry) :=
  st <- parse_files files {| endpoints := []; cur_id := None |} ;;
  Ret (endpoints st).

(** What [get_endpoints] reads of one entry: the subscripts ['plugin'],
    ['id'], ['plugin_options'] and ['url'] of [factory] and
    [StorageStats.__init__]. *)
Definition conf_of (e : entry) : option Ugr.endpoint_conf :=
  match e_id e, e_url e, e_plugin e with
  | Some i, Some u, Some p =>
      Some {| Ugr.ep_id := i; Ugr.ep_url := u; Ugr.ep_plugin := p;
              Ugr.ep_plugin_options := e_plugin_options e |}
  | _, _, _ => None
  end.

End GetConfig.

(** ** Definitions used to state and prove the properties *)

Module Support.
Import PyStr.

(** The multiplier the table gives to [suffix], provided no entry before
    it could match a text that ends in [suffix]. *)
Fixpoint unique_hit (table : list (string * Z)) (suffix : string) : option Z :=
  match table with
  | [] => None
  | (s, m) :: rest =>
      if (s =? suffix)%string then Some m
      else if endswith s suffix || endswith suffix s then None
      else unique_hit rest suffix
  end.

(** The letters of the units, from kilo to peta. *)
Definition unit_letters : list string := ["k"; "m"; "g"; "t"; "p"].

(** *** Kinds of configuration lines *)

(** The stripped line starts with [#]. *)
Definition is_comment (raw : string) : bool :=
  startswith "#" (strip raw).

(** A share-declaration line: not a comment, with the declaration marker. *)
Definition is_declaration (raw : string) : bool :=
  negb (is_comment raw) && contains "glb.locplugin[]" (strip raw).

(** A setting line: not a comment, without the declaration marker, with
    the setting marker. *)
Definition is_setting (raw : string) : bool :=
  negb (is_comment raw) && negb (contains "glb.locplugin[]" (strip raw))
  && contains "locplugin" (strip raw).

(** A line with neither marker. *)
Definition is_other (raw : string) : bool :=
  negb (contains "glb.locplugin[]" (strip raw))
  && negb (contains "locplugin" (strip raw)).

(** The key of a setting line (the text before the first colon) and the
    second of its dot-separated segments, if it has one. *)
Definition key_of (raw : string) : string := fst (partition2 ":" (strip raw)).
Definition id_segment (raw : string) : option string :=
  nth_error (split "." (key_of raw)) 1.

(** A setting line for all shares. *)
Definition is_global_setting (raw : string) : bool :=
  is_setting raw &&
  match id_segment raw with
  | Some locid => (locid =? "*")%string
  | None => false
  end.

(** A line that declares no share and names none. *)
Definition is_quiet (raw : string) : bool :=
  is_comment raw || is_other raw || is_global_setting raw.

(** A result that is not the ID-mismatch error. *)
Definition not_mismatch {A : Type} (r : result A) : Prop :=
  match r with
  | Raise (DSSConfigFileErrorIDMismatch _ _ _ _ _) => False
  | _ => True
  end.

(** A setting line that names a share: its ID segment is not the
    wildcard. *)
Definition is_named_setting (raw : string) : bool :=
  is_setting raw &&
  match id_segment raw with
  | Some locid => negb (locid =? "*")%string
  | None => false
  end.

(** A line with the setting marker whose key has no ID segment. *)
Definition lacks_id_segment (raw : string) : bool :=
  is_setting raw &&
  match id_segment raw with
  | Some _ => false
  | None => true
  end.

(** A line that may come before the first setting line that names a
    share, when that line comes before every declaration. *)
Definition before_first_named (raw : string) : bool :=
  negb (is_declaration raw) && negb (is_named_setting raw).

(** *** Sequencing of loops that may raise or not return *)

Definition join {A : Type} (x y : option (result (list A)))
  : option (result (list A)) :=
  match x with
  | Some (Ret a) =>
      match y with
      | Some (Ret b) => Some (Ret (a ++ b)%list)
      | o => o
      end
  | o => o
  end.

Definition join_result {A : Type} (x y : result (list A)) : result (list A) :=
  a <- x ;; b <- y ;; Ret (a ++ b)%list.

(** What [process_rfc4331_response] and the dispatch count as a pass that
    left statistics: no exception, or the zero-quota warning. *)
Definition collected (o : result unit) : bool :=
  match o with
  | Ret _ => true
  | Raise (DAVZeroQuotaWarning _) => true
  | Raise _ => false
  end.

(** The number a reply gives for one of the two properties. *)
Definition reported (tag : string) (tree : Xml.element) : result Z :=
  t <- Xml.find_text tag tree ;; Xml.int_of_text t.

(** *** Records of the parser *)

(** The settings a record holds; none while it has no ['plugin_settings']. *)
Definition settings_of (r : ConfigLoader.raw_share) : pydict string :=
  match ConfigLoader.rs_plugin_settings r with
  | Some ps => ps
  | None => []
  end.

(** [filled globals kr kr']: the entry [kr'] is the entry [kr] with every
    setting of [globals] that [kr] lacks: a setting [kr] has keeps its
    value, and nothing else changes. *)
Definition filled (globals : pydict string)
    (kr kr' : string * ConfigLoader.raw_share) : Prop :=
  fst kr' = fst kr
  /\ ConfigLoader.rs_id (snd kr') = ConfigLoader.rs_id (snd kr)
  /\ ConfigLoader.rs_url (snd kr') = ConfigLoader.rs_url (snd kr)
  /\ ConfigLoader.rs_plugin (snd kr') = ConfigLoader.rs_plugin (snd kr)
  /\ forall s,
       Dict.get s (settings_of (snd kr'))
       = match Dict.get s (settings_of (snd kr)) with
         | Some v => Some v
         | None => Dict.get s globals
         end.

(** An entry whose record carries its key as ['id'], and has a URL and a
    plugin. *)
Definition well_keyed (kr : string * ConfigLoader.raw_share) : Prop :=
  ConfigLoader.rs_id (snd kr) = Some (PyStr.strip (fst kr))
  /\ ConfigLoader.rs_url (snd kr) <> None
  /\ ConfigLoader.rs_plugin (snd kr) <> None.

(** What every step of the scan keeps true of the locals of
    [parse_conf_files]: the records are well keyed, no key occurs twice,
    and the ID declared last has a record. *)
Definition parser_invariant (st : ConfigLoader.pstate) : Prop :=
  Forall well_keyed (ConfigLoader.storage_shares st)
  /\ NoDup (Dict.keys (ConfigLoader.storage_shares st))
  /\ forall id, ConfigLoader.cur_id st = Some id ->
                Dict.mem id (ConfigLoader.storage_shares st) = true.

(** The first occurrences in a list, in order: an element is dropped
    when an element before it is the same. *)
Fixpoint first_occurrences {A : Type} (same : A -> A -> bool) (l : list A)
  : list A :=
  match l with
  | [] => []
  | x :: rest =>
      x :: filter (fun y => negb (same x y)) (first_occurrences same rest)
  end.

(** What a share-declaration line declares: the plugin, the ID and the
    URL, when the line has the four fields the unpacking asks for. *)
Definition declaration_of (raw : string) : option (string * string * string) :=
  if is_declaration raw then
    match tl (split_ws (strip raw)) with
    | [plugin; id; _; url] => Some (plugin, id, url)
    | _ => None
    end
  else None.

(** The IDs that the lines declare, in the order of the lines. *)
Definition declared_ids (lines : list string) : list string :=
  flat_map (fun l => match declaration_of l with
                     | Some (_, id, _) => [id]
                     | None => []
                     end) lines.

(** The plugin and the URL on the last line that declares [id]. *)
Definition last_declaration (id : string) (lines : list string)
  : option (string * string) :=
  fold_left (fun found l =>
               match declaration_of l with
               | Some (plugin, id', url) =>
                   if (id' =? id)%string then Some (plugin, url) else found
               | None => found
               end) lines None.

(** The record stored under [id] has the URL and the plugin of the last
    line of [lines] that declares [id]. *)
Definition from_last_declaration (lines : list string)
    (kr : string * ConfigLoader.raw_share) : Prop :=
  exists plugin url,
    last_declaration (fst kr) lines = Some (plugin, url)
    /\ ConfigLoader.rs_url (snd kr) = Some (strip url)
    /\ ConfigLoader.rs_plugin (snd kr) = Some (last_item (split "/" plugin)).

(** What the scan keeps true of its records, [lines] being the lines
    read so far. *)
Definition records_invariant (lines : list string) (st : ConfigLoader.pstate)
  : Prop :=
  parser_invariant st
  /\ Dict.keys (ConfigLoader.storage_shares st)
     = first_occurrences String.eqb (declared_ids lines)
  /\ forall id r, Dict.get id (ConfigLoader.storage_shares st) = Some r ->
                  from_last_declaration lines (id, r).

(** *** Listings and groups *)

(** The texts of the elements that have one. *)
Definition texts_of (els : list Xml.element) : list string :=
  flat_map (fun e => match Xml.text_of e with
                     | Some t => [t]
                     | None => []
                     end) els.

(** The URL a group of shares is filed under equals the URL of each of
    its shares, and the group is not empty. *)
Definition same_url (g : pyval * list Share.storage_share) : Prop :=
  snd g <> []
  /\ Forall (fun sh => exists u, Dict.get "url" (Share.uri sh) = Some u
                                 /\ Endpoints.eq (fst g) u = true) (snd g).

(** No URL of an earlier group equals the URL of a later one. *)
Fixpoint distinct_urls (d : list (pyval * list Share.storage_share)) : Prop :=
  match d with
  | [] => True
  | g :: rest =>
      Forall (fun h => Endpoints.eq (fst g) (fst h) = false) rest
      /\ distinct_urls rest
  end.
(** Both shares have a URL, and the two URLs are equal. *)
Definition shares_url (a b : Share.storage_share) : bool :=
  match Dict.get "url" (Share.uri a), Dict.get "url" (Share.uri b) with
  | Some u, Some v => Endpoints.eq u v
  | _, _ => false
  end.

(** [group_of selected g leader]: the group [g] is filed under the URL
    of [leader], and holds the shares of [selected] that have this URL,
    in the order they have in [selected]. *)
Definition group_of (selected : list Share.storage_share)
    (g : pyval * list Share.storage_share) (leader : Share.storage_share)
  : Prop :=
  Dict.get "url" (Share.uri leader) = Some (fst g)
  /\ snd g = filter (shares_url leader) selected.

(** *** Entries of [get_config] *)

(** An entry of [get_config] that carries its key as ['id'] and has the
    three keys [get_endpoints] and the constructors subscript. *)
Definition complete_entry (kv : string * GetConfig.entry) : Prop :=
  GetConfig.e_id (snd kv) = Some (PyStr.strip (fst kv))
  /\ GetConfig.conf_of (snd kv) <> None.

(** What every line keeps true of the locals of [get_config]. *)
Definition config_invariant (st : GetConfig.state) : Prop :=
  Forall complete_entry (GetConfig.endpoints st)
  /\ NoDup (Dict.keys (GetConfig.endpoints st))
  /\ forall id, GetConfig.cur_id st = Some id ->
                Dict.mem id (GetConfig.endpoints st) = true.

(** The key of an option line: the text before its first colon. *)
Definition option_key (raw : string) : string :=
  fst (PyStr.partition2 ":" (PyStr.strip raw)).

(** An option line: no comment, no declaration, with the marker. *)
Definition is_option_line (raw : string) : bool :=
  negb (PyStr.startswith "#" (PyStr.strip raw))
  && negb (PyStr.contains "glb.locplugin[]" (PyStr.strip raw))
  && PyStr.contains "locplugin" (PyStr.strip raw).
(** *** Validation and dispatch *)

(** The ways one round of the loop over the validators ends. *)
Inductive option_outcome (k : string) (v : Ugr.validator)
    (self : Ugr.storage_stats) : Ugr.storage_stats * result unit -> Prop :=
| oo_kept : Dict.mem k (Ugr.plugin_options self) = true ->
    option_outcome k v self (self, Ret tt)
| oo_boolean b : Dict.mem k (Ugr.plugin_options self) = true ->
    Ugr.v_valid v <> None ->
    option_outcome k v self (Ugr.set_option k (VBool b) self, Ret tt)
| oo_default d m dbg : Dict.get k (Ugr.plugin_options self) = None ->
    Ugr.v_default v = Some d ->
    option_outcome k v self
      (Ugr.set_option k d (Ugr.record_failure m dbg self), Ret tt)
| oo_required : Dict.get k (Ugr.plugin_options self) = None ->
    option_outcome k v self
      (Ugr.set_option k (VStr "") self,
       Raise (Ugr.missing_required_option k))
| oo_key name : option_outcome k v self (self, Raise (KeyError name))
| oo_type : option_outcome k v self (self, Raise TypeError)
| oo_attribute : option_outcome k v self (self, Raise AttributeError).

(** An exception of Python itself, which no handler of the program
    catches. *)
Definition is_builtin (e : exn) : bool :=
  match e with
  | KeyError _ | IndexError | ValueError | TypeError | AttributeError
  | UnboundLocalError _ | SystemExit => true
  | _ => false
  end.

(** [polled collect e e']: the round of the dispatch loop for [e] ends
    with the object [e']: the collector returned, or raised a storage
    statistics warning or error that the loop recorded. *)
Definition polled
    (collect : Ugr.storage_stats -> option (Ugr.storage_stats * result unit))
    (e e' : Ugr.storage_stats) : Prop :=
  exists s o,
    collect e = Some (s, o) /\
    match o with
    | Ret _ => e' = s
    | Raise (UGR c m d) =>
        (Ugr.is_storagestats_warning c || Ugr.is_storagestats_error c) = true
        /\ e' = Ugr.record_failure m d s
    | Raise _ => False
    end.

(** *** The pages of an S3 listing *)

(** [pages list_objects url bucket marker ps]: asking with [marker] and
    then with each [NextMarker] in turn gives the pages [ps], the last of
    which has no [NextMarker]; a page that has one has contents. *)
Inductive pages (list_objects : string -> string -> option string -> Ugr.s3_reply)
    (api_url bucket : string) : option string -> list (list Z) -> Prop :=
| pages_last marker contents :
    list_objects api_url bucket marker = Ugr.Listing contents None ->
    pages list_objects api_url bucket marker
      [match contents with Some cs => cs | None => [] end]
| pages_next marker cs next rest :
    list_objects api_url bucket marker = Ugr.Listing (Some cs) (Some next) ->
    pages list_objects api_url bucket (Some next) rest ->
    pages list_objects api_url bucket marker (cs :: rest).

Definition total_size (ps : list (list Z)) : Z :=
  fold_right Z.add 0 (concat ps).
Definition total_count (ps : list (list Z)) : Z :=
  Z.of_nat (List.length (concat ps)).

End Support.

(** ** Sample inputs *)

Module Examples.
Import Share Xml.

(** A multistatus reply that gives the two quota properties. *)
Definition quota_reply (used available : string) : response :=
  {| status_code := 207;
     content :=
       Some (Element "{DAV:}multistatus" None
               [Element "{DAV:}response" None
                  [Element "{DAV:}href" (Some "/data/") [];
                   Element "{DAV:}propstat" None
                     [Element "{DAV:}prop" None
                        [Element quota_available_bytes (Some available) [];
                         Element quota_used_bytes (Some used) []];
                      Element "{DAV:}status" (Some "HTTP/1.1 200 OK") []]]]);
     content_str := "<multistatus/>" |}.

(** A multistatus reply that names neither property. *)
Definition plain_reply : response :=
  {| status_code := 207;
     content :=
       Some (Element "{DAV:}multistatus" None
               [Element "{DAV:}response" None
                  [Element "{DAV:}href" (Some "/data/") [];
                   Element "{DAV:}propstat" None
                     [Element "{DAV:}prop" None [];
                      Element "{DAV:}status" (Some "HTTP/1.1 200 OK") []]]]);
     content_str := "<multistatus/>" |}.

(** A share as it is before collection, with the given quota setting. *)
Definition dav_share (quota_setting : pyval) : storage_share :=
  {| id := "dav1";
     uri := [("url", VStr "davs://host/data")];
     plugin_settings :=
       [("storagestats.api", VStr "rfc4331");
        ("storagestats.quota", quota_setting);
        ("conn_timeout", VStr "10")];
     stats := {| bytesused := VInt 0; bytesfree := VInt 0;
                 filecount := VInt 0; quota := VInt (1000 ^ 4);
                 starttime := VInt 0; endtime := VInt 0 |};
     status := [];
     debug := [] |}.

Definition azure_share : storage_share :=
  {| id := "blob1";
     uri := [("url", VStr "https://account.blob.core.windows.net/container");
             ("account", VStr "account"); ("container", VStr "container")];
     plugin_settings :=
       [("azure.key", VStr "key"); ("storagestats.api", VStr "generic");
        ("storagestats.quota", VInt 5000); ("conn_timeout", VStr "10")];
     stats := {| bytesused := VInt 0; bytesfree := VInt 0;
                 filecount := VInt 0; quota := VInt (1000 ^ 4);
                 starttime := VInt 0; endtime := VInt 0 |};
     status := [];
     debug := [] |}.

(** [urlsplit] on URLs of the form [scheme://host:port/path], port and
    path optional, which is all the sample configurations hold. *)
Fixpoint after_scheme (s : string) : option (string * string) :=
  match s with
  | EmptyString => None
  | String c s' =>
      if PyStr.startswith "://" s
      then Some (EmptyString, substring 3 (String.length s - 3) s)
      else match after_scheme s' with
           | Some (a, b) => Some (String c a, b)
           | None => None
           end
  end.

Definition port_of (prt : string) : result (option Z) :=
  if (prt =? "")%string then Ret None
  else match PyStr.parse_int prt with
       | Some n => if (0 <=? n) && (n <=? 65535) then Ret (Some n)
                   else Raise ValueError
       | None => Raise ValueError
       end.

Definition urlsplit (url : string) : result Ugr.split_result :=
  match after_scheme url with
  | None =>
      Ret {| Ugr.sr_scheme := ""; Ugr.sr_netloc := ""; Ugr.sr_path := url;
             Ugr.sr_hostname := None; Ugr.sr_port := Ret None |}
  | Some (sch, rest) =>
      let '(loc, p) := PyStr.partition2 "/" rest in
      let '(host, prt) := PyStr.partition2 ":" loc in
      Ret {| Ugr.sr_scheme := PyStr.lower sch;
             Ugr.sr_netloc := loc;
             Ugr.sr_path := if PyStr.contains "/" rest then "/" ++ p else "";
             Ugr.sr_hostname := Some (PyStr.lower host);
             Ugr.sr_port := port_of prt |}
  end.

(** Entries of the dict [get_config] returns. *)
Definition dav_conf (id quota_option : string) : Ugr.endpoint_conf :=
  {| Ugr.ep_id := id;
     Ugr.ep_url := "davs://" ++ id ++ ".example.org/data";
     Ugr.ep_plugin := "libugrlocplugin_dav.so";
     Ugr.ep_plugin_options :=
       Some [("cli_certificate", "/etc/grid-security/cert.pem");
             ("cli_private_key", "/etc/grid-security/key.pem");
             ("quota", quota_option)] |}.

Definition s3_conf (id quota_option : string) : Ugr.endpoint_conf :=
  {| Ugr.ep_id := id;
     Ugr.ep_url := "s3://" ++ id ++ ".s3.example.org/";
     Ugr.ep_plugin := "libugrlocplugin_s3.so";
     Ugr.ep_plugin_options :=
       Some [("s3.api", "generic");
             ("s3.priv_key", "secret");
             ("s3.pub_key", "public");
             ("s3.region", "us-east-1");
             ("ssl_check", "true");
             ("quota", quota_option)] |}.

Definition rucio_conf (id : string) : Ugr.endpoint_conf :=
  {| Ugr.ep_id := id;
     Ugr.ep_url := "davs://" ++ id ++ ".example.org/data";
     Ugr.ep_plugin := "libugrlocplugin_davrucio.so";
     Ugr.ep_plugin_options := Some [("ssl_check", "true")] |}.

(** An S3 service with one page of two objects, of 100 and 200 bytes. *)
Definition two_objects (api_url bucket : string) (marker : option string)
  : Ugr.s3_reply :=
  Ugr.Listing (Some [100; 200]) None.

(** An S3 service with three pages. *)
Definition three_pages (api_url bucket : string) (marker : option string)
  : Ugr.s3_reply :=
  match marker with
  | None => Ugr.Listing (Some [100; 200]) (Some "k2")
  | Some m =>
      if (m =? "k2")%string then Ugr.Listing (Some [50]) (Some "k3")
      else Ugr.Listing (Some [7; 8; 9]) None
  end.

(** An S3 service that serves one page and refuses the next request. *)
Definition broken_listing (api_url bucket : string) (marker : option string)
  : Ugr.s3_reply :=
  match marker with
  | None => Ugr.Listing (Some [100; 200]) (Some "k2")
  | Some _ => Ugr.ClientError "ClientError" 403 "Forbidden"
  end.

(** A DAV server that answers every request with the same reply. *)
Definition dav_server (r : response) (api_url : string) : Ugr.dav_reply :=
  Ugr.Reply r.

(** A DAV server that cannot be reached. *)
Definition dav_unreachable (api_url : string) : Ugr.dav_reply :=
  Ugr.ConnectionError "ConnectionError" "Connection refused".

(** The [ceph-admin] branch is not taken by the samples. *)
Definition no_ceph_admin : action Ugr.storage_stats unit := Act.ret tt.

End Examples.

(** * Properties *)

(** ** Facts about the string operations *)

Module PyStrFacts.
Import PyStr.

Lemma lower_app (a b : string) : lower (a ++ b) = lower a ++ lower b.
Proof. induction a as [|c a IH]; simpl; [reflexivity | now rewrite IH]. Qed.

Lemma lower_length (s : string) : String.length (lower s) = String.length s.
Proof. induction s as [|c s IH]; simpl; [reflexivity | now rewrite IH]. Qed.

Lemma length_app (a b : string) :
  String.length (a ++ b) = (String.length a + String.length b)%nat.
Proof. induction a as [|c a IH]; simpl; [reflexivity | now rewrite IH]. Qed.

Lemma app_empty_r (a : string) : a ++ "" = a.
Proof. induction a as [|c a IH]; simpl; [reflexivity | now rewrite IH]. Qed.

Lemma app_assoc (a b c : string) : (a ++ b) ++ c = a ++ (b ++ c).
Proof. induction a as [|x a IH]; simpl; [reflexivity | now rewrite IH]. Qed.

Lemma endswith_nil (suf : string) :
  endswith suf "" = ("" =? suf)%string.
Proof. unfold endswith. apply orb_false_r. Qed.

Lemma endswith_cons (suf : string) (c : ascii) (s : string) :
  endswith suf (String c s) = ((String c s =? suf)%string || endswith suf s).
Proof. reflexivity. Qed.

Lemma endswith_app (suf p : string) : endswith suf (p ++ suf) = true.
Proof.
  induction p as [|c p IH].
  - change ("" ++ suf) with suf.
    destruct suf; [reflexivity|].
    rewrite endswith_cons, String.eqb_refl. reflexivity.
  - change (String c p ++ suf) with (String c (p ++ suf)).
    rewrite endswith_cons, IH. apply orb_true_r.
Qed.

Lemma endswith_inv (suf s : string) :
  endswith suf s = true -> exists p, s = p ++ suf.
Proof.
  induction s as [|c s IH]; intros H.
  - rewrite endswith_nil in H. apply String.eqb_eq in H as <-. now exists "".
  - rewrite endswith_cons in H. apply orb_true_iff in H as [H | H].
    + exists "". apply String.eqb_eq in H. now rewrite <- H.
    + destruct (IH H) as [p ->]. now exists (String c p).
Qed.

(** Two texts with a common end: one suffix is a suffix of the other. *)
Lemma app_suffix_cases (x a : string) : forall p b,
  x ++ a = p ++ b -> (exists q, a = q ++ b) \/ (exists q, b = q ++ a).
Proof.
  induction x as [|c x IH]; simpl; intros p b H.
  - left. now exists p.
  - destruct p as [|c' p]; simpl in H.
    + right. exists (String c x). now rewrite <- H.
    + injection H as _ H. eauto.
Qed.

Lemma endswith_app_false (a b p : string) :
  endswith a b = false -> endswith b a = false ->
  endswith a (p ++ b) = false.
Proof.
  intros Hab Hba. destruct (endswith a (p ++ b)) eqn:E; [|reflexivity].
  apply endswith_inv in E as [q E].
  destruct (app_suffix_cases _ _ _ _ E) as [[r ->] | [r ->]].
  - now rewrite endswith_app in Hab.
  - now rewrite endswith_app in Hba.
Qed.

Lemma substring_prefix (d t : string) :
  substring 0 (String.length d) (d ++ t) = d.
Proof.
  induction d as [|c d IH]; simpl.
  - now destruct t.
  - now rewrite IH.
Qed.

Lemma drop_last_app (d t : string) :
  drop_last (String.length t) (d ++ t) = d.
Proof.
  unfold drop_last. rewrite length_app.
  replace (String.length d + String.length t - String.length t)%nat
    with (String.length d) by lia.
  apply substring_prefix.
Qed.

(** A text whose lower-case form ends in [suf] ends in a text whose
    lower-case form is [suf]. *)
Lemma lower_app_inv (p suf : string) : forall s,
  lower s = p ++ suf ->
  exists d u, s = d ++ u /\ lower d = p /\ lower u = suf.
Proof.
  induction p as [|c p IH]; simpl; intros s H.
  - exists "", s. auto.
  - destruct s as [|c' s]; simpl in H; [discriminate|].
    injection H as Hc H. destruct (IH _ H) as (d & u & -> & Hd & Hu).
    exists (String c' d), u. simpl. now rewrite Hd, Hc.
Qed.

End PyStrFacts.

(** ** [convert_size_to_bytes] *)

Module SizeFacts.
Import PyStr PyStrFacts Size Support.

Lemma unique_hit_sound (table : list (string * Z)) :
  forall suffix m d u,
    unique_hit table suffix = Some m ->
    lower u = suffix ->
    suffix_loop table (d ++ u)
    = Some (n <- int_of_str d ;; Ret (n * m)).
Proof.
  induction table as [|[s m'] rest IH]; cbn [unique_hit suffix_loop];
    intros suffix m d u H Hu.
  - discriminate.
  - rewrite lower_app, Hu.
    destruct (String.eqb_spec s suffix) as [-> | Hne].
    + injection H as ->. rewrite endswith_app.
      rewrite <- Hu at 1. rewrite lower_length, drop_last_app. reflexivity.
    + destruct (endswith s suffix) eqn:E1; [discriminate|].
      destruct (endswith suffix s) eqn:E2; [discriminate|]. cbn [orb] in H.
      rewrite (endswith_app_false _ _ _ E1 E2).
      eapply IH; eassumption.
Qed.

Lemma suffix_loop_inv (table : list (string * Z)) :
  forall size r,
    suffix_loop table size = Some r ->
    exists d u m,
      size = d ++ u /\ In (lower u, m) table /\
      r = (n <- int_of_str d ;; Ret (n * m)).
Proof.
  induction table as [|[s m] rest IH]; cbn [suffix_loop In]; intros size r H.
  - discriminate.
  - destruct (endswith s (lower size)) eqn:E.
    + injection H as <-. apply endswith_inv in E as [p E].
      apply lower_app_inv in E as (d & u & -> & _ & Hu).
      exists d, u, m. rewrite <- Hu at 2.
      rewrite lower_length, drop_last_app, Hu. auto.
    + destruct (IH _ _ H) as (d & u & m' & ? & ? & ?).
      exists d, u, m'. auto.
Qed.

(** C7. [convert_size_to_bytes] is a function of its argument: it gives
    1024**4 for "1TiB", 2*1000**3 for "2GB" and 500 for "500"; for a number
    followed by a unit written in any letter case it multiplies the number
    by 1024**n for the binary units and by 1000**n for the decimal ones,
    the unit of three letters winning over the final "b"; it ends the
    program on "1024x"; and whenever it returns a number, the whole text
    before the unit was read as an integer. *)
Theorem convert_size_to_bytes_spec :
  convert_size_to_bytes "1TiB" = Ret (1024 ^ 4) /\
  convert_size_to_bytes "2GB" = Ret (2 * 1000 ^ 3) /\
  convert_size_to_bytes "500" = Ret 500 /\
  convert_size_to_bytes "1024x" = Raise SystemExit /\
  (forall n letter d u,
      nth_error unit_letters n = Some letter ->
      (lower u = letter ++ "ib" ->
       convert_size_to_bytes (d ++ u)
       = (x <- int_of_str d ;; Ret (x * 1024 ^ Z.of_nat (S n)))) /\
      (lower u = letter ++ "b" ->
       convert_size_to_bytes (d ++ u)
       = (x <- int_of_str d ;; Ret (x * 1000 ^ Z.of_nat (S n))))) /\
  (forall size n,
      convert_size_to_bytes size = Ret n ->
      exists d u k m,
        size = d ++ u /\ parse_int d = Some k /\ n = k * m /\
        (In (lower u, m) multipliers \/ (lower u = "b" /\ m = 1)
         \/ (u = "" /\ m = 1))).
Proof.
  repeat split; try reflexivity.
  - intros Hu. unfold convert_size_to_bytes.
    destruct n as [|[|[|[|[|n]]]]]; simpl in H; try discriminate;
      [ | | | | | now destruct n ];
      injection H as <-;
      (erewrite unique_hit_sound; [ | | exact Hu]; [ | reflexivity]);
      reflexivity.
  - intros Hu. unfold convert_size_to_bytes.
    destruct n as [|[|[|[|[|n]]]]]; simpl in H; try discriminate;
      [ | | | | | now destruct n ];
      injection H as <-;
      (erewrite unique_hit_sound; [ | | exact Hu]; [ | reflexivity]);
      reflexivity.
  - intros size n H. unfold convert_size_to_bytes in H.
    destruct (suffix_loop multipliers size) as [r|] eqn:E.
    + apply suffix_loop_inv in E as (d & u & m & -> & Hin & ->).
      unfold int_of_str in H. destruct (parse_int d) as [k|] eqn:Ek;
        simpl in H; [|discriminate].
      injection H as <-. exists d, u, k, m. auto.
    + destruct (endswith "b" (lower size)) eqn:Eb.
      * apply endswith_inv in Eb as [p Eb].
        apply lower_app_inv in Eb as (d & u & -> & _ & Hu).
        assert (Hl : String.length u = 1%nat)
          by (rewrite <- lower_length, Hu; reflexivity).
        rewrite <- Hl, drop_last_app in H. unfold int_of_str in H.
        destruct (parse_int d) as [k|] eqn:Ek; [|discriminate].
        injection H as <-. exists d, u, k, 1. repeat split; auto; lia.
      * destruct (parse_int size) as [k|] eqn:Ek; [|discriminate].
        injection H as <-. exists size, "", k, 1.
        rewrite app_empty_r. repeat split; auto; lia.
Qed.

Lemma convert_size_to_bytes_spec_witness :
  convert_size_to_bytes "3KiB" = Ret 3072 /\
  convert_size_to_bytes "7Mb" = Ret 7000000.
Proof.
  destruct convert_size_to_bytes_spec as (_ & _ & _ & _ & Hunit & _).
  split.
  - exact (proj1 (Hunit 0%nat "k" "3" "KiB" eq_refl) eq_refl).
  - exact (proj2 (Hunit 1%nat "m" "7" "Mb" eq_refl) eq_refl).
Defined.

End SizeFacts.

(** ** [parse_conf_files] *)

Module ConfigFacts.
Import PyStr ConfigLoader Support.

Ltac split_bools :=
  repeat match goal with
    | H : (_ && _)%bool = true |- _ => apply andb_true_iff in H as [? ?]
    | H : negb _ = true |- _ => apply negb_true_iff in H
    end.

Lemma parse_line_comment file n raw st :
  is_comment raw = true -> parse_line file n raw st = Ret st.
Proof. unfold is_comment, parse_line. now intros ->. Qed.

Lemma parse_line_other file n raw st :
  is_other raw = true -> is_comment raw = false ->
  parse_line file n raw st = Ret st.
Proof.
  unfold is_other, is_comment, parse_line. intros H ->. split_bools.
  now rewrite H, H0.
Qed.

(** A setting line is read up to the test of its ID segment. *)
Lemma parse_line_setting file n raw st locid :
  is_setting raw = true -> id_segment raw = Some locid ->
  parse_line file n raw st =
  if (locid =? "*")%string then
    Ret {| storage_shares := storage_shares st;
           global_settings :=
             Dict.set (last_item (split "*." (key_of raw)))
               (strip (snd (partition2 ":" (strip raw))))
               (global_settings st);
           cur_id := cur_id st |}
  else
    match cur_id st with
    | None => Raise (UnboundLocalError "_id")
    | Some id =>
        if (id =? locid)%string then
          Ret {| storage_shares :=
                   add_local_setting id
                     (last_item (split (id ++ ".") (key_of raw)))
                     (strip (snd (partition2 ":" (strip raw))))
                     (storage_shares st);
                 global_settings := global_settings st;
                 cur_id := cur_id st |}
        else
          Raise (DSSConfigFileErrorIDMismatch id "SettingIDMismatch" n file
                   (hd "" (split ":" (strip raw))))
    end.
Proof.
  unfold is_setting, is_comment, id_segment, key_of, parse_line.
  intros H Hseg. split_bools. rewrite H, H1, H0.
  destruct (partition2 ":" (strip raw)) as [key value]. cbn [fst snd] in *.
  now rewrite Hseg.
Qed.

Lemma parse_line_quiet file n raw st :
  is_quiet raw = true ->
  exists st', parse_line file n raw st = Ret st'
              /\ cur_id st' = cur_id st
              /\ storage_shares st' = storage_shares st.
Proof.
  unfold is_quiet. intros H.
  destruct (is_comment raw) eqn:Ec.
  { exists st. now rewrite parse_line_comment. }
  destruct (is_other raw) eqn:Eo.
  { exists st. now rewrite parse_line_other. }
  cbn [orb] in H. unfold is_global_setting in H. split_bools.
  destruct (id_segment raw) as [locid|] eqn:Es; [|discriminate].
  rewrite (parse_line_setting _ _ _ _ _ H Es), H0. eexists. now split.
Qed.

Lemma parse_lines_quiet file lines : forall n st,
  Forall (fun l => is_quiet l = true) lines ->
  exists st', parse_lines file n lines st = Ret st'
              /\ cur_id st' = cur_id st
              /\ storage_shares st' = storage_shares st.
Proof.
  induction lines as [|l ls IH]; intros n st H; cbn [parse_lines].
  - now exists st.
  - inversion H as [|? ? Hl Hls]; subst.
    destruct (parse_line_quiet file n l st Hl) as (st1 & -> & Hc & Hs).
    cbn [bind]. destruct (IH (S n) st1 Hls) as (st2 & -> & Hc2 & Hs2).
    exists st2. repeat split; congruence.
Qed.

Lemma parse_files_quiet files : forall st,
  Forall (fun f => Forall (fun l => is_quiet l = true) (snd f)) files ->
  exists st', parse_files files st = Ret st'
              /\ cur_id st' = cur_id st
              /\ storage_shares st' = storage_shares st.
Proof.
  induction files as [|[name lines] fs IH]; intros st H; cbn [parse_files].
  - now exists st.
  - inversion H as [|? ? Hl Hls]; subst. cbn [snd] in Hl.
    destruct (parse_lines_quiet name lines 0%nat st Hl) as (st1 & -> & Hc & Hs).
    cbn [bind]. destruct (IH st1 Hls) as (st2 & -> & Hc2 & Hs2).
    exists st2. repeat split; congruence.
Qed.

Lemma parse_lines_app file pre : forall n post st,
  parse_lines file n (pre ++ post) st =
  (st' <- parse_lines file n pre st ;;
   parse_lines file (n + List.length pre) post st').
Proof.
  induction pre as [|l ls IH]; intros n post st; cbn [parse_lines app List.length].
  - cbn [bind]. now rewrite Nat.add_0_r.
  - destruct (parse_line file n l st) as [st1|e]; cbn [bind]; [|reflexivity].
    rewrite IH. now rewrite Nat.add_succ_comm.
Qed.

Lemma parse_files_app before : forall rest st,
  parse_files (before ++ rest) st =
  (st' <- parse_files before st ;; parse_files rest st').
Proof.
  induction before as [|[name lines] fs IH]; intros rest st;
    cbn [parse_files app]; [reflexivity|].
  destruct (parse_lines name 0 lines st) as [st1|e]; cbn [bind];
    [apply IH | reflexivity].
Qed.

Lemma parse_line_cases file n raw st :
  is_declaration raw = false ->
  match parse_line file n raw st with
  | Ret st' => cur_id st' = cur_id st
  | Raise (DSSConfigFileErrorIDMismatch _ _ _ _ _) => cur_id st <> None
  | Raise _ => True
  end.
Proof.
  unfold is_declaration, is_comment, parse_line. intros H.
  destruct (startswith "#" (strip raw)); [reflexivity|].
  cbn [negb andb] in H. rewrite H.
  destruct (contains "locplugin" (strip raw)); [|reflexivity].
  destruct (partition2 ":" (strip raw)) as [key value].
  destruct (nth_error (split "." key) 1) as [locid|]; [|exact I].
  destruct (locid =? "*")%string; [reflexivity|].
  destruct (cur_id st) as [id|]; [|exact I].
  destruct (id =? locid)%string; [reflexivity | discriminate].
Qed.

Lemma parse_lines_no_declaration file lines : forall n st,
  Forall (fun l => is_declaration l = false) lines ->
  cur_id st = None ->
  match parse_lines file n lines st with
  | Ret st' => cur_id st' = None
  | r => not_mismatch r
  end.
Proof.
  induction lines as [|l ls IH]; intros n st H Hc; cbn [parse_lines].
  - exact Hc.
  - inversion H as [|? ? Hl Hls]; subst.
    pose proof (parse_line_cases file n l st Hl) as Hcase.
    destruct (parse_line file n l st) as [st1|e]; cbn [bind].
    + apply IH; [assumption | congruence].
    + destruct e; try exact I. now apply Hcase.
Qed.

Lemma parse_files_no_declaration files : forall st,
  Forall (fun f => Forall (fun l => is_declaration l = false) (snd f)) files ->
  cur_id st = None ->
  match parse_files files st with
  | Ret st' => cur_id st' = None
  | r => not_mismatch r
  end.
Proof.
  induction files as [|[name lines] fs IH]; intros st H Hc; cbn [parse_files].
  - exact Hc.
  - inversion H as [|? ? Hl Hls]; subst. cbn [snd] in Hl.
    pose proof (parse_lines_no_declaration name lines 0%nat st Hl Hc) as Hcase.
    destruct (parse_lines name 0 lines st) as [st1|e]; cbn [bind].
    + now apply IH.
    + exact Hcase.
Qed.

Lemma fill_shares_not_mismatch setting value shares :
  not_mismatch (fill_shares setting value shares).
Proof.
  induction shares as [|[k r] rest IH]; cbn [fill_shares]; [exact I|].
  unfold fill_share. destruct (rs_plugin_settings r) as [ps|]; [|exact I].
  destruct (Dict.mem setting ps); cbn [bind];
    (destruct (fill_shares setting value rest); [exact I | exact IH]).
Qed.

Lemma apply_global_settings_not_mismatch globals : forall shares,
  not_mismatch (apply_global_settings globals shares).
Proof.
  induction globals as [|[setting value] rest IH]; intros shares;
    cbn [apply_global_settings]; [exact I|].
  pose proof (fill_shares_not_mismatch setting value shares) as H.
  destruct (fill_shares setting value shares); cbn [bind]; [apply IH | exact H].
Qed.

Lemma parse_line_lacks_id file n raw st :
  lacks_id_segment raw = true -> parse_line file n raw st = Raise IndexError.
Proof.
  unfold lacks_id_segment, is_setting, is_comment, id_segment, key_of,
    parse_line.
  intros H. split_bools. rewrite H, H2, H1.
  destruct (partition2 ":" (strip raw)) as [key value]. cbn [fst] in H0.
  now destruct (nth_error (split "." key) 1).
Qed.

Lemma before_first_named_quiet raw :
  before_first_named raw = true -> lacks_id_segment raw = false ->
  is_quiet raw = true.
Proof.
  unfold before_first_named, is_named_setting, lacks_id_segment, is_quiet,
    is_global_setting, is_declaration, is_other, is_setting.
  destruct (is_comment raw); [reflexivity|]. cbn [negb andb orb].
  destruct (contains "glb.locplugin[]" (strip raw)); [discriminate|].
  cbn [negb andb orb].
  destruct (contains "locplugin" (strip raw)); [|reflexivity].
  cbn [negb andb orb].
  destruct (id_segment raw) as [locid|]; [|discriminate].
  now destruct (locid =? "*")%string.
Qed.

(** The lines before the first setting line that names a share, none of
    them a declaration: either one of them has the marker without an ID
    segment and the scan stops there with [IndexError], or the scan
    passes them all and still has no ID. *)
Lemma parse_lines_before_first_named file lines : forall n st,
  Forall (fun l => before_first_named l = true) lines ->
  cur_id st = None ->
  if existsb lacks_id_segment lines
  then parse_lines file n lines st = Raise IndexError
  else exists st', parse_lines file n lines st = Ret st'
                   /\ cur_id st' = None.
Proof.
  induction lines as [|l ls IH]; intros n st H Hc;
    cbn [existsb parse_lines].
  - now exists st.
  - inversion H as [|? ? Hl Hls]; subst.
    destruct (lacks_id_segment l) eqn:El; cbn [orb].
    + now rewrite (parse_line_lacks_id _ _ _ _ El).
    + destruct (parse_line_quiet file n l st
                  (before_first_named_quiet _ Hl El)) as (st1 & -> & Hc1 & _).
      cbn [bind]. apply IH; [assumption | congruence].
Qed.

Lemma parse_files_before_first_named files : forall st,
  Forall (fun l => before_first_named l = true) (concat (map snd files)) ->
  cur_id st = None ->
  if existsb lacks_id_segment (concat (map snd files))
  then parse_files files st = Raise IndexError
  else exists st', parse_files files st = Ret st' /\ cur_id st' = None.
Proof.
  induction files as [|[name lines] fs IH]; intros st H Hc;
    cbn [map snd concat parse_files] in *.
  - now exists st.
  - apply Forall_app in H as [Hl Hfs]. rewrite existsb_app.
    pose proof (parse_lines_before_first_named name lines 0%nat st Hl Hc)
      as Hlines.
    destruct (existsb lacks_id_segment lines); cbn [orb].
    + now rewrite Hlines.
    + destruct Hlines as (st1 & -> & Hc1). cbn [bind]. now apply IH.
Qed.

(** Where the ID-mismatch error comes from: the line at the index it
    carries, in the file it names, read when an ID was assigned. *)
Lemma parse_line_mismatch file n0 raw st ss err n f key :
  parse_line file n0 raw st
  = Raise (DSSConfigFileErrorIDMismatch ss err n f key) ->
  n = n0 /\ f = file /\ cur_id st = Some ss.
Proof.
  unfold parse_line.
  destruct (startswith "#" (strip raw)); [discriminate|].
  destruct (contains "glb.locplugin[]" (strip raw)).
  { destruct (tl (split_ws (strip raw))) as [|? [|? [|? [|? [|]]]]];
      discriminate. }
  destruct (contains "locplugin" (strip raw)); [|discriminate].
  destruct (partition2 ":" (strip raw)) as [k v].
  destruct (nth_error (split "." k) 1) as [locid|]; [|discriminate].
  destruct (locid =? "*")%string; [discriminate|].
  destruct (cur_id st) as [id|]; [|discriminate].
  destruct (id =? locid)%string; [discriminate|].
  intros [= <- _ <- <- _]. auto.
Qed.

Lemma parse_lines_mismatch file lines : forall n0 st ss err n f key,
  parse_lines file n0 lines st
  = Raise (DSSConfigFileErrorIDMismatch ss err n f key) ->
  exists pre l post st1,
    lines = (pre ++ l :: post)%list
    /\ n = (n0 + List.length pre)%nat
    /\ f = file
    /\ parse_lines file n0 pre st = Ret st1
    /\ cur_id st1 = Some ss.
Proof.
  induction lines as [|l ls IH]; intros n0 st ss err n f key;
    cbn [parse_lines]; [discriminate|].
  destruct (parse_line file n0 l st) as [st1|e] eqn:E1; cbn [bind].
  - intros H. destruct (IH _ _ _ _ _ _ _ H)
      as (pre & l' & post & st2 & -> & -> & -> & Hpre & Hc).
    exists (l :: pre), l', post, st2. cbn [app List.length parse_lines].
    rewrite E1. cbn [bind]. repeat split; try assumption. lia.
  - intros [= ->]. destruct (parse_line_mismatch _ _ _ _ _ _ _ _ _ E1)
      as (-> & -> & Hc).
    exists [], l, ls, st. cbn [app List.length parse_lines].
    repeat split; try assumption. lia.
Qed.

Lemma parse_files_mismatch files : forall st ss err n f key,
  parse_files files st
  = Raise (DSSConfigFileErrorIDMismatch ss err n f key) ->
  exists before pre l post rest st0 st1,
    files = (before ++ (f, (pre ++ l :: post)%list) :: rest)%list
    /\ List.length pre = n
    /\ parse_files before st = Ret st0
    /\ parse_lines f 0 pre st0 = Ret st1
    /\ cur_id st1 = Some ss.
Proof.
  induction files as [|[name lines] fs IH]; intros st ss err n f key;
    cbn [parse_files]; [discriminate|].
  destruct (parse_lines name 0 lines st) as [st1|e] eqn:E1; cbn [bind].
  - intros H. destruct (IH _ _ _ _ _ _ H)
      as (before & pre & l & post & rest & st0 & st2 & -> & Hn & Hb & Hp & Hc).
    exists ((name, lines) :: before), pre, l, post, rest, st0, st2.
    cbn [app parse_files]. rewrite E1. cbn [bind]. auto.
  - intros [= ->]. destruct (parse_lines_mismatch _ _ _ _ _ _ _ _ _ E1)
      as (pre & l & post & st1 & -> & -> & -> & Hp & Hc).
    exists [], pre, l, post, fs, st, st1. cbn [app parse_files]. auto.
Qed.

Lemma no_declaration_or_one (lines : list string) :
  Forall (fun l => is_declaration l = false) lines
  \/ exists d, In d lines /\ is_declaration d = true.
Proof.
  induction lines as [|l ls [IH|(d & Hd & Ed)]].
  - left. constructor.
  - destruct (is_declaration l) eqn:El.
    + right. exists l. split; [now left|assumption].
    + left. now constructor.
  - right. exists d. split; [now right|assumption].
Qed.

Lemma forall_concat {A : Type} (P : A -> Prop) (ls : list (list A)) :
  Forall P (concat ls) -> Forall (Forall P) ls.
Proof.
  induction ls as [|l ls IH]; cbn [concat]; intros H; constructor.
  - now apply Forall_app in H.
  - apply IH. now apply Forall_app in H.
Qed.

(** C10 (as the code has it). When the first setting line that names a
    share comes before every share-declaration line of the scan,
    [parse_conf_files] stops with the error of an unassigned local
    variable, unless one of the lines before it has the setting marker
    without an ID segment: then the scan has stopped at that line, with
    [IndexError]. It never stops with the ID-mismatch error there: when
    it raises that error, the line it names by file and index comes
    after a share-declaration line of the scan. *)
Theorem setting_before_declaration_is_unbound_local :
  (forall before name pre line post rest,
      Forall (fun l => before_first_named l = true)
        (concat (map snd before) ++ pre)%list ->
      is_named_setting line = true ->
      parse_conf_files
        (before ++ (name, (pre ++ line :: post)%list) :: rest)%list
      = if existsb lacks_id_segment (concat (map snd before) ++ pre)%list
        then Raise IndexError
        else Raise (UnboundLocalError "_id")) /\
  (forall config_files ss err n file key,
      parse_conf_files config_files
      = Raise (DSSConfigFileErrorIDMismatch ss err n file key) ->
      exists before pre line post rest d,
        config_files
        = (before ++ (file, (pre ++ line :: post)%list) :: rest)%list
        /\ List.length pre = n
        /\ In d (concat (map snd before) ++ pre)%list
        /\ is_declaration d = true).
Proof.
  split.
  - intros before name pre line post rest Hall Hline.
    apply Forall_app in Hall as [Hb Hp].
    unfold parse_conf_files. rewrite parse_files_app, existsb_app.
    pose proof (parse_files_before_first_named before initial Hb eq_refl)
      as Hbefore.
    destruct (existsb lacks_id_segment (concat (map snd before)));
      cbn [orb].
    { now rewrite Hbefore. }
    destruct Hbefore as (st1 & -> & Hc1).
    cbn [bind parse_files]. rewrite parse_lines_app.
    pose proof (parse_lines_before_first_named name pre 0%nat st1 Hp Hc1)
      as Hpre.
    destruct (existsb lacks_id_segment pre).
    { now rewrite Hpre. }
    destruct Hpre as (st2 & -> & Hc2). cbn [bind parse_lines].
    unfold is_named_setting in Hline. split_bools.
    destruct (id_segment line) as [locid|] eqn:Hseg; [|discriminate].
    rewrite (parse_line_setting _ _ _ _ _ H Hseg).
    apply negb_true_iff in H0. now rewrite H0, Hc2.
  - intros config_files ss err n file key H.
    unfold parse_conf_files in H.
    destruct (parse_files config_files initial) as [st|e] eqn:E;
      cbn [bind] in H.
    { pose proof (apply_global_settings_not_mismatch (global_settings st)
                    (storage_shares st)) as Hg.
      rewrite H in Hg. contradiction. }
    injection H as ->.
    destruct (parse_files_mismatch _ _ _ _ _ _ _ E)
      as (before & pre & l & post & rest & st0 & st1 & -> & Hn & Hb & Hp & Hc).
    exists before, pre, l, post, rest.
    destruct (no_declaration_or_one (concat (map snd before) ++ pre)%list)
      as [Hno|(d & Hd & Ed)]; [exfalso | now exists d].
    apply Forall_app in Hno as [Hnb Hnp].
    pose proof (parse_files_no_declaration before initial) as Hfiles.
    rewrite Hb in Hfiles.
    assert (Hc0 : cur_id st0 = None).
    { apply Hfiles; [|reflexivity]. apply forall_concat in Hnb.
      rewrite Forall_map in Hnb. exact Hnb. }
    pose proof (parse_lines_no_declaration file pre 0%nat st0 Hnp Hc0)
      as Hlines.
    rewrite Hp in Hlines. congruence.
Qed.

Lemma setting_before_declaration_is_unbound_local_witness :
  parse_conf_files
    [("/etc/ugr/ugr.conf", ["# global"; "locplugin.*.ssl_check: false"]);
     ("/etc/ugr/conf.d/dav.conf",
      ["";
       "locplugin.dav1.cli_certificate: /etc/grid-security/cert.pem";
       "glb.locplugin[]: /usr/lib64/ugr/libugrlocplugin_dav.so dav1 15 davs://host/data"])]
  = Raise (UnboundLocalError "_id")
  /\ parse_conf_files
       [("/etc/ugr/conf.d/dav.conf",
         ["locplugin: x";
          "locplugin.dav1.cli_certificate: /etc/grid-security/cert.pem";
          "glb.locplugin[]: /usr/lib64/ugr/libugrlocplugin_dav.so dav1 15 davs://host/data"])]
     = Raise IndexError.
Proof.
  split.
  - apply (proj1 setting_before_declaration_is_unbound_local
             [("/etc/ugr/ugr.conf",
               ["# global"; "locplugin.*.ssl_check: false"])]
             "/etc/ugr/conf.d/dav.conf" [""]
             "locplugin.dav1.cli_certificate: /etc/grid-security/cert.pem"
             ["glb.locplugin[]: /usr/lib64/ugr/libugrlocplugin_dav.so dav1 15 davs://host/data"]
             []).
    + repeat constructor.
    + reflexivity.
  - apply (proj1 setting_before_declaration_is_unbound_local
             [] "/etc/ugr/conf.d/dav.conf" ["locplugin: x"]
             "locplugin.dav1.cli_certificate: /etc/grid-security/cert.pem"
             ["glb.locplugin[]: /usr/lib64/ugr/libugrlocplugin_dav.so dav1 15 davs://host/data"]
             []).
    + repeat constructor.
    + reflexivity.
Defined.

(** The claim C10 as it is worded fails: here the first setting line
    that names a share is the second line, and no declaration comes
    before it; but the first line has the setting marker and no ID
    segment, and the scan stops at it with [IndexError], not with the
    error of the unassigned local variable. *)
Lemma marker_without_id_segment_fails_first :
  let pre := ["locplugin: x"] in
  let line := "locplugin.dav1.cli_certificate: /etc/grid-security/cert.pem" in
  let post :=
    ["glb.locplugin[]: /usr/lib64/ugr/libugrlocplugin_dav.so dav1 15 davs://host/data"] in
  Forall (fun l => is_declaration l = false /\ is_named_setting l = false) pre
  /\ is_named_setting line = true
  /\ parse_conf_files [("/etc/ugr/conf.d/dav.conf", (pre ++ line :: post)%list)]
     = Raise IndexError
  /\ parse_conf_files [("/etc/ugr/conf.d/dav.conf", (pre ++ line :: post)%list)]
     <> Raise (UnboundLocalError "_id").
Proof.
  cbv zeta. repeat split.
  - repeat constructor.
  - discriminate.
Qed.

(** Once a share is declared, a setting line that names another ID stops
    the scan with the ID-mismatch error; the error carries the ID declared
    last, the file, the key of the line, and as line number the index that
    [enumerate] gave the line, which counts from zero. *)
Lemma id_mismatch_is_reported file pre line post st st1 id locid :
  parse_lines file 0 pre st = Ret st1 ->
  cur_id st1 = Some id ->
  is_setting line = true ->
  id_segment line = Some locid ->
  locid <> "*" -> locid <> id ->
  parse_lines file 0 (pre ++ line :: post) st
  = Raise (DSSConfigFileErrorIDMismatch id "SettingIDMismatch"
             (List.length pre) file (hd "" (split ":" (strip line)))).
Proof.
  intros Hpre Hc Hs Hseg Hstar Hne.
  rewrite parse_lines_app, Hpre. cbn [bind parse_lines Nat.add].
  rewrite (parse_line_setting _ _ _ _ _ Hs Hseg), Hc.
  apply String.eqb_neq in Hstar. rewrite Hstar.
  assert (E : (id =? locid)%string = false)
    by (apply String.eqb_neq; congruence).
  now rewrite E.
Qed.

Example id_mismatch_on_second_line :
  parse_conf_files
    [("/etc/ugr/conf.d/endpoints.conf",
      ["glb.locplugin[]: /usr/lib64/ugr/libugrlocplugin_dav.so dav1 15 davs://host/data";
       "locplugin.dav2.ssl_check: false"])]
  = Raise (DSSConfigFileErrorIDMismatch "dav1" "SettingIDMismatch" 1
             "/etc/ugr/conf.d/endpoints.conf" "locplugin.dav2.ssl_check").
Proof. reflexivity. Qed.

(** C2 (not met by the code). A setting line whose ID segment is neither
    the wildcard nor the ID declared last should stop the scan with the
    configuration error that names its line and file. Here the first line
    of the file is such a line, for a share that is declared only on the
    line after it: the scan stops with the error of an unassigned local
    variable instead, which names neither. *)
Theorem setting_for_undeclared_share_is_not_a_config_error :
  parse_conf_files
    [("/etc/ugr/conf.d/endpoints.conf",
      ["locplugin.dav1.ssl_check: false";
       "glb.locplugin[]: /usr/lib64/ugr/libugrlocplugin_dav.so dav1 15 davs://host/data"])]
  = Raise (UnboundLocalError "_id").
Proof. reflexivity. Qed.

(** C3 (not met by the code). Every declared share should get one record,
    with the global settings filled in where the share has no setting of
    its own. Here a share is declared without any setting of its own and
    one global setting follows: the back-fill looks up the settings of the
    share, which were never created, and the scan stops with [KeyError]. *)
Theorem global_setting_for_share_without_settings_fails :
  parse_conf_files
    [("/etc/ugr/conf.d/endpoints.conf",
      ["glb.locplugin[]: /usr/lib64/ugr/libugrlocplugin_dav.so dav1 15 davs://host/data";
       "locplugin.*.ssl_check: false"])]
  = Raise (KeyError "plugin_settings").
Proof. reflexivity. Qed.

End ConfigFacts.

(** ** The RFC 4331 reply and the Azure listing *)

Module CollectFacts.
Import Share Xml Support.

(** What [process_rfc4331_response] does with a reply that gives both
    numbers. *)
Lemma process_outcome r sh tree used free :
  fromstring r = Ret tree ->
  reported quota_used_bytes tree = Ret used ->
  reported quota_available_bytes tree = Ret free ->
  process_rfc4331_response r sh =
  let sh2 := set_bytesfree (VInt free) (set_bytesused (VInt used) sh) in
  match Dict.get "storagestats.quota" (plugin_settings sh) with
  | None => (sh2, Raise (KeyError "storagestats.quota"))
  | Some q =>
      if Py.eq_str q "api" then
        (set_quota (VInt (used + free)) sh2,
         if free =? 0 then Raise (DAVZeroQuotaWarning (content_str r))
         else Ret tt)
      else
        match Py.int q with
        | Ret n => (set_bytesfree (VInt (n - used)) (set_quota (VInt n) sh2),
                    Ret tt)
        | Raise e => (sh2, Raise e)
        end
  end.
Proof.
  unfold reported, process_rfc4331_response. intros Ht Hu Hf.
  unfold Act.bind, Act.lift. rewrite Ht.
  destruct (find_text quota_available_bytes tree) as [node|e] eqn:En;
    [|discriminate].
  cbn [bind] in Hf. destruct node as [txt|]; [|discriminate].
  rewrite Hu. cbn [bind]. rewrite Hf.
  unfold setting, Act.read, Act.modify, Act.raise, Act.ret, Dict.subscript.
  cbn [plugin_settings set_bytesfree set_bytesused with_stats].
  destruct (Dict.get "storagestats.quota" (plugin_settings sh)) as [q|];
    [|reflexivity].
  destruct (Py.eq_str q "api").
  - destruct (free =? 0); reflexivity.
  - destruct (Py.int q); reflexivity.
Qed.

(** A reply without the element: reading [text] fails. *)
Lemma process_without_element r sh tree :
  fromstring r = Ret tree ->
  find quota_available_bytes tree = None ->
  process_rfc4331_response r sh = (sh, Raise AttributeError).
Proof.
  unfold process_rfc4331_response, Act.bind, Act.lift, find_text.
  now intros -> ->.
Qed.

(** A reply with the element left empty: the method is unsupported. *)
Lemma process_empty_element r sh tree e :
  fromstring r = Ret tree ->
  find quota_available_bytes tree = Some e ->
  text_of e = None ->
  process_rfc4331_response r sh
  = (sh, Raise (ErrorDAVQuotaMethod "UnsupportedMethod")).
Proof.
  unfold process_rfc4331_response, Act.bind, Act.lift, find_text.
  now intros -> -> ->.
Qed.

Lemma reported_raises tag tree e :
  reported tag tree = Raise e ->
  e = AttributeError \/ e = TypeError \/ e = ValueError.
Proof.
  unfold reported, find_text, int_of_text, Size.int_of_str.
  destruct (find tag tree) as [el|]; cbn [bind].
  - destruct (text_of el) as [s|].
    + destruct (PyStr.parse_int s); [discriminate|]. intros [= <-]. auto.
    + intros [= <-]. auto.
  - intros [= <-]. auto.
Qed.

(** A pass that counts as collected read both numbers off the reply. *)
Lemma process_collected_inv r sh sh' o :
  process_rfc4331_response r sh = (sh', o) ->
  collected o = true ->
  exists tree used free,
    fromstring r = Ret tree
    /\ reported quota_used_bytes tree = Ret used
    /\ reported quota_available_bytes tree = Ret free.
Proof.
  intros H Hc.
  unfold process_rfc4331_response, Act.bind, Act.lift in H.
  destruct (fromstring r) as [tree|e] eqn:Ht.
  2:{ injection H as _ <-. unfold fromstring in Ht.
      destruct (content r); [discriminate|]. injection Ht as <-. discriminate. }
  fold (reported quota_used_bytes tree) in H.
  fold (reported quota_available_bytes tree) in H.
  destruct (find_text quota_available_bytes tree) as [[txt|]|e] eqn:En.
  - destruct (reported quota_used_bytes tree) as [used|e] eqn:Hu.
    + cbn [Act.modify] in H.
      destruct (reported quota_available_bytes tree) as [free|e] eqn:Hf.
      * now exists tree, used, free.
      * injection H as _ <-.
        destruct (reported_raises _ _ _ Hf) as [-> | [-> | ->]]; discriminate.
    + injection H as _ <-.
      destruct (reported_raises _ _ _ Hu) as [-> | [-> | ->]]; discriminate.
  - injection H as _ <-. discriminate.
  - injection H as _ <-. unfold find_text in En.
    destruct (find quota_available_bytes tree); [discriminate|].
    injection En as <-. discriminate.
Qed.

(** What a completed [list_blobs] leaves on the share. *)
Lemma list_blobs_returns service sh sh' :
  Azure.list_blobs service sh = (sh', Ret tt) ->
  exists content_lengths v q,
    service = Azure.Blobs content_lengths
    /\ Dict.get "storagestats.quota" (plugin_settings sh) = Some v
    /\ Py.number v = Some q
    /\ sh' = set_filecount (VInt (Z.of_nat (List.length content_lengths)))
               (set_bytesfree (VInt (q - fold_left Z.add content_lengths 0))
                  (set_quota v
                     (set_bytesused (VInt (fold_left Z.add content_lengths 0))
                        sh))).
Proof.
  unfold Azure.list_blobs, Act.bind, Act.lift, uri_part, setting, Act.read,
    Dict.subscript.
  destruct (Dict.get "account" (uri sh)); [|discriminate].
  destruct (Dict.get "azure.key" (plugin_settings sh)); [|discriminate].
  destruct (Dict.get "container" (uri sh)); [|discriminate].
  destruct (Dict.get "url" (uri sh)); [|discriminate].
  destruct (Dict.get "storagestats.api" (plugin_settings sh)) as [api|];
    [|discriminate].
  destruct (Py.lower api); [|discriminate].
  destruct (Dict.get "conn_timeout" (plugin_settings sh)) as [t|];
    [|discriminate].
  destruct (Py.int t); [|discriminate].
  destruct service as [ls|msg|msg|msg]; try discriminate;
    [|destruct (Dict.get "storagestats.api" (plugin_settings sh));
      discriminate].
  cbn [Act.modify plugin_settings set_bytesused set_quota with_stats].
  destruct (Dict.get "storagestats.quota" (plugin_settings sh)) as [v|];
    [|discriminate].
  unfold Py.sub. cbn [Py.number].
  destruct (Py.number v) as [q|] eqn:Eq; [|discriminate].
  intros [= <-]. now exists ls, v, q.
Qed.

(** What [process_rfc4331_response] does when the reply gives zero
    available bytes and the quota setting is [api]: it raises the
    zero-quota warning with [bytesfree] at 0 and [quota] already set to
    [bytesused + bytesfree], that is to [bytesused]. *)
Lemma zero_quota_warning_after_quota_is_set r sh tree used :
  fromstring r = Ret tree ->
  reported quota_used_bytes tree = Ret used ->
  reported quota_available_bytes tree = Ret 0 ->
  Dict.get "storagestats.quota" (plugin_settings sh) = Some (VStr "api") ->
  process_rfc4331_response r sh
  = (set_quota (VInt used)
       (set_bytesfree (VInt 0) (set_bytesused (VInt used) sh)),
     Raise (DAVZeroQuotaWarning (content_str r))).
Proof.
  intros Ht Hu Hf Hq. rewrite (process_outcome _ _ _ _ _ Ht Hu Hf).
  cbn zeta. rewrite Hq. cbn [Py.eq_str String.eqb Ascii.eqb Bool.eqb].
  now rewrite Z.add_0_r.
Qed.

Lemma zero_quota_warning_after_quota_is_set_witness :
  process_rfc4331_response (Examples.quota_reply "500" "0")
    (Examples.dav_share (VStr "api"))
  = (set_quota (VInt 500)
       (set_bytesfree (VInt 0)
          (set_bytesused (VInt 500) (Examples.dav_share (VStr "api")))),
     Raise (DAVZeroQuotaWarning "<multistatus/>")).
Proof.
  apply (zero_quota_warning_after_quota_is_set
           (Examples.quota_reply "500" "0") (Examples.dav_share (VStr "api"))
           (Element "{DAV:}multistatus" None
               [Element "{DAV:}response" None
                  [Element "{DAV:}href" (Some "/data/") [];
                   Element "{DAV:}propstat" None
                     [Element "{DAV:}prop" None
                        [Element quota_available_bytes (Some "0") [];
                         Element quota_used_bytes (Some "500") []];
                      Element "{DAV:}status" (Some "HTTP/1.1 200 OK") []]]])
           500); reflexivity.
Defined.

(** C4 (not met by the code). A reply with zero available bytes for a
    share whose quota setting is [api] should leave [quota] at the value
    it had, with the warning raised and [bytesfree] at 0. Here the reply
    gives 500 used and 0 available bytes to a share that starts with the
    default quota of [1000 ^ 4]: the warning is raised and [bytesfree] is
    0, but [quota] is 500, the value of [bytesused], because it is
    assigned before the test for zero. *)
Theorem zero_quota_reply_overwrites_quota :
  let sh := Examples.dav_share (VStr "api") in
  let out := process_rfc4331_response (Examples.quota_reply "500" "0") sh in
  snd out = Raise (DAVZeroQuotaWarning "<multistatus/>")
  /\ bytesfree (stats (fst out)) = VInt 0
  /\ bytesused (stats (fst out)) = VInt 500
  /\ quota (stats sh) = VInt (1000 ^ 4)
  /\ quota (stats (fst out)) = VInt 500.
Proof. cbv zeta. repeat split. Qed.

(** C5 (not met by the code). A reply that lacks the quota properties
    should be answered with the unsupported-method error and nothing else.
    Here the reply has no [quota-available-bytes] element at all: reading
    the [text] of the element that was not found fails with
    [AttributeError] before the check for the unsupported method. *)
Theorem reply_without_quota_elements_fails_on_lookup :
  process_rfc4331_response Examples.plain_reply
    (Examples.dav_share (VStr "api"))
  = (Examples.dav_share (VStr "api"), Raise AttributeError).
Proof. reflexivity. Qed.

(** The two collectors of the package keep the quota invariant. After a
    pass of [process_rfc4331_response] that returns or only warns, and
    after a pass of [list_blobs] that returns, the statistics follow one
    derivation, chosen by the quota setting: for [api] the quota is the
    sum of the reported used and available bytes; otherwise the quota is
    the configured number and the free bytes are the quota less the used
    bytes. In both cases [quota = bytesused + bytesfree]. *)
Lemma quota_follows_one_derivation :
  (forall r sh sh' o,
      process_rfc4331_response r sh = (sh', o) ->
      collected o = true ->
      exists tree used free v q,
        fromstring r = Ret tree
        /\ reported quota_used_bytes tree = Ret used
        /\ reported quota_available_bytes tree = Ret free
        /\ Dict.get "storagestats.quota" (plugin_settings sh) = Some v
        /\ bytesused (stats sh') = VInt used
        /\ quota (stats sh') = VInt q
        /\ (if Py.eq_str v "api"
            then q = used + free /\ bytesfree (stats sh') = VInt free
            else Py.int v = Ret q /\ bytesfree (stats sh') = VInt (q - used))
        /\ exists f, bytesfree (stats sh') = VInt f /\ q = used + f)
  /\
  (forall service sh sh',
      Azure.list_blobs service sh = (sh', Ret tt) ->
      exists content_lengths v q,
        service = Azure.Blobs content_lengths
        /\ Dict.get "storagestats.quota" (plugin_settings sh) = Some v
        /\ Py.eq_str v "api" = false
        /\ bytesused (stats sh') = VInt (fold_left Z.add content_lengths 0)
        /\ quota (stats sh') = v
        /\ Py.number v = Some q
        /\ bytesfree (stats sh')
           = VInt (q - fold_left Z.add content_lengths 0)).
Proof.
  split.
  - intros r sh sh' o H Hc.
    destruct (process_collected_inv _ _ _ _ H Hc)
      as (tree & used & free & Ht & Hu & Hf).
    rewrite (process_outcome _ _ _ _ _ Ht Hu Hf) in H. cbn zeta in H.
    destruct (Dict.get "storagestats.quota" (plugin_settings sh)) as [v|].
    2:{ injection H as _ <-. discriminate. }
    destruct (Py.eq_str v "api") eqn:Ev.
    + injection H as <- _.
      exists tree, used, free, v, (used + free). rewrite Ev.
      repeat split; try assumption. now exists free.
    + destruct (Py.int v) as [n|e] eqn:En.
      * injection H as <- _.
        exists tree, used, free, v, n. rewrite Ev.
        repeat split; try assumption.
        exists (n - used). split; [reflexivity|lia].
      * injection H as _ <-.
        assert (e = ValueError).
        { destruct v as [s| |]; cbn in En; try discriminate.
          unfold Size.int_of_str in En.
          destruct (PyStr.parse_int s); [discriminate|]. now injection En. }
        subst. discriminate.
  - intros service sh sh' H.
    destruct (list_blobs_returns _ _ _ H) as (ls & v & q & -> & Hv & Hq & ->).
    exists ls, v, q. repeat split; try assumption.
    destruct v; [discriminate Hq | reflexivity | reflexivity].
Qed.

Lemma quota_follows_one_derivation_witness :
  (exists sh',
      process_rfc4331_response (Examples.quota_reply "500" "1500")
        (Examples.dav_share (VStr "api")) = (sh', Ret tt)
      /\ bytesused (stats sh') = VInt 500
      /\ bytesfree (stats sh') = VInt 1500
      /\ quota (stats sh') = VInt 2000)
  /\
  (exists sh',
      Azure.list_blobs (Azure.Blobs [100; 200]) Examples.azure_share
      = (sh', Ret tt)
      /\ bytesfree (stats sh') = VInt 4700).
Proof.
  split.
  - eexists. split; [reflexivity|].
    destruct (proj1 quota_follows_one_derivation
                (Examples.quota_reply "500" "1500")
                (Examples.dav_share (VStr "api")) _ _ eq_refl eq_refl)
      as (tree & used & free & v & q & Ht & Hu & Hf & Hv & Hused & Hq & Hd & _).
    injection Hv as <-. cbn in Hd. destruct Hd as [-> Hfree].
    injection Ht as <-. injection Hu as <-. injection Hf as <-.
    repeat split; assumption.
  - pose (sh' := fst (Azure.list_blobs (Azure.Blobs [100; 200])
                        Examples.azure_share)).
    assert (E : Azure.list_blobs (Azure.Blobs [100; 200]) Examples.azure_share
                = (sh', Ret tt)) by (vm_compute; reflexivity).
    exists sh'. split; [exact E|].
    destruct (proj2 quota_follows_one_derivation _ _ _ E)
      as (ls & v & q & Hs & Hv & _ & _ & _ & Hq & Hfree).
    injection Hs as <-. injection Hv as <-. injection Hq as <-.
    exact Hfree.
Defined.

End CollectFacts.

(** ** Facts about the dict operations *)

Module DictFacts.

Lemma get_set_same {V : Type} (k : string) (v : V) (d : pydict V) :
  Dict.get k (Dict.set k v d) = Some v.
Proof.
  induction d as [|[k' v'] d IH]; cbn [Dict.set Dict.get].
  - now rewrite String.eqb_refl.
  - destruct (k' =? k)%string eqn:E; cbn [Dict.get]; now rewrite E.
Qed.

Lemma get_set_other {V : Type} (k k' : string) (v : V) (d : pydict V) :
  k' <> k -> Dict.get k (Dict.set k' v d) = Dict.get k d.
Proof.
  intros Hne. induction d as [|[k0 v0] d IH]; cbn [Dict.set Dict.get].
  - destruct (k' =? k)%string eqn:E; [|reflexivity].
    apply String.eqb_eq in E. contradiction.
  - destruct (k0 =? k')%string eqn:E0; cbn [Dict.get].
    + apply String.eqb_eq in E0. subst k0.
      destruct (k' =? k)%string eqn:E; [|reflexivity].
      apply String.eqb_eq in E. contradiction.
    + now rewrite IH.
Qed.

End DictFacts.

(** ** The generic S3 listing *)

Module ListingFacts.
Import Ugr Support.

Lemma fold_left_add (l : list Z) (a : Z) :
  fold_left Z.add l a = a + fold_right Z.add 0 l.
Proof.
  revert a. induction l as [|x l IH]; intros a; cbn [fold_left fold_right].
  - lia.
  - rewrite IH. lia.
Qed.

Lemma total_size_cons (cs : list Z) (ps : list (list Z)) :
  total_size (cs :: ps) = fold_right Z.add 0 cs + total_size ps.
Proof.
  unfold total_size. cbn [concat].
  induction cs as [|x cs IH]; cbn [app fold_right]; lia.
Qed.

Lemma total_count_cons (cs : list Z) (ps : list (list Z)) :
  total_count (cs :: ps) = Z.of_nat (List.length cs) + total_count ps.
Proof.
  unfold total_count. cbn [concat]. rewrite List.length_app. lia.
Qed.

(** The loop, given at least as many rounds as there are pages, returns
    the sums over all pages, added to what it started with. *)
Lemma list_loop_pages list_objects api_url b marker ps :
  pages list_objects api_url b marker ps ->
  forall fuel total_bytes total_files,
    (List.length ps <= fuel)%nat ->
    list_loop list_objects fuel api_url b marker total_bytes total_files
    = Some (Ret (total_bytes + total_size ps, total_files + total_count ps)).
Proof.
  induction 1 as [marker contents Hreply | marker cs next rest Hreply _ IH];
    intros fuel tb tf Hfuel.
  - destruct fuel as [|fuel]; [cbn in Hfuel; lia|].
    cbn [list_loop]. rewrite Hreply.
    destruct contents as [cs|].
    + rewrite total_size_cons, total_count_cons, fold_left_add.
      unfold total_size, total_count. cbn [concat fold_right List.length].
      do 3 f_equal; lia.
    + unfold total_size, total_count. cbn [concat app fold_right List.length].
      do 3 f_equal; lia.
  - destruct fuel as [|fuel]; [cbn in Hfuel; lia|].
    cbn [list_loop]. rewrite Hreply. cbn zeta.
    rewrite IH by (cbn [List.length] in Hfuel; lia).
    rewrite total_size_cons, total_count_cons, fold_left_add.
    do 3 f_equal; lia.
Qed.

(** More rounds than needed change nothing. *)
Lemma list_loop_more_fuel list_objects api_url b :
  forall fuel fuel' marker total_bytes total_files r,
    list_loop list_objects fuel api_url b marker total_bytes total_files
    = Some r ->
    (fuel <= fuel')%nat ->
    list_loop list_objects fuel' api_url b marker total_bytes total_files
    = Some r.
Proof.
  induction fuel as [|fuel IH]; intros fuel' marker tb tf r H Hle.
  - discriminate.
  - destruct fuel' as [|fuel']; [lia|].
    cbn [list_loop] in *.
    destruct (list_objects api_url b marker) as [contents next| | | | ];
      try exact H.
    destruct contents as [cs|]; [|exact H].
    destruct next as [m|]; [|exact H].
    apply IH; [exact H | lia].
Qed.

(** What is evaluated before the loop leaves the object as it is. *)
Lemma generic_setup_reads self : fst (generic_setup self) = self.
Proof.
  unfold generic_setup, option_lower, option_, Act.bind, Act.read, Act.lift,
    Act.ret.
  destruct (Dict.subscript "s3.alternate" (plugin_options self)) as [a|];
    [|reflexivity].
  destruct (Py.lower a) as [al|]; [|reflexivity].
  destruct (if is_yes al
            then Ret (scheme (uri self) ++ "://" ++ netloc (uri self))
            else match domain (uri self) with
                 | Some d => Ret (scheme (uri self) ++ "://" ++ d)
                 | None => Raise (KeyError "domain")
                 end) as [u|]; [|reflexivity].
  destruct (Dict.subscript "s3.region" (plugin_options self)); [|reflexivity].
  destruct (Dict.subscript "s3.pub_key" (plugin_options self)); [|reflexivity].
  destruct (Dict.subscript "s3.priv_key" (plugin_options self)); [|reflexivity].
  destruct (Dict.subscript "ssl_check" (plugin_options self)); [|reflexivity].
  destruct (Dict.subscript "s3.signature_ver" (plugin_options self));
    [|reflexivity].
  destruct (bucket (uri self)); reflexivity.
Qed.

Lemma one_terabyte : Size.convert_size_to_bytes "1TB" = Ret (1000 ^ 4).
Proof. vm_compute. reflexivity. Qed.

(** What follows the loop stores the totals. *)
Lemma generic_finish_stores total_bytes total_files self q :
  Dict.get "quota" (plugin_options self) = Some q ->
  let self' := fst (generic_finish total_bytes total_files self) in
  let o := snd (generic_finish total_bytes total_files self) in
  bytesused (stats self') = VInt total_bytes
  /\ files (stats self') = VInt total_files
  /\ (forall n, q = VInt n ->
        o = Ret tt /\ quota (stats self') = VInt n
        /\ bytesfree (stats self') = VInt (n - total_bytes))
  /\ (q = VStr "api" ->
        o = Raise quota_warning /\ quota (stats self') = VInt (1000 ^ 4)
        /\ bytesfree (stats self') = VInt (1000 ^ 4 - total_bytes)).
Proof.
  intros Hq. unfold generic_finish, option_, Act.bind, Act.read, Act.modify,
    Act.lift, Act.raise, Dict.subscript.
  cbn [set_bytesused with_stats plugin_options]. rewrite Hq.
  rewrite one_terabyte.
  assert (Hstr : forall s, (s =? "api")%string = false -> VStr s <> VStr "api").
  { intros s Es [= ->]. discriminate. }
  destruct q as [s|n|bq]; cbn [Py.eq_str];
    [destruct (s =? "api")%string eqn:Es;
     [apply String.eqb_eq in Es; subst s | specialize (Hstr s Es)] | | ];
    cbn [Py.sub Py.number fst snd set_quota set_files set_bytesfree
           with_stats stats bytesused files quota bytesfree];
    (split; [reflexivity|]); (split; [reflexivity|]);
    (split; [intros m Hm | intros Hapi]);
    try discriminate; try contradiction.
  - repeat split; reflexivity.
  - injection Hm as <-. repeat split; reflexivity.
Qed.

(** The generic S3 collector, given the pages the service serves and at
    least as many rounds as there are pages, returns; the object then holds
    the sum of the sizes of all listed objects as [bytesused] and their
    number as [files]. With a quota in bytes it returns normally and
    [bytesfree] is the quota less the sum; with the quota [api] it uses one
    terabyte and raises the quota warning. *)
Theorem generic_listing_sums_every_page list_objects propfind ceph_admin
    fuel self api api_url b q ps :
  class self = S3StorageStats ->
  Dict.get "s3.api" (plugin_options self) = Some (VStr api) ->
  PyStr.lower api = "generic" ->
  snd (generic_setup self) = Ret (api_url, b) ->
  Dict.get "quota" (plugin_options self) = Some q ->
  pages list_objects api_url b None ps ->
  (List.length ps <= fuel)%nat ->
  exists self' o,
    get_storagestats list_objects propfind ceph_admin fuel self
    = Some (self', o)
    /\ bytesused (stats self') = VInt (total_size ps)
    /\ files (stats self') = VInt (total_count ps)
    /\ (forall n, q = VInt n ->
          o = Ret tt /\ quota (stats self') = VInt n
          /\ bytesfree (stats self') = VInt (n - total_size ps))
    /\ (q = VStr "api" ->
          o = Raise quota_warning /\ quota (stats self') = VInt (1000 ^ 4)
          /\ bytesfree (stats self') = VInt (1000 ^ 4 - total_size ps)).
Proof.
  intros Hclass Hapi Hlow Hsetup Hq Hpages Hfuel.
  unfold get_storagestats. rewrite Hclass.
  unfold s3_get_storagestats, option_lower, option_, Act.bind, Act.read,
    Act.lift, Dict.subscript.
  rewrite Hapi. cbn [Py.lower]. rewrite Hlow.
  change ("generic" =? "ceph-admin")%string with false.
  change ("generic" =? "generic")%string with true. cbn iota.
  unfold generic.
  pose proof (generic_setup_reads self) as Hself.
  destruct (generic_setup self) as [self1 r]. cbn [fst snd] in Hself, Hsetup.
  subst self1 r.
  rewrite (list_loop_pages _ _ _ _ _ Hpages fuel 0 0 Hfuel).
  cbn [Z.add].
  exists (fst (generic_finish (total_size ps) (total_count ps) self)),
    (snd (generic_finish (total_size ps) (total_count ps) self)).
  split; [now rewrite <- surjective_pairing|].
  exact (generic_finish_stores (total_size ps) (total_count ps) self q Hq).
Qed.

Lemma generic_listing_sums_every_page_witness :
  exists self self' o,
    init_s3 Examples.urlsplit 0 (Examples.s3_conf "b1" "5000") = Ret self
    /\ get_storagestats Examples.three_pages
         (Examples.dav_server Examples.plain_reply) Examples.no_ceph_admin
         3 self = Some (self', o)
    /\ o = Ret tt
    /\ bytesused (stats self') = VInt 374
    /\ files (stats self') = VInt 6
    /\ bytesfree (stats self') = VInt 4626.
Proof.
  eexists.
  assert (Hp : pages Examples.three_pages "https://s3.example.org" "b1" None
                 [[100; 200]; [50]; [7; 8; 9]]).
  { apply pages_next with (next := "k2"); [reflexivity|].
    apply pages_next with (next := "k3"); [reflexivity|].
    apply (pages_last _ _ _ (Some "k3") (Some [7; 8; 9])). reflexivity. }
  match goal with
  | |- exists self' o, ?I = Ret ?s /\ _ =>
      assert (Hinit : I = Ret s) by (vm_compute; reflexivity)
  end.
  match type of Hinit with
  | _ = Ret ?s =>
      destruct (generic_listing_sums_every_page Examples.three_pages
                  (Examples.dav_server Examples.plain_reply)
                  Examples.no_ceph_admin 3 s "generic"
                  "https://s3.example.org" "b1" (VInt 5000)
                  [[100; 200]; [50]; [7; 8; 9]]
                  eq_refl eq_refl eq_refl eq_refl eq_refl Hp (le_n 3))
        as (self' & o & Hrun & Hused & Hfiles & Hnum & _)
  end.
  destruct (Hnum 5000 eq_refl) as (Ho & _ & Hfree).
  exists self', o. repeat split; assumption.
Defined.

End ListingFacts.

(** ** Validation of the plugin options *)

Module ValidationFacts.
Import Ugr Support.

Lemma mem_set_same {V : Type} (k : string) (v : V) (d : pydict V) :
  Dict.mem k (Dict.set k v d) = true.
Proof. unfold Dict.mem. now rewrite DictFacts.get_set_same. Qed.

Lemma mem_set_mono {V : Type} (k k' : string) (v : V) (d : pydict V) :
  Dict.mem k d = true -> Dict.mem k (Dict.set k' v d) = true.
Proof.
  unfold Dict.mem. destruct (String.eqb_spec k' k) as [->|Hne].
  - now rewrite DictFacts.get_set_same.
  - now rewrite DictFacts.get_set_other.
Qed.

Lemma validate_option_outcome k v self :
  option_outcome k v self (validate_option k v self).
Proof.
  unfold validate_option.
  destruct (Dict.get k (plugin_options self)) as [value|] eqn:Eg.
  - assert (Hm : Dict.mem k (plugin_options self) = true)
      by (unfold Dict.mem; now rewrite Eg).
    destruct (v_valid v) as [valid|] eqn:Ev; [|now constructor].
    destruct (negb (is_valid value valid)); [constructor|].
    destruct (v_boolean v); [|now constructor].
    destruct (Py.lower value) as [low|e] eqn:El.
    + destruct ((low =? "false")%string || (low =? "no")%string);
        constructor; congruence.
    + destruct value; cbn in El; try discriminate; injection El as <-;
        constructor.
  - destruct (v_required v) as [[|]|]; try constructor; try assumption.
    destruct (v_default v) as [d|] eqn:Ed; [|constructor].
    unfold missing_option, warning, make_exn. now constructor.
Qed.

(** No round removes an option. *)
Lemma validate_option_mono k v self k0 :
  Dict.mem k0 (plugin_options self) = true ->
  Dict.mem k0 (plugin_options (fst (validate_option k v self))) = true.
Proof.
  intros H. destruct (validate_option_outcome k v self); cbn [fst];
    try assumption; cbn [set_option record_failure plugin_options];
    now apply mem_set_mono.
Qed.

(** A round that returns leaves its option set. *)
Lemma validate_option_fills k v self self' :
  validate_option k v self = (self', Ret tt) ->
  Dict.mem k (plugin_options self') = true.
Proof.
  intros H. pose proof (validate_option_outcome k v self) as Ho.
  rewrite H in Ho. inversion Ho; subst; try assumption;
    cbn [set_option record_failure plugin_options]; apply mem_set_same.
Qed.

(** A round for another option, or for an option without a list of valid
    values, keeps the value an option has. *)
Lemma validate_option_keeps k v self k0 x :
  Dict.get k0 (plugin_options self) = Some x ->
  (k = k0 -> v_valid v = None) ->
  Dict.get k0 (plugin_options (fst (validate_option k v self))) = Some x.
Proof.
  intros H Hv. destruct (validate_option_outcome k v self); cbn [fst];
    try assumption; cbn [set_option record_failure plugin_options].
  - destruct (String.eqb_spec k k0) as [->|Hne].
    + now specialize (Hv eq_refl).
    + now rewrite DictFacts.get_set_other.
  - destruct (String.eqb_spec k k0) as [->|Hne]; [congruence|].
    now rewrite DictFacts.get_set_other.
  - destruct (String.eqb_spec k k0) as [->|Hne]; [congruence|].
    now rewrite DictFacts.get_set_other.
Qed.

Lemma validate_options_cons k v rest self :
  validate_options ((k, v) :: rest) self =
  match validate_option k v self with
  | (s1, Ret _) => validate_options rest s1
  | (s1, Raise e) => (s1, Raise e)
  end.
Proof. reflexivity. Qed.

Lemma validate_options_mono vs : forall self k0,
  Dict.mem k0 (plugin_options self) = true ->
  Dict.mem k0 (plugin_options (fst (validate_options vs self))) = true.
Proof.
  induction vs as [|[k v] rest IH]; intros self k0 H; [exact H|].
  rewrite validate_options_cons.
  pose proof (validate_option_mono k v self k0 H) as H1.
  destruct (validate_option k v self) as [s1 [[]|e]]; cbn [fst] in *.
  - now apply IH.
  - exact H1.
Qed.

Lemma validate_options_fills vs : forall self self',
  validate_options vs self = (self', Ret tt) ->
  forall k v, In (k, v) vs -> Dict.mem k (plugin_options self') = true.
Proof.
  induction vs as [|[k v] rest IH]; intros self self' H k0 v0 Hin;
    [contradiction|].
  rewrite validate_options_cons in H.
  destruct (validate_option k v self) as [s1 [[]|e]] eqn:E1; [|discriminate].
  destruct Hin as [[= <- <-]|Hin].
  - apply validate_option_fills in E1.
    pose proof (validate_options_mono rest s1 k E1) as Hm.
    now rewrite H in Hm.
  - exact (IH _ _ H _ _ Hin).
Qed.

Lemma validate_options_keeps vs : forall self k0 x,
  Dict.get k0 (plugin_options self) = Some x ->
  (forall v, In (k0, v) vs -> v_valid v = None) ->
  Dict.get k0 (plugin_options (fst (validate_options vs self))) = Some x.
Proof.
  induction vs as [|[k v] rest IH]; intros self k0 x H Hv; [exact H|].
  rewrite validate_options_cons.
  assert (H1 := validate_option_keeps k v self k0 x H).
  destruct (validate_option k v self) as [s1 [[]|e]]; cbn [fst] in *.
  - apply IH.
    + apply H1. intros ->. apply Hv. now left.
    + intros v' Hin. apply Hv. now right.
  - apply H1. intros ->. apply Hv. now left.
Qed.

(** What ends the loop over the validators early. *)
Lemma validate_options_raises vs : forall self self' e,
  validate_options vs self = (self', Raise e) ->
  (exists k v, In (k, v) vs /\ e = missing_required_option k
               /\ Dict.get k (plugin_options self') = Some (VStr ""))
  \/ (exists name, e = KeyError name) \/ e = TypeError \/ e = AttributeError.
Proof.
  induction vs as [|[k v] rest IH]; intros self self' e H; [discriminate|].
  rewrite validate_options_cons in H.
  pose proof (validate_option_outcome k v self) as Ho.
  destruct (validate_option k v self) as [s1 [[]|e1]] eqn:E1.
  - destruct (IH _ _ _ H) as [(k' & v' & Hin & He & Hg)|Hrest].
    + left. exists k', v'. repeat split; auto. now right.
    + now right.
  - injection H as <- <-. inversion Ho; subst.
    + left. exists k, v. repeat split; [now left|].
      cbn [set_option plugin_options]. apply DictFacts.get_set_same.
    + right. left. now exists name.
    + right. right. now left.
    + right. right. now right.
Qed.

Lemma convert_size_raises q e :
  convert_size q = Raise e ->
  e = AttributeError \/ e = ValueError \/ e = SystemExit.
Proof.
  destruct q as [s| |]; cbn [convert_size]; try (intros [= <-]; now left).
  unfold Size.convert_size_to_bytes.
  destruct (Size.suffix_loop Size.multipliers s) as [r|] eqn:E.
  - apply SizeFacts.suffix_loop_inv in E as (d & u & m & -> & _ & ->).
    unfold Size.int_of_str. destruct (PyStr.parse_int d); [discriminate|].
    intros [= <-]. right. now left.
  - destruct (PyStr.endswith "b" (PyStr.lower s)).
    + unfold Size.int_of_str.
      destruct (PyStr.parse_int _); [discriminate|].
      intros [= <-]. right. now left.
    + destruct (PyStr.parse_int s); [discriminate|].
      intros [= <-]. right. now right.
Qed.

(** [validate_plugin_options], stage by stage. *)
Lemma validate_plugin_options_eq self :
  validate_plugin_options self =
  match validate_options (validators self) self with
  | (s1, Raise e) => (s1, Raise e)
  | (s1, Ret _) =>
      match Dict.get "ssl_check" (plugin_options s1) with
      | None => (s1, Raise (KeyError "ssl_check"))
      | Some ssl_check =>
          let s2 := if Py.truth ssl_check
                    then match Dict.get "ca_path" (plugin_options s1) with
                         | Some ca => set_option "ssl_check" ca s1
                         | None => s1
                         end
                    else s1 in
          match Dict.get "quota" (plugin_options s2) with
          | None => (s2, Raise (KeyError "quota"))
          | Some q =>
              if Py.eq_str q "api" then (s2, Ret tt)
              else match convert_size q with
                   | Ret n => (set_option "quota" (VInt n) s2, Ret tt)
                   | Raise e => (s2, Raise e)
                   end
          end
      end
  end.
Proof.
  unfold validate_plugin_options, option_, Act.bind, Act.read, Act.lift,
    Act.modify, Act.ret, Dict.subscript.
  destruct (validate_options (validators self) self) as [s1 [[]|e]];
    [|reflexivity].
  destruct (Dict.get "ssl_check" (plugin_options s1)) as [ssl|];
    [|reflexivity].
  cbv zeta.
  destruct (Py.truth ssl).
  - destruct (Dict.get "ca_path" (plugin_options s1)) as [ca|];
      (match goal with
       | |- context [Dict.get "quota" (plugin_options ?s)] =>
           destruct (Dict.get "quota" (plugin_options s)) as [q|];
           [|reflexivity]
       end;
       destruct (Py.eq_str q "api"); [reflexivity|];
       destruct (convert_size q); reflexivity).
  - destruct (Dict.get "quota" (plugin_options s1)) as [q|]; [|reflexivity].
    destruct (Py.eq_str q "api"); [reflexivity|].
    destruct (convert_size q); reflexivity.
Qed.


(** Validation that returns leaves a value for every validated option,
    and a quota that is either the text [api] or a number of bytes. *)
Theorem validation_returns_normalised self self' :
  validate_plugin_options self = (self', Ret tt) ->
  (forall k v, In (k, v) (validators self) ->
               Dict.mem k (plugin_options self') = true)
  /\ exists q, Dict.get "quota" (plugin_options self') = Some q
               /\ (q = VStr "api" \/ exists n, q = VInt n).
Proof.
  rewrite validate_plugin_options_eq.
  destruct (validate_options (validators self) self) as [s1 [[]|e]] eqn:E1;
    [|discriminate].
  pose proof (validate_options_fills _ _ _ E1) as Hfill.
  destruct (Dict.get "ssl_check" (plugin_options s1)) as [ssl|];
    [|discriminate].
  cbv zeta.
  set (s2 := if Py.truth ssl then _ else _).
  assert (Hmono : forall k, Dict.mem k (plugin_options s1) = true ->
                            Dict.mem k (plugin_options s2) = true).
  { intros k Hk. subst s2. destruct (Py.truth ssl); [|exact Hk].
    destruct (Dict.get "ca_path" (plugin_options s1)); [|exact Hk].
    cbn [set_option plugin_options]. now apply mem_set_mono. }
  destruct (Dict.get "quota" (plugin_options s2)) as [q|] eqn:Eq;
    [|discriminate].
  destruct (Py.eq_str q "api") eqn:Eapi.
  - intros [= <-]. split.
    + intros k v Hin. apply Hmono. exact (Hfill k v Hin).
    + exists q. split; [exact Eq|]. left.
      destruct q as [s| |]; cbn in Eapi; try discriminate.
      apply String.eqb_eq in Eapi. now subst.
  - destruct (convert_size q) as [n|e]; [|discriminate].
    intros [= <-]. cbn [set_option plugin_options]. split.
    + intros k v Hin. apply mem_set_mono, Hmono. exact (Hfill k v Hin).
    + exists (VInt n). rewrite DictFacts.get_set_same. split; [reflexivity|].
      right. now exists n.
Qed.

(** The only exception of the program's own that validation raises is
    the one for a missing required option, and the handler of the
    constructors turns it into the status of the object. Every other
    failure, an option with a value outside its list of valid values
    among them, is an exception of Python itself and passes the handler. *)
Theorem validation_failure_is_missing_option_or_uncaught self self' e :
  validate_plugin_options self = (self', Raise e) ->
  (exists k v m,
      In (k, v) (validators self)
      /\ missing_required_option k
         = UGR UGRConfigFileErrorMissingRequiredOption m m
      /\ e = missing_required_option k
      /\ Dict.get k (plugin_options self') = Some (VStr "")
      /\ catch_config_file_error validate_plugin_options self
         = (record_failure m m self', Ret tt))
  \/ (is_builtin e = true
      /\ catch_config_file_error validate_plugin_options self
         = (self', Raise e)).
Proof.
  intros H. unfold catch_config_file_error. rewrite H.
  rewrite validate_plugin_options_eq in H.
  destruct (validate_options (validators self) self) as [s1 [[]|e1]] eqn:E1.
  - right.
    destruct (Dict.get "ssl_check" (plugin_options s1)) as [ssl|];
      [|injection H as <- <-; now split].
    cbv zeta in H.
    destruct (Dict.get "quota" _) as [q|]; [|injection H as <- <-; now split].
    destruct (Py.eq_str q "api"); [discriminate|].
    destruct (convert_size q) as [n|e2] eqn:Ec; [discriminate|].
    injection H as <- <-.
    destruct (convert_size_raises _ _ Ec) as [->|[->| ->]]; now split.
  - injection H as <- <-.
    destruct (validate_options_raises _ _ _ _ E1)
      as [(k & v & Hin & -> & Hg)|[[name ->]|[->| ->]]];
      try (right; now split).
    left. exists k, v. eexists. repeat split; try eassumption; reflexivity.
Qed.

Lemma validation_failure_is_missing_option_or_uncaught_witness :
  exists self self' k m,
    (self0 <- init Examples.urlsplit 0 DAVStorageStats
                {| ep_id := "d1"; ep_url := "davs://d1.example.org/data";
                   ep_plugin := "libugrlocplugin_dav.so";
                   ep_plugin_options :=
                     Some [("cli_certificate", "/etc/cert.pem")] |} ;;
     Ret (extend "DAV" dav_validators self0)) = Ret self
    /\ Dict.get k (plugin_options self') = Some (VStr "")
    /\ catch_config_file_error validate_plugin_options self
       = (record_failure m m self', Ret tt).
Proof.
  eexists.
  match goal with
  | |- exists _ _ _, ?I = Ret ?s /\ _ =>
      assert (Hinit : I = Ret s) by (vm_compute; reflexivity)
  end.
  match type of Hinit with
  | _ = Ret ?s =>
      assert (E : validate_plugin_options s
                  = (fst (validate_plugin_options s),
                     Raise (missing_required_option "cli_private_key")))
        by (vm_compute; reflexivity);
      destruct (validation_failure_is_missing_option_or_uncaught _ _ _ E)
        as [(k & v & m & _ & _ & _ & Hg & Hc)|[Hb _]]
  end.
  - eexists. exists k, m. repeat split; eassumption.
  - vm_compute in Hb. discriminate.
Defined.

(** On an object whose [quota] validator has no list of valid values, as
    in the three classes, validation that returns has left the quota
    [api] as it is and has replaced every other text by the number of
    bytes [convert_size_to_bytes] gives for it. The comparison with [api]
    is exact: a text in other letters is converted like any other. *)
Theorem quota_is_converted_unless_api self self' s :
  (forall v, In ("quota", v) (validators self) -> v_valid v = None) ->
  Dict.get "quota" (plugin_options self) = Some (VStr s) ->
  validate_plugin_options self = (self', Ret tt) ->
  if (s =? "api")%string
  then Dict.get "quota" (plugin_options self') = Some (VStr "api")
  else exists n, Size.convert_size_to_bytes s = Ret n
                 /\ Dict.get "quota" (plugin_options self') = Some (VInt n).
Proof.
  intros Hv Hq. rewrite validate_plugin_options_eq.
  pose proof (validate_options_keeps (validators self) self "quota" _ Hq Hv)
    as Hk.
  destruct (validate_options (validators self) self) as [s1 [[]|e]];
    [|discriminate].
  cbn [fst] in Hk.
  destruct (Dict.get "ssl_check" (plugin_options s1)) as [ssl|];
    [|discriminate].
  cbv zeta.
  set (s2 := if Py.truth ssl then _ else _).
  assert (Hq2 : Dict.get "quota" (plugin_options s2) = Some (VStr s)).
  { subst s2. destruct (Py.truth ssl); [|exact Hk].
    destruct (Dict.get "ca_path" (plugin_options s1)); [|exact Hk].
    cbn [set_option plugin_options].
    rewrite DictFacts.get_set_other; [exact Hk | discriminate]. }
  rewrite Hq2. cbn [Py.eq_str convert_size].
  destruct (s =? "api")%string eqn:Es.
  - intros [= <-]. apply String.eqb_eq in Es. now subst.
  - destruct (Size.convert_size_to_bytes s) as [n|e]; [|discriminate].
    intros [= <-]. exists n. split; [reflexivity|].
    cbn [set_option plugin_options]. apply DictFacts.get_set_same.
Qed.


Lemma validation_returns_normalised_witness :
  exists self self',
    (self0 <- init Examples.urlsplit 0 DAVStorageStats
                (Examples.dav_conf "d1" "2GB") ;;
     Ret (extend "DAV" dav_validators self0)) = Ret self
    /\ validate_plugin_options self = (self', Ret tt)
    /\ Dict.mem "ssl_check" (plugin_options self') = true
    /\ exists q, Dict.get "quota" (plugin_options self') = Some q
                 /\ (q = VStr "api" \/ exists n, q = VInt n).
Proof.
  eexists.
  match goal with
  | |- exists _, ?I = Ret ?s /\ _ =>
      assert (Hinit : I = Ret s) by (vm_compute; reflexivity)
  end.
  match type of Hinit with
  | _ = Ret ?s =>
      assert (E : validate_plugin_options s
                  = (fst (validate_plugin_options s), Ret tt))
        by (vm_compute; reflexivity);
      destruct (validation_returns_normalised _ _ E) as [Hall Hq]
  end.
  eexists. split; [exact Hinit|]. split; [exact E|]. split; [|exact Hq].
  apply (Hall "ssl_check"
           {| v_default := Some (VBool true); v_required := Some false;
              v_valid := Some ["true"; "false"; "yes"; "no"];
              v_boolean := Some true |}).
  vm_compute. right. left. reflexivity.
Defined.

Lemma quota_is_converted_unless_api_witness :
  exists self self',
    (self0 <- init Examples.urlsplit 0 DAVStorageStats
                (Examples.dav_conf "d1" "2GB") ;;
     Ret (extend "DAV" dav_validators self0)) = Ret self
    /\ validate_plugin_options self = (self', Ret tt)
    /\ exists n, Size.convert_size_to_bytes "2GB" = Ret n
                 /\ Dict.get "quota" (plugin_options self') = Some (VInt n).
Proof.
  eexists.
  match goal with
  | |- exists _, ?I = Ret ?s /\ _ =>
      assert (Hinit : I = Ret s) by (vm_compute; reflexivity)
  end.
  match type of Hinit with
  | _ = Ret ?s =>
      assert (E : validate_plugin_options s
                  = (fst (validate_plugin_options s), Ret tt))
        by (vm_compute; reflexivity);
      assert (Hv : forall v, In ("quota", v) (validators s) ->
                             v_valid v = None)
        by (vm_compute; intros v [[= <-]|[[=]|[[=]|[[=]|[]]]]]; reflexivity);
      pose proof (quota_is_converted_unless_api s _ "2GB" Hv eq_refl E) as Hq
  end.
  eexists. split; [exact Hinit|]. split; [exact E|]. exact Hq.
Defined.
End ValidationFacts.

(** ** The loop over the endpoints and the DAV collector *)

Module DispatchFacts.
Import Ugr Support.

Lemma poll_polled collect e e' :
  poll collect e = Some (Ret e') <-> polled collect e e'.
Proof.
  unfold poll, polled. split.
  - destruct (collect e) as [[s [[]|x]]|]; try discriminate.
    + intros [= <-]. exists s, (Ret tt). auto.
    + destruct x; try discriminate.
      destruct (is_storagestats_warning cls || is_storagestats_error cls)
        eqn:Ec; [|discriminate].
      intros [= <-]. exists s. eexists. split; [reflexivity|].
      cbn. now rewrite Ec.
  - intros (s & o & -> & Ho). destruct o as [[]|x].
    + now subst.
    + destruct x; try contradiction. destruct Ho as [-> ->]. reflexivity.
Qed.

(** Run with neither output option, the loop over the endpoints returns
    exactly when every [try] statement ends with an object: the collector
    returned, or raised a storage statistics warning or error, which the
    handler recorded in the object. *)
Lemma poll_all_returns_iff_every_round_is_recorded collect eps objs :
  poll_all collect eps = Some (Ret objs) <-> Forall2 (polled collect) eps objs.
Proof.
  revert objs. induction eps as [|e eps IH]; intros objs; cbn [poll_all].
  - split.
    + intros [= <-]. constructor.
    + intros H. inversion H. reflexivity.
  - split.
    + destruct (poll collect e) as [[e'|x]|] eqn:Ep; try discriminate.
      destruct (poll_all collect eps) as [[rest|x]|]; try discriminate.
      intros [= <-]. constructor.
      * now apply poll_polled.
      * now apply IH.
    + intros H. inversion H as [|? e' ? rest Hp Hrest]; subst.
      apply poll_polled in Hp. rewrite Hp.
      apply IH in Hrest. now rewrite Hrest.
Qed.

(** An exception that is neither a storage statistics warning nor a
    storage statistics error, raised by the collector of one endpoint,
    leaves the loop: the endpoints after it are not asked. *)
Theorem poll_all_stops_at_other_exception collect pre pre' e s x post :
  Forall2 (polled collect) pre pre' ->
  collect e = Some (s, Raise x) ->
  (forall c m d, x = UGR c m d ->
     (is_storagestats_warning c || is_storagestats_error c) = false) ->
  poll_all collect (pre ++ e :: post)%list = Some (Raise x).
Proof.
  intros Hpre Hc Hx. induction Hpre as [|a a' pre pre' Ha _ IH];
    cbn [app poll_all].
  - unfold poll. rewrite Hc. destruct x; try reflexivity.
    now rewrite (Hx _ _ _ eq_refl).
  - apply poll_polled in Ha. now rewrite Ha, IH.
Qed.


Lemma poll_all_stops_at_other_exception_witness :
  exists e1 e2 e3,
    init_s3 Examples.urlsplit 0 (Examples.s3_conf "b1" "5000") = Ret e1
    /\ init_dav Examples.urlsplit 0 (Examples.dav_conf "d1" "api") = Ret e2
    /\ init_dav Examples.urlsplit 0 (Examples.dav_conf "d2" "api") = Ret e3
    /\ poll_all
         (get_storagestats Examples.two_objects
            (Examples.dav_server Examples.plain_reply)
            Examples.no_ceph_admin 1)
         [e1; e2; e3] = Some (Raise AttributeError).
Proof.
  eexists. eexists. eexists.
  split; [vm_compute; reflexivity|].
  split; [vm_compute; reflexivity|].
  split; [vm_compute; reflexivity|].
  match goal with
  | |- poll_all ?collect [?a; ?b; ?c] = _ =>
      apply (poll_all_stops_at_other_exception collect
               [a] [fst (match collect a with
                         | Some p => p
                         | None => (a, Ret tt)
                         end)] b b AttributeError [c])
  end.
  - constructor; [|constructor].
    eexists. exists (Ret tt). split; [vm_compute; reflexivity|].
    vm_compute. reflexivity.
  - vm_compute. reflexivity.
  - discriminate.
Defined.

(** *** The DAV collector *)

Lemma dav_url_and_options propfind self c k s :
  Dict.get "cli_certificate" (plugin_options self) = Some c ->
  Dict.get "cli_private_key" (plugin_options self) = Some k ->
  Dict.get "ssl_check" (plugin_options self) = Some s ->
  dav_get_storagestats propfind self =
  match propfind (scheme (uri self) ++ "://" ++ netloc (uri self)
                    ++ path (uri self)) with
  | ConnectionError name msg =>
      (self, Raise (connection_error name "000" msg))
  | IOError msg =>
      (self, Raise (dav_cert_path
                      (remove_spaces (PyStr.last_item (PyStr.split ":" msg)))
                      msg))
  | Reply response =>
      match Xml.fromstring response with
      | Raise e => (self, Raise e)
      | Ret tree =>
          match Xml.find_text Xml.quota_available_bytes tree with
          | Raise e => (self, Raise e)
          | Ret None =>
              (record_failure
                 "[ERROR][UnsupportedMethod][000] WebDAV Quota Method."
                 "[ERROR][UnsupportedMethod][000] WebDAV Quota Method."
                 (set_quota (VInt (-1))
                    (set_bytesfree (VInt (-1))
                       (set_bytesused (VInt (-1)) self))), Ret tt)
          | Ret (Some _) =>
              match reported Xml.quota_used_bytes tree with
              | Raise e => (self, Raise e)
              | Ret used =>
                  let s1 := set_bytesused (VInt used) self in
                  match reported Xml.quota_available_bytes tree with
                  | Raise e => (s1, Raise e)
                  | Ret free =>
                      let s2 := set_bytesfree (VInt free) s1 in
                      match Dict.get "quota" (plugin_options self) with
                      | None => (s2, Raise (KeyError "quota"))
                      | Some q =>
                          if Py.eq_str q "api" then
                            if free =? 0 then (s2, Ret tt)
                            else (set_quota (VInt (used + free)) s2, Ret tt)
                          else (set_quota q s2, Ret tt)
                      end
                  end
              end
          end
      end
  end.
Proof.
  intros Hc Hk Hs.
  unfold dav_get_storagestats, option_, Act.bind, Act.read, Act.lift,
    Act.raise, Act.modify, Act.ret, Dict.subscript.
  rewrite Hc, Hk, Hs.
  destruct (propfind _) as [response|name msg|msg]; try reflexivity.
  destruct (Xml.fromstring response) as [tree|e]; [|reflexivity].
  destruct (Xml.find_text Xml.quota_available_bytes tree) as [[txt|]|e]
    eqn:Ea; try reflexivity.
  fold (reported Xml.quota_used_bytes tree).
  destruct (reported Xml.quota_used_bytes tree) as [used|e]; [|reflexivity].
  unfold reported at 1. rewrite Ea. cbn [bind].
  destruct (Xml.int_of_text (Some txt)) as [free|e]; [|reflexivity].
  cbn [set_bytesfree set_bytesused with_stats plugin_options].
  destruct (Dict.get "quota" (plugin_options self)) as [q|]; [|reflexivity].
  destruct (Py.eq_str q "api"); [|reflexivity].
  destruct (free =? 0); reflexivity.
Qed.

(** The DAV collector on a reply that gives both numbers: they become
    [bytesused] and [bytesfree]. With the quota [api] the quota becomes
    their sum, except when no byte is free: then the quota keeps the value
    it had. With any other quota option the quota is that option. *)
Theorem dav_collector_quota propfind self c k s r tree used free q :
  Dict.get "cli_certificate" (plugin_options self) = Some c ->
  Dict.get "cli_private_key" (plugin_options self) = Some k ->
  Dict.get "ssl_check" (plugin_options self) = Some s ->
  Dict.get "quota" (plugin_options self) = Some q ->
  propfind (scheme (uri self) ++ "://" ++ netloc (uri self) ++ path (uri self))
  = Reply r ->
  Xml.fromstring r = Ret tree ->
  reported Xml.quota_used_bytes tree = Ret used ->
  reported Xml.quota_available_bytes tree = Ret free ->
  exists self',
    dav_get_storagestats propfind self = (self', Ret tt)
    /\ bytesused (stats self') = VInt used
    /\ bytesfree (stats self') = VInt free
    /\ quota (stats self')
       = (if Py.eq_str q "api"
          then if free =? 0 then quota (stats self) else VInt (used + free)
          else q)
    /\ status self' = status self.
Proof.
  intros Hc Hk Hs Hq Hp Ht Hu Hf.
  rewrite (dav_url_and_options _ _ _ _ _ Hc Hk Hs), Hp, Ht, Hu, Hf, Hq.
  assert (Ha : exists txt,
             Xml.find_text Xml.quota_available_bytes tree = Ret (Some txt)).
  { unfold reported in Hf.
    destruct (Xml.find_text Xml.quota_available_bytes tree) as [[txt|]|e];
      try discriminate. now exists txt. }
  destruct Ha as [txt ->]. cbv zeta.
  destruct (Py.eq_str q "api"); [destruct (free =? 0)|];
    eexists; repeat split.
Qed.

(** The DAV collector on a reply whose [quota-available-bytes] element is
    empty: the error for the unsupported method is raised and handled on
    the spot. The collector returns, the three statistics are -1 and the
    status is the message of the error. *)
Theorem dav_unsupported_method_is_recorded propfind self c k s r tree e :
  Dict.get "cli_certificate" (plugin_options self) = Some c ->
  Dict.get "cli_private_key" (plugin_options self) = Some k ->
  Dict.get "ssl_check" (plugin_options self) = Some s ->
  propfind (scheme (uri self) ++ "://" ++ netloc (uri self) ++ path (uri self))
  = Reply r ->
  Xml.fromstring r = Ret tree ->
  Xml.find Xml.quota_available_bytes tree = Some e ->
  Xml.text_of e = None ->
  exists self',
    dav_get_storagestats propfind self = (self', Ret tt)
    /\ bytesused (stats self') = VInt (-1)
    /\ bytesfree (stats self') = VInt (-1)
    /\ quota (stats self') = VInt (-1)
    /\ status self' = "[ERROR][UnsupportedMethod][000] WebDAV Quota Method."
    /\ debug self' = (debug self ++ [status self'])%list.
Proof.
  intros Hc Hk Hs Hp Ht Hfind Htext.
  rewrite (dav_url_and_options _ _ _ _ _ Hc Hk Hs), Hp, Ht.
  unfold Xml.find_text. rewrite Hfind, Htext.
  eexists. repeat split.
Qed.

(** The DAV collector on a reply without a [quota-available-bytes]
    element: the lookup of the text fails with [AttributeError], outside
    every handler, and the loop over the endpoints ends with it. *)
Theorem dav_reply_without_element_ends_the_loop
    propfind self c k s r tree rest :
  Dict.get "cli_certificate" (plugin_options self) = Some c ->
  Dict.get "cli_private_key" (plugin_options self) = Some k ->
  Dict.get "ssl_check" (plugin_options self) = Some s ->
  propfind (scheme (uri self) ++ "://" ++ netloc (uri self) ++ path (uri self))
  = Reply r ->
  Xml.fromstring r = Ret tree ->
  Xml.find Xml.quota_available_bytes tree = None ->
  dav_get_storagestats propfind self = (self, Raise AttributeError)
  /\ poll_all (fun e => Some (dav_get_storagestats propfind e)) (self :: rest)
     = Some (Raise AttributeError).
Proof.
  intros Hc Hk Hs Hp Ht Hfind.
  assert (H : dav_get_storagestats propfind self = (self, Raise AttributeError)).
  { rewrite (dav_url_and_options _ _ _ _ _ Hc Hk Hs), Hp, Ht.
    unfold Xml.find_text. now rewrite Hfind. }
  split; [exact H|]. cbn [poll_all]. unfold poll. now rewrite H.
Qed.

(** A DAV endpoint that cannot be reached: the collector raises the
    connection error, and the round of the loop records it: the status is
    the message with the name of the exception, the text of the exception
    is added to [debug], and the statistics are as they were. *)
Theorem dav_connection_error_is_recorded propfind self c k s name msg :
  Dict.get "cli_certificate" (plugin_options self) = Some c ->
  Dict.get "cli_private_key" (plugin_options self) = Some k ->
  Dict.get "ssl_check" (plugin_options self) = Some s ->
  propfind (scheme (uri self) ++ "://" ++ netloc (uri self) ++ path (uri self))
  = ConnectionError name msg ->
  exists self',
    poll (fun e => Some (dav_get_storagestats propfind e)) self
    = Some (Ret self')
    /\ status self'
       = "[ERROR][" ++ name ++ "][000] Failed to establish a connection."
    /\ debug self' = (debug self ++ [msg])%list
    /\ stats self' = stats self.
Proof.
  intros Hc Hk Hs Hp. unfold poll.
  rewrite (dav_url_and_options _ _ _ _ _ Hc Hk Hs), Hp.
  unfold connection_error, error, make_exn, tags.
  cbn [is_storagestats_warning is_storagestats_error orb].
  eexists. split; [reflexivity|].
  cbn [record_failure status debug stats]. repeat split.
  cbn [append]. now rewrite !PyStrFacts.app_assoc.
Qed.

Lemma dav_collector_quota_witness :
  exists self self',
    init_dav Examples.urlsplit 0 (Examples.dav_conf "d1" "api") = Ret self
    /\ dav_get_storagestats
         (Examples.dav_server (Examples.quota_reply "500" "0")) self
       = (self', Ret tt)
    /\ bytesused (stats self') = VInt 500
    /\ bytesfree (stats self') = VInt 0
    /\ quota (stats self') = VInt (1000 ^ 4).
Proof.
  eexists.
  match goal with
  | |- exists _, ?I = Ret ?s /\ _ =>
      assert (Hinit : I = Ret s) by (vm_compute; reflexivity)
  end.
  match type of Hinit with
  | _ = Ret ?s =>
      destruct (dav_collector_quota
                  (Examples.dav_server (Examples.quota_reply "500" "0")) s
                  _ _ _ (Examples.quota_reply "500" "0") _ 500 0 (VStr "api")
                  eq_refl eq_refl eq_refl eq_refl eq_refl eq_refl
                  eq_refl eq_refl)
        as (self' & Hrun & Hused & Hfree & Hquota & _)
  end.
  exists self'. repeat split; assumption.
Defined.

Lemma dav_unsupported_method_is_recorded_witness :
  exists self self',
    init_dav Examples.urlsplit 0 (Examples.dav_conf "d1" "api") = Ret self
    /\ dav_get_storagestats
         (Examples.dav_server
            {| Xml.status_code := 207;
               Xml.content :=
                 Some (Xml.Element "{DAV:}multistatus" None
                         [Xml.Element Xml.quota_available_bytes None []]);
               Xml.content_str := "<multistatus/>" |}) self
       = (self', Ret tt)
    /\ quota (stats self') = VInt (-1)
    /\ status self' = "[ERROR][UnsupportedMethod][000] WebDAV Quota Method.".
Proof.
  eexists.
  match goal with
  | |- exists _, ?I = Ret ?s /\ _ =>
      assert (Hinit : I = Ret s) by (vm_compute; reflexivity)
  end.
  match goal with
  | |- exists _, _ = Ret ?s /\ dav_get_storagestats ?p _ = _ /\ _ =>
      destruct (dav_unsupported_method_is_recorded p s
                  _ _ _ _ _ (Xml.Element Xml.quota_available_bytes None [])
                  eq_refl eq_refl eq_refl eq_refl eq_refl eq_refl eq_refl)
        as (self' & Hrun & _ & _ & Hquota & Hstatus & _)
  end.
  exists self'. repeat split; assumption.
Defined.

Lemma dav_reply_without_element_ends_the_loop_witness :
  exists self,
    init_dav Examples.urlsplit 0 (Examples.dav_conf "d1" "api") = Ret self
    /\ poll_all
         (fun e => Some (dav_get_storagestats
                           (Examples.dav_server Examples.plain_reply) e))
         [self; self] = Some (Raise AttributeError).
Proof.
  eexists.
  match goal with
  | |- ?I = Ret ?s /\ _ =>
      assert (Hinit : I = Ret s) by (vm_compute; reflexivity)
  end.
  split; [exact Hinit|].
  match type of Hinit with
  | _ = Ret ?s =>
      exact (proj2 (dav_reply_without_element_ends_the_loop
                      (Examples.dav_server Examples.plain_reply) s
                      _ _ _ _ _ [s]
                      eq_refl eq_refl eq_refl eq_refl eq_refl eq_refl))
  end.
Defined.

Lemma dav_connection_error_is_recorded_witness :
  exists self self',
    init_dav Examples.urlsplit 0 (Examples.dav_conf "d1" "api") = Ret self
    /\ poll (fun e => Some (dav_get_storagestats Examples.dav_unreachable e))
         self = Some (Ret self')
    /\ status self'
       = "[ERROR][ConnectionError][000] Failed to establish a connection."
    /\ stats self' = stats self.
Proof.
  eexists.
  match goal with
  | |- exists _, ?I = Ret ?s /\ _ =>
      assert (Hinit : I = Ret s) by (vm_compute; reflexivity)
  end.
  match type of Hinit with
  | _ = Ret ?s =>
      destruct (dav_connection_error_is_recorded Examples.dav_unreachable s
                  _ _ _ "ConnectionError" "Connection refused"
                  eq_refl eq_refl eq_refl eq_refl)
        as (self' & Hrun & Hstatus & _ & Hstats)
  end.
  exists self'. repeat split; assumption.
Defined.
(** C6 (not met by the code). After a collection pass that succeeds, a
    share with a configured quota should have its free bytes equal to the
    quota less the used bytes. Here the DAV collector of the script polls
    an endpoint configured with the quota 5000, and the server reports
    500 used and 1500 available bytes: the collector returns, with the
    quota at 5000 and the used bytes at 500, but the free bytes stay at
    the reported 1500. Neither derivation holds: 1500 is not
    [5000 - 500], and 5000 is not [500 + 1500]. On the same reply and
    quota, [process_rfc4331_response] sets the free bytes to 4500. *)
Theorem dav_collector_keeps_reported_free_bytes :
  exists self self',
    init_dav Examples.urlsplit 0 (Examples.dav_conf "d1" "5000") = Ret self
    /\ Dict.get "quota" (plugin_options self) = Some (VInt 5000)
    /\ dav_get_storagestats
         (Examples.dav_server (Examples.quota_reply "500" "1500")) self
       = (self', Ret tt)
    /\ status self' = status self
    /\ quota (stats self') = VInt 5000
    /\ bytesused (stats self') = VInt 500
    /\ bytesfree (stats self') = VInt 1500
    /\ 1500 <> 5000 - 500
    /\ 5000 <> 500 + 1500
    /\ Share.bytesfree
         (Share.stats
            (fst (Xml.process_rfc4331_response
                    (Examples.quota_reply "500" "1500")
                    (Examples.dav_share (VInt 5000)))))
       = VInt 4500.
Proof.
  eexists. eexists.
  split; [vm_compute; reflexivity|].
  split; [reflexivity|].
  split; [vm_compute; reflexivity|].
  repeat split; try reflexivity; lia.
Qed.

End DispatchFacts.

(** ** Construction of the endpoint objects, and listings that fail *)

Module EndpointFacts.
Import Ugr Support.

(** *** The ID of an object never changes *)

Lemma validate_option_id k v self :
  id (fst (validate_option k v self)) = id self.
Proof.
  destruct (ValidationFacts.validate_option_outcome k v self); reflexivity.
Qed.

Lemma validate_options_id vs : forall self,
  id (fst (validate_options vs self)) = id self.
Proof.
  induction vs as [|[k v] rest IH]; intros self; [reflexivity|].
  rewrite ValidationFacts.validate_options_cons.
  pose proof (validate_option_id k v self) as H1.
  destruct (validate_option k v self) as [s1 [[]|e]]; cbn [fst] in *.
  - now rewrite IH.
  - exact H1.
Qed.

Lemma validate_plugin_options_id self :
  id (fst (validate_plugin_options self)) = id self.
Proof.
  rewrite ValidationFacts.validate_plugin_options_eq.
  pose proof (validate_options_id (validators self) self) as H1.
  destruct (validate_options (validators self) self) as [s1 [[]|e]];
    cbn [fst] in *; [|exact H1].
  destruct (Dict.get "ssl_check" (plugin_options s1)) as [ssl|];
    [|exact H1].
  cbv zeta.
  set (s2 := if Py.truth ssl then _ else _).
  assert (H2 : id s2 = id self).
  { subst s2. destruct (Py.truth ssl); [|exact H1].
    now destruct (Dict.get "ca_path" (plugin_options s1)). }
  destruct (Dict.get "quota" (plugin_options s2)) as [q|]; [|exact H2].
  destruct (Py.eq_str q "api"); [exact H2|].
  destruct (convert_size q); exact H2.
Qed.

Lemma catch_config_file_error_id m self :
  id (fst (m self)) = id self ->
  id (fst (catch_config_file_error m self)) = id self.
Proof.
  unfold catch_config_file_error. intros H.
  destruct (m self) as [s1 [[]|e]]; cbn [fst] in *; try exact H.
  destruct e; try exact H.
  destruct (is_config_file_error cls); exact H.
Qed.

Lemma set_bucket_id self : id (fst (set_bucket self)) = id self.
Proof.
  unfold set_bucket, option_lower, option_, Act.bind, Act.read, Act.lift,
    Act.modify.
  destruct (Dict.subscript "s3.alternate" (plugin_options self)) as [a|];
    [|reflexivity].
  destruct (Py.lower a) as [al|]; [|reflexivity].
  cbn [fst]. destruct (is_yes al); [reflexivity|].
  now destruct (PyStr.partition2 "." (netloc (uri self))).
Qed.

Lemma init_id urlsplit now c ep self :
  init urlsplit now c ep = Ret self -> id self = ep_id ep.
Proof.
  unfold init. destruct (ep_plugin_options ep); [|discriminate].
  cbn [bind]. cbv zeta.
  destruct (urlsplit (ep_url ep)) as [_url|]; [|discriminate].
  cbn [bind]. destruct (sr_port _url) as [port'|]; [|discriminate].
  cbn [bind].
  destruct (match c with
            | S3StorageStats => _
            | _ => _
            end) as [sch|]; [|discriminate].
  cbn [bind]. now intros [= <-].
Qed.

Lemma construct_id m self obj :
  (forall s, id (fst (m s)) = id s) ->
  construct m self = Ret obj -> id obj = id self.
Proof.
  unfold construct. intros Hm. specialize (Hm self).
  destruct (m self) as [s1 [[]|e]]; [|discriminate].
  now intros [= <-].
Qed.

Lemma new_id urlsplit now c ep obj :
  new urlsplit now c ep = Ret obj -> id obj = ep_id ep.
Proof.
  destruct c; cbn [new].
  - apply init_id.
  - unfold init_s3.
    destruct (init urlsplit now S3StorageStats ep) as [self|] eqn:Ei;
      [|discriminate].
    cbn [bind]. intros H. apply construct_id in H.
    + rewrite H. cbn [extend id]. exact (init_id _ _ _ _ _ Ei).
    + intros s. unfold Act.bind.
      pose proof (catch_config_file_error_id validate_plugin_options s
                    (validate_plugin_options_id s)) as H1.
      destruct (catch_config_file_error validate_plugin_options s)
        as [s1 [[]|e]]; cbn [fst] in *; [|exact H1].
      now rewrite set_bucket_id.
  - unfold init_dav.
    destruct (init urlsplit now DAVStorageStats ep) as [self|] eqn:Ei;
      [|discriminate].
    cbn [bind]. intros H. apply construct_id in H.
    + rewrite H. cbn [extend id]. exact (init_id _ _ _ _ _ Ei).
    + intros s. apply catch_config_file_error_id, validate_plugin_options_id.
Qed.

Lemma get_endpoint_id urlsplit now ep obj :
  get_endpoint urlsplit now ep = Ret obj -> id obj = ep_id ep.
Proof.
  unfold get_endpoint.
  destruct (factory (ep_plugin ep)) as [c|e] eqn:Ef; cbn [bind].
  - destruct (new urlsplit now c ep) as [o|e] eqn:En.
    + intros [= <-]. exact (new_id _ _ _ _ _ En).
    + destruct e; try discriminate. destruct cls; try discriminate.
      destruct (init urlsplit now StorageStats ep) as [o|] eqn:Ei;
        [|discriminate].
      cbn [bind]. intros [= <-]. exact (init_id _ _ _ _ _ Ei).
  - destruct e; try discriminate. destruct cls; try discriminate.
    destruct (init urlsplit now StorageStats ep) as [o|] eqn:Ei;
      [|discriminate].
    cbn [bind]. intros [= <-]. exact (init_id _ _ _ _ _ Ei).
Qed.

Lemma get_endpoints_app urlsplit now pre : forall post,
  get_endpoints urlsplit now (pre ++ post)%list
  = join_result (get_endpoints urlsplit now pre)
      (get_endpoints urlsplit now post).
Proof.
  unfold join_result.
  induction pre as [|[k ep] pre IH]; intros post; cbn [app get_endpoints].
  - cbn [bind]. destruct (get_endpoints urlsplit now post); reflexivity.
  - destruct (get_endpoint urlsplit now ep) as [o|e]; [|reflexivity].
    cbn [bind]. rewrite IH.
    destruct (get_endpoints urlsplit now pre) as [os|e]; [|reflexivity].
    cbn [bind].
    destruct (get_endpoints urlsplit now post) as [ps|e]; reflexivity.
Qed.

(** [get_endpoints], when it returns, has made one object for each entry
    of the configuration, in the order of the entries, and each object
    has the ID of its entry. *)
Theorem get_endpoints_keeps_order_and_ids urlsplit now eps objs :
  get_endpoints urlsplit now eps = Ret objs ->
  map id objs = map (fun kv => ep_id (snd kv)) eps.
Proof.
  revert objs. induction eps as [|[k ep] eps IH]; intros objs;
    cbn [get_endpoints].
  - now intros [= <-].
  - destruct (get_endpoint urlsplit now ep) as [o|e] eqn:Eo; [|discriminate].
    cbn [bind].
    destruct (get_endpoints urlsplit now eps) as [os|e]; [|discriminate].
    cbn [bind]. intros [= <-]. cbn [map snd].
    now rewrite (get_endpoint_id _ _ _ _ Eo), (IH os eq_refl).
Qed.

(** The first entry whose object cannot be made ends [get_endpoints] with
    the exception of its constructor: no list is returned, whatever the
    entries before and after it are. *)
Theorem get_endpoints_raises_first_failure
    urlsplit now pre objs k ep e post :
  get_endpoints urlsplit now pre = Ret objs ->
  get_endpoint urlsplit now ep = Raise e ->
  get_endpoints urlsplit now (pre ++ (k, ep) :: post)%list = Raise e.
Proof.
  intros Hpre He. rewrite get_endpoints_app, Hpre.
  unfold join_result. cbn [bind get_endpoints]. now rewrite He.
Qed.

(** An entry whose plugin is none of the three the factory knows still
    gives an object, of the base class: its status is the message of the
    unsupported-plugin error, which is also the one entry of [debug], and
    its statistics are the initial ones. *)
Theorem unsupported_plugin_is_recorded urlsplit now ep o :
  ep_plugin_options ep = Some o ->
  ep_plugin ep <> "libugrlocplugin_dav.so" ->
  ep_plugin ep <> "libugrlocplugin_http.so" ->
  ep_plugin ep <> "libugrlocplugin_s3.so" ->
  match (_url <- urlsplit (ep_url ep) ;; sr_port _url) with
  | Ret _ =>
      exists obj,
        get_endpoint urlsplit now ep = Ret obj
        /\ class obj = StorageStats
        /\ storageprotocol obj = None
        /\ id obj = ep_id ep
        /\ status obj
           = "[ERROR][UnsupportedPlugin][000] StorageStats method for "
             ++ PyStr.quoted (ep_plugin ep) ++ " not implemented yet."
        /\ debug obj = [status obj]
        /\ stats obj = {| bytesused := VInt 0; bytesfree := VInt 0;
                          files := VInt 0; quota := VInt (1000 ^ 4);
                          timestamp := now |}
  | Raise e => get_endpoint urlsplit now ep = Raise e
  end.
Proof.
  intros Ho H1 H2 H3. unfold get_endpoint, factory.
  apply String.eqb_neq in H1, H2, H3. rewrite H1, H2, H3.
  cbn [bind]. unfold unsupported_plugin, error, make_exn.
  unfold init. rewrite Ho. cbn [bind]. cbv zeta.
  destruct (urlsplit (ep_url ep)) as [_url|e]; cbn [bind]; [|reflexivity].
  destruct (sr_port _url) as [port'|e]; cbn [bind]; [|reflexivity].
  eexists. split; [reflexivity|].
  cbn [record_failure class id status debug stats app storageprotocol].
  repeat split.
Qed.

(** An entry for which no option line was read has no [plugin_options]
    key, and the constructor of every class fails on it with
    [KeyError]. *)
Theorem endpoint_without_options_is_a_key_error urlsplit now ep :
  ep_plugin_options ep = None ->
  get_endpoint urlsplit now ep = Raise (KeyError "plugin_options").
Proof.
  intros Ho. unfold get_endpoint, factory.
  destruct (ep_plugin ep =? "libugrlocplugin_dav.so")%string;
    [|destruct (ep_plugin ep =? "libugrlocplugin_http.so")%string;
      [|destruct (ep_plugin ep =? "libugrlocplugin_s3.so")%string]];
    cbn [bind new]; unfold init_dav, init_s3, unsupported_plugin, error,
      make_exn, init; rewrite Ho; reflexivity.
Qed.


Lemma get_endpoints_keeps_order_and_ids_witness :
  exists objs,
    get_endpoints Examples.urlsplit 0
      [("b1", Examples.s3_conf "b1" "5000");
       ("r1", Examples.rucio_conf "r1");
       ("d1", Examples.dav_conf "d1" "api")] = Ret objs
    /\ map id objs = ["b1"; "r1"; "d1"].
Proof.
  eexists.
  match goal with
  | |- ?G = Ret ?o /\ _ =>
      assert (H : G = Ret o) by (vm_compute; reflexivity)
  end.
  split; [exact H|].
  exact (get_endpoints_keeps_order_and_ids _ _ _ _ H).
Defined.

Lemma get_endpoints_raises_first_failure_witness :
  get_endpoints Examples.urlsplit 0
    [("d1", Examples.dav_conf "d1" "api");
     ("d2", Examples.dav_conf "d2" "1024x");
     ("d3", Examples.dav_conf "d3" "2GB")] = Raise SystemExit.
Proof.
  assert (Hpre : exists objs,
             get_endpoints Examples.urlsplit 0
               [("d1", Examples.dav_conf "d1" "api")] = Ret objs)
    by (eexists; vm_compute; reflexivity).
  destruct Hpre as [objs Hpre].
  change (get_endpoints Examples.urlsplit 0
            ([("d1", Examples.dav_conf "d1" "api")]
             ++ ("d2", Examples.dav_conf "d2" "1024x")
                :: [("d3", Examples.dav_conf "d3" "2GB")])%list
          = Raise SystemExit).
  apply (get_endpoints_raises_first_failure Examples.urlsplit 0
           [("d1", Examples.dav_conf "d1" "api")] objs "d2"
           (Examples.dav_conf "d2" "1024x") SystemExit
           [("d3", Examples.dav_conf "d3" "2GB")] Hpre).
  vm_compute. reflexivity.
Defined.

Lemma unsupported_plugin_is_recorded_witness :
  (exists obj,
      get_endpoint Examples.urlsplit 0 (Examples.rucio_conf "r1") = Ret obj
      /\ class obj = StorageStats
      /\ debug obj = [status obj])
  /\ get_endpoint Examples.urlsplit 0
       {| ep_id := "r1"; ep_url := "davs://r1.example.org:99999/data";
          ep_plugin := "libugrlocplugin_davrucio.so";
          ep_plugin_options := Some [("ssl_check", "true")] |}
     = Raise ValueError.
Proof.
  split.
  - destruct (unsupported_plugin_is_recorded Examples.urlsplit 0
                (Examples.rucio_conf "r1") [("ssl_check", "true")] eq_refl)
      as (obj & Hrun & Hclass & _ & _ & _ & Hdebug & _); try discriminate.
    exists obj. repeat split; assumption.
  - apply (unsupported_plugin_is_recorded Examples.urlsplit 0
             {| ep_id := "r1"; ep_url := "davs://r1.example.org:99999/data";
                ep_plugin := "libugrlocplugin_davrucio.so";
                ep_plugin_options := Some [("ssl_check", "true")] |}
             [("ssl_check", "true")] eq_refl); discriminate.
Defined.

Lemma endpoint_without_options_is_a_key_error_witness :
  get_endpoint Examples.urlsplit 0
    {| ep_id := "d1"; ep_url := "davs://d1.example.org/data";
       ep_plugin := "libugrlocplugin_dav.so"; ep_plugin_options := None |}
  = Raise (KeyError "plugin_options").
Proof.
  apply endpoint_without_options_is_a_key_error. reflexivity.
Defined.

(** *** A listing that fails *)

Lemma quota_warning_class :
  exists m d, quota_warning = UGR UGRStorageStatsQuotaWarning m d.
Proof. unfold quota_warning, warning, make_exn. eauto. Qed.

Lemma generic_finish_raises total_bytes total_files self e :
  snd (generic_finish total_bytes total_files self) = Raise e ->
  e = quota_warning \/ e = TypeError \/ e = KeyError "quota".
Proof.
  unfold generic_finish, option_, Act.bind, Act.read, Act.modify, Act.lift,
    Act.raise, Dict.subscript.
  cbn [set_bytesused with_stats plugin_options].
  rewrite ListingFacts.one_terabyte.
  remember quota_warning as w eqn:Hw. clear Hw.
  destruct (Dict.get "quota" (plugin_options self)) as [q|].
  - destruct (Py.eq_str q "api").
    + cbn [Py.sub Py.number snd]. intros [= <-]. now left.
    + cbn [set_quota set_files with_stats].
      destruct (Py.sub q (VInt total_bytes)) as [f|x] eqn:Es; cbn [snd].
      * discriminate.
      * intros [= <-]. unfold Py.sub in Es.
        destruct (Py.number q); [discriminate|].
        injection Es as <-. right. now left.
  - cbn [snd]. intros [= <-]. right. now right.
Qed.

(** When the generic S3 collector ends with the connection error, the
    object is as it was before: the sizes and counts of the pages that were
    read before the failure are not stored. *)
Theorem listing_error_leaves_the_statistics list_objects fuel self self' m d :
  generic list_objects fuel self
  = Some (self', Raise (UGR UGRStorageStatsConnectionError m d)) ->
  self' = self.
Proof.
  unfold generic.
  pose proof (ListingFacts.generic_setup_reads self) as Hs.
  destruct (generic_setup self) as [s1 [[api_url b]|e]]; cbn [fst] in Hs;
    subst s1.
  - destruct (list_loop list_objects fuel api_url b None 0 0)
      as [[[tb tf]|e]|]; try discriminate.
    + intros H.
      assert (Hr : snd (generic_finish tb tf self)
                   = Raise (UGR UGRStorageStatsConnectionError m d)).
      { destruct (generic_finish tb tf self) as [s2 r].
        cbn [snd]. congruence. }
      destruct quota_warning_class as (m' & d' & Hw).
      destruct (generic_finish_raises _ _ _ _ Hr) as [H1|[H1|H1]];
        [rewrite Hw in H1| |]; discriminate H1.
    + intros H. congruence.
  - intros H. congruence.
Qed.

Lemma listing_error_leaves_the_statistics_witness :
  exists self m d,
    init_s3 Examples.urlsplit 0 (Examples.s3_conf "b1" "5000") = Ret self
    /\ generic Examples.broken_listing 5 self
       = Some (self, Raise (UGR UGRStorageStatsConnectionError m d)).
Proof.
  eexists.
  match goal with
  | |- exists _ _, ?I = Ret ?s /\ _ =>
      assert (Hinit : I = Ret s) by (vm_compute; reflexivity)
  end.
  match type of Hinit with
  | _ = Ret ?s =>
      assert (E : exists s' m d,
                 generic Examples.broken_listing 5 s
                 = Some (s', Raise (UGR UGRStorageStatsConnectionError m d)))
        by (do 3 eexists; vm_compute; reflexivity)
  end.
  destruct E as (s' & m & d & E). exists m, d. split; [exact Hinit|].
  pose proof (listing_error_leaves_the_statistics _ _ _ _ _ _ E) as Heq.
  subst s'. exact E.
Defined.

End EndpointFacts.

(** ** What the parser returns *)

Module ParserFacts.
Import PyStr ConfigLoader Support.


(** *** The back-fill of the global settings *)

Lemma filled_nil kr : filled [] kr kr.
Proof.
  unfold filled. repeat split; try reflexivity.
  intros s. now destruct (Dict.get s (settings_of (snd kr))).
Qed.

Lemma filled_step setting value rest kr kr1 kr2 :
  filled [(setting, value)] kr kr1 -> filled rest kr1 kr2 ->
  filled ((setting, value) :: rest) kr kr2.
Proof.
  intros (Hk & Hi & Hu & Hp & Hs) (Hk2 & Hi2 & Hu2 & Hp2 & Hs2).
  unfold filled. repeat split; try congruence.
  intros s. rewrite Hs2, Hs. cbn [Dict.get].
  destruct (Dict.get s (settings_of (snd kr))); [reflexivity|].
  now destruct (setting =? s)%string.
Qed.

Lemma fill_share_filled setting value k r r' :
  fill_share setting value r = Ret r' ->
  filled [(setting, value)] (k, r) (k, r').
Proof.
  unfold fill_share, filled, settings_of. cbn [fst snd].
  destruct (rs_plugin_settings r) as [ps|] eqn:Eps; [|discriminate].
  unfold Dict.mem.
  destruct (Dict.get setting ps) as [v|] eqn:Eg.
  - intros [= <-]. rewrite Eps. repeat split.
    intros s. cbn [Dict.get].
    destruct (Dict.get s ps) eqn:Es; [reflexivity|].
    destruct (String.eqb_spec setting s) as [->|]; [congruence|reflexivity].
  - intros [= <-]. cbn [rs_id rs_url rs_plugin rs_plugin_settings].
    repeat split. intros s. cbn [Dict.get].
    destruct (String.eqb_spec setting s) as [->|Hne].
    + now rewrite DictFacts.get_set_same, Eg.
    + rewrite DictFacts.get_set_other by exact Hne.
      now destruct (Dict.get s ps).
Qed.

Lemma fill_shares_filled setting value shares : forall shares',
  fill_shares setting value shares = Ret shares' ->
  Forall2 (filled [(setting, value)]) shares shares'.
Proof.
  induction shares as [|[k r] rest IH]; intros shares'; cbn [fill_shares].
  - intros [= <-]. constructor.
  - destruct (fill_share setting value r) as [r'|] eqn:Er; [|discriminate].
    cbn [bind].
    destruct (fill_shares setting value rest) as [rest'|]; [|discriminate].
    cbn [bind]. intros [= <-]. constructor.
    + now apply fill_share_filled.
    + now apply IH.
Qed.

Lemma Forall2_filled_step setting value rest a b c :
  Forall2 (filled [(setting, value)]) a b ->
  Forall2 (filled rest) b c ->
  Forall2 (filled ((setting, value) :: rest)) a c.
Proof.
  intros Hab. revert c. induction Hab as [|x y a b Hxy _ IH]; intros c Hbc.
  - inversion Hbc. constructor.
  - inversion Hbc as [|? z ? c' Hyz Hbc']; subst. constructor.
    + exact (filled_step _ _ _ _ _ _ Hxy Hyz).
    + now apply IH.
Qed.

Lemma apply_global_settings_filled globals : forall shares shares',
  apply_global_settings globals shares = Ret shares' ->
  Forall2 (filled globals) shares shares'.
Proof.
  induction globals as [|[setting value] rest IH]; intros shares shares';
    cbn [apply_global_settings].
  - intros [= <-]. induction shares; constructor; auto using filled_nil.
  - destruct (fill_shares setting value shares) as [shares1|] eqn:E1;
      [|discriminate].
    cbn [bind]. intros H.
    exact (Forall2_filled_step _ _ _ _ _ _
             (fill_shares_filled _ _ _ _ E1) (IH _ _ H)).
Qed.


(** The back-fill, when it returns, has changed only the settings: every
    share has its own settings with their values, and in addition each
    global setting it did not have. A value of the share is never replaced
    by a global one. *)
Theorem global_settings_fill_only_missing globals shares shares' :
  apply_global_settings globals shares = Ret shares' ->
  Forall2 (filled globals) shares shares'.
Proof.
  revert shares shares'.
  induction globals as [|[setting value] rest IH]; intros shares shares';
    cbn [apply_global_settings].
  - intros [= <-]. induction shares; constructor; auto using filled_nil.
  - destruct (fill_shares setting value shares) as [shares1|] eqn:E1;
      [|discriminate].
    cbn [bind]. intros H.
    exact (Forall2_filled_step _ _ _ _ _ _
             (fill_shares_filled _ _ _ _ E1) (IH _ _ H)).
Qed.

Lemma global_settings_fill_only_missing_witness :
  exists shares',
    apply_global_settings [("ssl_check", "true"); ("conn_timeout", "10")]
      [("dav1", {| rs_id := Some "dav1"; rs_url := Some "davs://host/data";
                   rs_plugin := Some "libugrlocplugin_dav.so";
                   rs_plugin_settings := Some [("ssl_check", "false")] |})]
    = Ret shares'
    /\ Forall2 (filled [("ssl_check", "true"); ("conn_timeout", "10")])
         [("dav1", {| rs_id := Some "dav1"; rs_url := Some "davs://host/data";
                      rs_plugin := Some "libugrlocplugin_dav.so";
                      rs_plugin_settings := Some [("ssl_check", "false")] |})]
         shares'
    /\ map (fun kr => settings_of (snd kr)) shares'
       = [[("ssl_check", "false"); ("conn_timeout", "10")]].
Proof.
  eexists.
  match goal with
  | |- ?P = Ret ?s /\ _ =>
      assert (H : P = Ret s) by (vm_compute; reflexivity)
  end.
  split; [exact H|]. split.
  - exact (global_settings_fill_only_missing _ _ _ H).
  - reflexivity.
Defined.

(** *** Keys and entries of a dict *)

Lemma keys_set {V : Type} (k : string) (v : V) (d : pydict V) :
  Dict.keys (Dict.set k v d)
  = if Dict.mem k d then Dict.keys d else (Dict.keys d ++ [k])%list.
Proof.
  unfold Dict.mem, Dict.keys.
  induction d as [|[k' v'] d IH]; cbn [Dict.set Dict.get map app];
    [reflexivity|].
  destruct (k' =? k)%string; [reflexivity|].
  cbn [map fst]. rewrite IH.
  now destruct (Dict.get k d).
Qed.

Lemma mem_keys {V : Type} (k : string) (d : pydict V) :
  Dict.mem k d = true <-> In k (Dict.keys d).
Proof.
  unfold Dict.mem, Dict.keys.
  induction d as [|[k' v'] d IH]; cbn [Dict.get map fst In].
  - split; [discriminate|contradiction].
  - destruct (String.eqb_spec k' k) as [->|Hne].
    + split; auto.
    + rewrite IH. split; [auto|]. intros [H|H]; [contradiction|exact H].
Qed.

Lemma nodup_set {V : Type} (k : string) (v : V) (d : pydict V) :
  NoDup (Dict.keys d) -> NoDup (Dict.keys (Dict.set k v d)).
Proof.
  intros H. rewrite keys_set. destruct (Dict.mem k d) eqn:Em; [exact H|].
  apply NoDup_app; [exact H|repeat constructor; intros []|].
  intros x Hx [<-|[]]. apply mem_keys in Hx. congruence.
Qed.

Lemma forall_set {V : Type} (P : string * V -> Prop) k v (d : pydict V) :
  Forall P d -> P (k, v) -> Forall P (Dict.set k v d).
Proof.
  intros Hd Hk. induction Hd as [|[k' v'] d Hx Hd IH]; cbn [Dict.set].
  - now constructor.
  - destruct (String.eqb_spec k' k) as [->|Hne]; constructor; auto.
Qed.

Lemma get_in {V : Type} (k : string) (r : V) (d : pydict V) :
  Dict.get k d = Some r -> In (k, r) d.
Proof.
  induction d as [|[k' v'] d IH]; cbn [Dict.get]; [discriminate|].
  destruct (String.eqb_spec k' k) as [->|Hne].
  - intros [= ->]. now left.
  - intros H. right. now apply IH.
Qed.

(** *** What the scan keeps true *)

Lemma initial_invariant : parser_invariant initial.
Proof.
  repeat split; cbn; try constructor. discriminate.
Qed.

Lemma declare_share_invariant plugin id url st :
  parser_invariant st ->
  parser_invariant
    {| storage_shares := declare_share plugin id url (storage_shares st);
       global_settings := global_settings st;
       cur_id := Some id |}.
Proof.
  intros (Hk & Hn & _). unfold parser_invariant, declare_share.
  cbn [storage_shares cur_id]. repeat split.
  - apply forall_set; [exact Hk|].
    unfold well_keyed. cbn. repeat split; discriminate.
  - now apply nodup_set.
  - intros ? [= <-]. apply ValidationFacts.mem_set_same.
Qed.

Lemma add_local_setting_invariant id setting value st :
  parser_invariant st -> cur_id st = Some id ->
  parser_invariant
    {| storage_shares :=
         add_local_setting id setting value (storage_shares st);
       global_settings := global_settings st;
       cur_id := cur_id st |}.
Proof.
  intros (Hk & Hn & Hc) Hid. unfold parser_invariant, add_local_setting.
  cbn [storage_shares cur_id]. repeat split.
  - apply forall_set; [exact Hk|].
    specialize (Hc id Hid). unfold Dict.mem in Hc.
    unfold setdefault_share.
    destruct (Dict.get id (storage_shares st)) as [r|] eqn:Eg;
      [|discriminate].
    apply get_in in Eg.
    rewrite Forall_forall in Hk. exact (Hk _ Eg).
  - now apply nodup_set.
  - intros id' Hid'. apply ValidationFacts.mem_set_mono. now apply Hc.
Qed.

Lemma parse_line_invariant file n raw st st' :
  parser_invariant st -> parse_line file n raw st = Ret st' ->
  parser_invariant st'.
Proof.
  intros Hinv. unfold parse_line.
  destruct (startswith "#" (strip raw)); [now intros [= <-]|].
  destruct (contains "glb.locplugin[]" (strip raw)).
  - destruct (tl (split_ws (strip raw))) as [|plugin [|id [|c [|url [|]]]]];
      try discriminate.
    intros [= <-]. now apply declare_share_invariant.
  - destruct (contains "locplugin" (strip raw)); [|now intros [= <-]].
    destruct (partition2 ":" (strip raw)) as [key value].
    destruct (nth_error (split "." key) 1) as [locid|]; [|discriminate].
    destruct (locid =? "*")%string.
    + intros [= <-]. exact Hinv.
    + destruct (cur_id st) as [id|] eqn:Ec; [|discriminate].
      destruct (id =? locid)%string; [|discriminate].
      intros [= <-]. rewrite <- Ec. now apply add_local_setting_invariant.
Qed.

Lemma parse_lines_invariant file lines : forall n st st',
  parser_invariant st -> parse_lines file n lines st = Ret st' ->
  parser_invariant st'.
Proof.
  induction lines as [|l ls IH]; intros n st st' Hinv; cbn [parse_lines].
  - now intros [= <-].
  - destruct (parse_line file n l st) as [st1|] eqn:E1; [|discriminate].
    cbn [bind]. apply IH. exact (parse_line_invariant _ _ _ _ _ Hinv E1).
Qed.

Lemma parse_files_invariant files : forall st st',
  parser_invariant st -> parse_files files st = Ret st' ->
  parser_invariant st'.
Proof.
  induction files as [|[name lines] fs IH]; intros st st' Hinv;
    cbn [parse_files].
  - now intros [= <-].
  - destruct (parse_lines name 0 lines st) as [st1|] eqn:E1; [|discriminate].
    cbn [bind]. apply IH. exact (parse_lines_invariant _ _ _ _ _ Hinv E1).
Qed.

Lemma filled_keys globals a b :
  Forall2 (filled globals) a b -> Dict.keys b = Dict.keys a.
Proof.
  unfold Dict.keys. induction 1 as [|x y a b (Hk & _) _ IH]; cbn [map].
  - reflexivity.
  - now rewrite Hk, IH.
Qed.

Lemma filled_well_keyed globals a b :
  Forall2 (filled globals) a b -> Forall well_keyed a -> Forall well_keyed b.
Proof.
  induction 1 as [|x y a b (Hk & Hi & Hu & Hp & _) _ IH]; intros Ha.
  - constructor.
  - inversion Ha as [|? ? (Wi & Wu & Wp) Ha']; subst. constructor.
    + unfold well_keyed. rewrite Hk, Hi, Hu, Hp. auto.
    + now apply IH.
Qed.


(** *** One record for each declared share *)

Lemma first_occurrences_snoc {A : Type} (same : A -> A -> bool) l x :
  first_occurrences same (l ++ [x])
  = if existsb (fun y => same y x) l then first_occurrences same l
    else (first_occurrences same l ++ [x])%list.
Proof.
  induction l as [|y l IH]; cbn [app first_occurrences existsb filter];
    [reflexivity|].
  rewrite IH. destruct (existsb (fun z => same z x) l).
  - now rewrite orb_true_r.
  - rewrite orb_false_r, filter_app. cbn [filter].
    destruct (same y x); cbn [negb]; [now rewrite app_nil_r | reflexivity].
Qed.

Lemma in_first_occurrences (k : string) l :
  In k (first_occurrences String.eqb l) <-> In k l.
Proof.
  induction l as [|x l IH]; cbn [first_occurrences In]; [reflexivity|].
  rewrite filter_In, IH. split.
  - intros [H|[H _]]; auto.
  - intros [H|H]; [now left|].
    destruct (String.eqb_spec x k) as [E|E]; [now left|].
    right. split; [assumption|reflexivity].
Qed.

Lemma declaration_of_not_declaration raw :
  is_declaration raw = false -> declaration_of raw = None.
Proof. unfold declaration_of. now intros ->. Qed.

Lemma declared_ids_snoc lines raw :
  declared_ids (lines ++ [raw])
  = (declared_ids lines
     ++ match declaration_of raw with
        | Some (_, id, _) => [id]
        | None => []
        end)%list.
Proof.
  unfold declared_ids. rewrite flat_map_app. cbn [flat_map].
  now rewrite app_nil_r.
Qed.

Lemma last_declaration_snoc id lines raw :
  last_declaration id (lines ++ [raw])
  = match declaration_of raw with
    | Some (plugin, id', url) =>
        if (id' =? id)%string then Some (plugin, url)
        else last_declaration id lines
    | None => last_declaration id lines
    end.
Proof.
  unfold last_declaration. rewrite fold_left_app. cbn [fold_left].
  destruct (declaration_of raw) as [[[plugin id'] url]|]; reflexivity.
Qed.

(** A line that declares nothing and leaves the records as they are. *)
Lemma records_invariant_skip lines raw st st' :
  declaration_of raw = None ->
  storage_shares st' = storage_shares st ->
  parser_invariant st' ->
  records_invariant lines st -> records_invariant (lines ++ [raw]) st'.
Proof.
  intros Hd Hs Hinv (_ & Hk & Hr). unfold records_invariant.
  rewrite Hs, declared_ids_snoc, Hd, app_nil_r.
  split; [exact Hinv|]. split; [exact Hk|].
  intros id r Hg. destruct (Hr id r Hg) as (plugin & url & Hl & Hu & Hp).
  exists plugin, url. cbn [fst snd] in *.
  rewrite last_declaration_snoc, Hd. auto.
Qed.

Lemma mem_declared lines st id :
  records_invariant lines st ->
  Dict.mem id (storage_shares st)
  = existsb (fun y => (y =? id)%string) (declared_ids lines).
Proof.
  intros (_ & Hk & _).
  destruct (existsb (fun y => (y =? id)%string) (declared_ids lines)) eqn:E.
  - apply existsb_exists in E as (y & Hy & E). apply String.eqb_eq in E.
    subst y. apply mem_keys. rewrite Hk. now apply in_first_occurrences.
  - destruct (Dict.mem id (storage_shares st)) eqn:Em; [|reflexivity].
    apply mem_keys in Em. rewrite Hk in Em.
    apply (proj1 (in_first_occurrences _ _)) in Em.
    assert (existsb (fun y => (y =? id)%string) (declared_ids lines) = true);
      [|congruence].
    apply existsb_exists. exists id. split; [assumption|].
    apply String.eqb_refl.
Qed.

Lemma records_invariant_line file n raw lines st st' :
  parse_line file n raw st = Ret st' ->
  records_invariant lines st -> records_invariant (lines ++ [raw]) st'.
Proof.
  intros Hrun Hrec.
  assert (Hinv' : parser_invariant st').
  { destruct Hrec as (Hinv & _).
    exact (parse_line_invariant _ _ _ _ _ Hinv Hrun). }
  revert Hrun. unfold parse_line.
  destruct (startswith "#" (strip raw)) eqn:Ec.
  { intros [= <-]. apply (records_invariant_skip _ _ st); auto.
    apply declaration_of_not_declaration.
    unfold is_declaration, is_comment. now rewrite Ec. }
  destruct (contains "glb.locplugin[]" (strip raw)) eqn:Ed.
  - destruct (tl (split_ws (strip raw))) as [|plugin [|id [|c [|url [|]]]]]
      eqn:Et; try discriminate.
    intros [= <-].
    assert (Hdecl : declaration_of raw = Some (plugin, id, url)).
    { unfold declaration_of, is_declaration, is_comment.
      now rewrite Ec, Ed, Et. }
    pose proof (mem_declared _ _ id Hrec) as Hmem.
    destruct Hrec as (_ & Hk & Hr). unfold records_invariant.
    cbn [storage_shares]. split; [exact Hinv'|]. split.
    + unfold declare_share. rewrite keys_set, Hmem, declared_ids_snoc, Hdecl.
      rewrite first_occurrences_snoc, Hk.
      now destruct (existsb (fun y => (y =? id)%string) (declared_ids lines)).
    + intros id' r. unfold declare_share, from_last_declaration.
      cbn [fst snd]. rewrite last_declaration_snoc, Hdecl.
      destruct (String.eqb_spec id id') as [->|Hne].
      * rewrite DictFacts.get_set_same. intros [= <-].
        exists plugin, url. cbn. auto.
      * rewrite DictFacts.get_set_other by assumption. apply Hr.
  - assert (Hdecl : declaration_of raw = None).
    { apply declaration_of_not_declaration.
      unfold is_declaration. now rewrite Ed, andb_false_r. }
    destruct (contains "locplugin" (strip raw)).
    2:{ intros [= <-]. now apply (records_invariant_skip _ _ st). }
    destruct (partition2 ":" (strip raw)) as [key value].
    destruct (nth_error (split "." key) 1) as [locid|]; [|discriminate].
    destruct (locid =? "*")%string.
    { intros [= <-]. now apply (records_invariant_skip _ _ st). }
    destruct (cur_id st) as [id|] eqn:Ecur; [|discriminate].
    destruct (id =? locid)%string; [|discriminate].
    intros [= <-].
    destruct Hrec as ((_ & _ & Hcur) & Hk & Hr).
    specialize (Hcur id Ecur). unfold records_invariant.
    cbn [storage_shares]. split; [exact Hinv'|]. split.
    + unfold add_local_setting. rewrite keys_set, Hcur, declared_ids_snoc,
        Hdecl, app_nil_r. exact Hk.
    + intros id' r. unfold add_local_setting, from_last_declaration.
      cbn [fst snd]. rewrite last_declaration_snoc, Hdecl.
      destruct (String.eqb_spec id id') as [->|Hne].
      * rewrite DictFacts.get_set_same. intros [= <-]. cbn [rs_url rs_plugin].
        unfold setdefault_share. unfold Dict.mem in Hcur.
        destruct (Dict.get id' (storage_shares st)) as [r|] eqn:Eg;
          [|discriminate].
        exact (Hr id' r Eg).
      * rewrite DictFacts.get_set_other by assumption. apply Hr.
Qed.

Lemma records_invariant_lines file new : forall n lines st st',
  parse_lines file n new st = Ret st' ->
  records_invariant lines st -> records_invariant (lines ++ new) st'.
Proof.
  induction new as [|l ls IH]; intros n lines st st'; cbn [parse_lines].
  - intros [= <-]. now rewrite app_nil_r.
  - destruct (parse_line file n l st) as [st1|] eqn:E1; [|discriminate].
    cbn [bind]. intros Hrun Hrec.
    change (l :: ls) with ([l] ++ ls)%list. rewrite app_assoc.
    apply (IH _ _ _ _ Hrun). exact (records_invariant_line _ _ _ _ _ _ E1 Hrec).
Qed.

Lemma records_invariant_files files : forall lines st st',
  parse_files files st = Ret st' ->
  records_invariant lines st ->
  records_invariant (lines ++ concat (map snd files)) st'.
Proof.
  induction files as [|[name new] fs IH]; intros lines st st';
    cbn [parse_files map snd concat].
  - intros [= <-]. now rewrite app_nil_r.
  - destruct (parse_lines name 0 new st) as [st1|] eqn:E1; [|discriminate].
    cbn [bind]. intros Hrun Hrec. rewrite app_assoc.
    apply (IH _ _ _ Hrun). exact (records_invariant_lines _ _ _ _ _ _ E1 Hrec).
Qed.

Lemma filled_get globals a b :
  Forall2 (filled globals) a b ->
  forall id r', Dict.get id b = Some r' ->
  exists r, Dict.get id a = Some r
            /\ rs_url r' = rs_url r /\ rs_plugin r' = rs_plugin r.
Proof.
  induction 1 as [|[k r] [k' r'] a b (Hk & _ & Hu & Hp & _) _ IH];
    intros id r0; cbn [Dict.get]; [discriminate|].
  cbn [fst snd] in *. subst k'.
  destruct (k =? id)%string.
  - intros [= <-]. now exists r.
  - apply IH.
Qed.

(** The records [parse_conf_files] returns: there is one for each share
    ID that a line of the input declares, and no other; they stand in
    the order in which the IDs are first declared. Every record carries
    the key it is stored under (stripped) as its ['id'], and the URL and
    the plugin of the last line that declares its ID. *)
Theorem parsed_shares_carry_their_id files shares :
  parse_conf_files files = Ret shares ->
  Dict.keys shares
  = first_occurrences String.eqb (declared_ids (concat (map snd files)))
  /\ NoDup (Dict.keys shares)
  /\ (forall id, In id (Dict.keys shares)
                 <-> In id (declared_ids (concat (map snd files))))
  /\ Forall well_keyed shares
  /\ (forall id r, Dict.get id shares = Some r ->
                   from_last_declaration (concat (map snd files)) (id, r)).
Proof.
  unfold parse_conf_files.
  destruct (parse_files files initial) as [st|] eqn:Ep; [|discriminate].
  cbn [bind]. intros Hg.
  assert (Hinit : records_invariant [] initial).
  { split; [exact initial_invariant|]. split; [reflexivity|]. discriminate. }
  destruct (records_invariant_files _ _ _ _ Ep Hinit)
    as ((Hw & Hn & _) & Hk & Hr).
  cbn [app] in Hk, Hr.
  apply apply_global_settings_filled in Hg.
  rewrite (filled_keys _ _ _ Hg). repeat split.
  - exact Hk.
  - exact Hn.
  - rewrite Hk. apply in_first_occurrences.
  - rewrite Hk. apply in_first_occurrences.
  - exact (filled_well_keyed _ _ _ Hg Hw).
  - intros id r' Hget.
    destruct (filled_get _ _ _ Hg id r' Hget) as (r & Hget0 & Hu & Hp).
    destruct (Hr id r Hget0) as (plugin & url & Hl & Hu0 & Hp0).
    exists plugin, url. cbn [fst snd] in *. rewrite Hu, Hp. auto.
Qed.

Lemma parsed_shares_carry_their_id_witness :
  exists shares,
    parse_conf_files
      [("/etc/ugr/conf.d/a.conf",
        ["glb.locplugin[]: /usr/lib64/ugr/libugrlocplugin_dav.so dav1 15 davs://host/data";
         "locplugin.dav1.ssl_check: false";
         "locplugin.*.conn_timeout: 10"]);
       ("/etc/ugr/conf.d/b.conf",
        ["# a second share";
         "glb.locplugin[]: /usr/lib64/ugr/libugrlocplugin_s3.so s3a 15 s3://bucket.host/";
         "locplugin.s3a.conn_timeout: 30";
         "glb.locplugin[]: /usr/lib64/ugr/libugrlocplugin_http.so dav1 15 https://host/data";
         "locplugin.dav1.conn_timeout: 20"])] = Ret shares
    /\ Dict.keys shares = ["dav1"; "s3a"]
    /\ Forall well_keyed shares
    /\ map (fun kr => rs_url (snd kr)) shares
       = [Some "https://host/data"; Some "s3://bucket.host/"].
Proof.
  eexists.
  match goal with
  | |- ?P = Ret ?s /\ _ =>
      assert (H : P = Ret s) by (vm_compute; reflexivity)
  end.
  split; [exact H|].
  destruct (parsed_shares_carry_their_id _ _ H) as (Hk & _ & _ & Hw & _).
  split; [exact Hk|]. split; [exact Hw|]. reflexivity.
Defined.

(** *** The line number of the mismatch error *)

(** A setting line for another ID than the one declared last, in whatever
    file that declaration was: the scan ends with the ID-mismatch error,
    which names the ID declared last, the file of the line, the text of the
    line before its first colon, and as line number the index of the line
    counted from zero. *)
Theorem mismatch_error_counts_lines_from_zero
    before file pre line post rest st0 st1 id locid :
  parse_files before initial = Ret st0 ->
  parse_lines file 0 pre st0 = Ret st1 ->
  cur_id st1 = Some id ->
  is_setting line = true ->
  id_segment line = Some locid ->
  locid <> "*" -> locid <> id ->
  parse_conf_files (before ++ (file, (pre ++ line :: post)%list) :: rest)%list
  = Raise (DSSConfigFileErrorIDMismatch id "SettingIDMismatch"
             (List.length pre) file (hd "" (split ":" (strip line)))).
Proof.
  intros Hb Hpre Hc Hs Hseg Hstar Hne. unfold parse_conf_files.
  rewrite ConfigFacts.parse_files_app, Hb. cbn [bind parse_files].
  now rewrite (ConfigFacts.id_mismatch_is_reported _ _ _ post _ _ _ _
                 Hpre Hc Hs Hseg Hstar Hne).
Qed.

Lemma mismatch_error_counts_lines_from_zero_witness :
  parse_conf_files
    [("/etc/ugr/conf.d/a.conf",
      ["glb.locplugin[]: /usr/lib64/ugr/libugrlocplugin_dav.so dav1 15 davs://host/data"]);
     ("/etc/ugr/conf.d/b.conf",
      ["# settings"; "locplugin.dav2.ssl_check: false"])]
  = Raise (DSSConfigFileErrorIDMismatch "dav1" "SettingIDMismatch" 1
             "/etc/ugr/conf.d/b.conf" "locplugin.dav2.ssl_check").
Proof.
  assert (Hb : exists st0,
             parse_files
               [("/etc/ugr/conf.d/a.conf",
                 ["glb.locplugin[]: /usr/lib64/ugr/libugrlocplugin_dav.so dav1 15 davs://host/data"])]
               initial = Ret st0 /\ cur_id st0 = Some "dav1")
    by (eexists; split; vm_compute; reflexivity).
  destruct Hb as (st0 & Hb & Hc).
  exact (mismatch_error_counts_lines_from_zero
           [("/etc/ugr/conf.d/a.conf",
             ["glb.locplugin[]: /usr/lib64/ugr/libugrlocplugin_dav.so dav1 15 davs://host/data"])]
           "/etc/ugr/conf.d/b.conf" ["# settings"]
           "locplugin.dav2.ssl_check: false" [] [] st0 st0 "dav1" "dav2"
           Hb eq_refl Hc eq_refl eq_refl
           ltac:(discriminate) ltac:(discriminate)).
Defined.

(** *** Lines the scan passes over *)

Lemma parse_line_index file n m raw st st' :
  parse_line file n raw st = Ret st' -> parse_line file m raw st = Ret st'.
Proof.
  unfold parse_line.
  destruct (startswith "#" (strip raw)); [trivial|].
  destruct (contains "glb.locplugin[]" (strip raw)); [trivial|].
  destruct (contains "locplugin" (strip raw)); [|trivial].
  destruct (partition2 ":" (strip raw)) as [key value].
  destruct (nth_error (split "." key) 1) as [locid|]; [|trivial].
  destruct (locid =? "*")%string; [trivial|].
  destruct (cur_id st) as [id|]; [|trivial].
  destruct (id =? locid)%string; [trivial|discriminate].
Qed.

Lemma parse_lines_index file lines : forall n m st st',
  parse_lines file n lines st = Ret st' ->
  parse_lines file m lines st = Ret st'.
Proof.
  induction lines as [|l ls IH]; intros n m st st'; cbn [parse_lines];
    [trivial|].
  destruct (parse_line file n l st) as [st1|] eqn:E1; [|discriminate].
  rewrite (parse_line_index _ _ m _ _ _ E1). cbn [bind]. apply IH.
Qed.

Lemma parse_line_ignored file n c st :
  is_comment c = true \/ is_other c = true ->
  parse_line file n c st = Ret st.
Proof.
  intros [H|H]; [now apply ConfigFacts.parse_line_comment|].
  destruct (is_comment c) eqn:Ec.
  - now apply ConfigFacts.parse_line_comment.
  - now apply ConfigFacts.parse_line_other.
Qed.

(** A comment line, or a line with neither marker, put anywhere into a
    file changes nothing of what [parse_conf_files] returns. *)
Theorem ignored_line_changes_no_result before file pre c post rest shares :
  is_comment c = true \/ is_other c = true ->
  parse_conf_files (before ++ (file, (pre ++ post)%list) :: rest)%list
  = Ret shares
  <-> parse_conf_files
        (before ++ (file, (pre ++ c :: post)%list) :: rest)%list
      = Ret shares.
Proof.
  intros Hc. unfold parse_conf_files.
  rewrite !ConfigFacts.parse_files_app.
  destruct (parse_files before initial) as [st0|]; [|tauto].
  cbn [bind parse_files]. rewrite !ConfigFacts.parse_lines_app.
  destruct (parse_lines file 0 pre st0) as [st1|]; [|tauto].
  cbn [bind parse_lines]. rewrite (parse_line_ignored _ _ _ _ Hc).
  cbn [bind].
  assert (E : forall n m,
             parse_lines file n post st1 = parse_lines file m post st1
             \/ (exists e, parse_lines file n post st1 = Raise e)
                /\ (exists e, parse_lines file m post st1 = Raise e)).
  { intros n m. destruct (parse_lines file n post st1) as [s|e] eqn:En.
    - left. symmetry. exact (parse_lines_index _ _ n m _ _ En).
    - right. split; [now exists e|].
      destruct (parse_lines file m post st1) as [s|e'] eqn:Em;
        [|now exists e'].
      rewrite (parse_lines_index _ _ m n _ _ Em) in En. discriminate. }
  destruct (E (0 + List.length pre)%nat (S (0 + List.length pre)))
    as [->|[[e ->] [e' ->]]]; [tauto|].
  cbn [bind]. split; discriminate.
Qed.

Lemma ignored_line_changes_no_result_witness :
  exists shares,
    parse_conf_files
      [("/etc/ugr/conf.d/a.conf",
        ["glb.locplugin[]: /usr/lib64/ugr/libugrlocplugin_dav.so dav1 15 davs://host/data";
         "# the settings of dav1";
         "locplugin.dav1.ssl_check: false"])] = Ret shares
    /\ parse_conf_files
         [("/etc/ugr/conf.d/a.conf",
           ["glb.locplugin[]: /usr/lib64/ugr/libugrlocplugin_dav.so dav1 15 davs://host/data";
            "locplugin.dav1.ssl_check: false"])] = Ret shares.
Proof.
  eexists.
  match goal with
  | |- _ /\ ?P = Ret ?s =>
      assert (H : P = Ret s) by (vm_compute; reflexivity)
  end.
  split; [|exact H].
  exact (proj1 (ignored_line_changes_no_result []
                  "/etc/ugr/conf.d/a.conf"
                  ["glb.locplugin[]: /usr/lib64/ugr/libugrlocplugin_dav.so dav1 15 davs://host/data"]
                  "# the settings of dav1"
                  ["locplugin.dav1.ssl_check: false"] [] _
                  (or_introl eq_refl)) H).
Defined.

End ParserFacts.

(** ** Content lengths, and shares grouped by URL *)

Module GroupFacts.
Import Share Endpoints Support.

(** *** The sum of the content lengths *)

Lemma sum_contentlength_app els : forall b f ns,
  Forall2 (fun t n => PyStr.parse_int t = Some n) (texts_of els) ns ->
  XmlSum.sum_contentlength els b f
  = Ret (b + fold_right Z.add 0 ns, f + Z.of_nat (List.length ns)).
Proof.
  induction els as [|e els IH]; intros b f ns H;
    cbn [XmlSum.sum_contentlength texts_of flat_map] in *.
  - inversion H. cbn. do 2 f_equal; lia.
  - destruct (Xml.text_of e) as [t|]; cbn [app] in H.
    + inversion H as [|? n ? ns' Ht Hrest]; subst.
      unfold Size.int_of_str. rewrite Ht. cbn [bind].
      rewrite (IH _ _ _ Hrest). cbn [fold_right List.length].
      do 2 f_equal; lia.
    + now apply IH.
Qed.

Lemma sum_contentlength_fails els : forall b f,
  Exists (fun t => PyStr.parse_int t = None) (texts_of els) ->
  XmlSum.sum_contentlength els b f = Raise ValueError.
Proof.
  induction els as [|e els IH]; intros b f H;
    cbn [XmlSum.sum_contentlength texts_of flat_map] in *.
  - inversion H.
  - destruct (Xml.text_of e) as [t|]; cbn [app] in H.
    + unfold Size.int_of_str.
      destruct (PyStr.parse_int t) as [n|] eqn:Et; [|reflexivity].
      cbn [bind]. apply IH. inversion H; subst; [congruence|assumption].
    + now apply IH.
Qed.

(** [add_xml_getcontentlength] returns the sum of the numbers that the
    [getcontentlength] elements hold and the number of these elements;
    elements without a text count for nothing. When one text is no
    integer, it fails with [ValueError] and returns nothing. *)
Theorem add_xml_getcontentlength_sums tree :
  (forall ns,
      Forall2 (fun t n => PyStr.parse_int t = Some n)
        (texts_of (XmlSum.iter "{DAV:}getcontentlength" tree)) ns ->
      XmlSum.add_xml_getcontentlength (Some tree)
      = Ret (fold_right Z.add 0 ns, Z.of_nat (List.length ns)))
  /\ (Exists (fun t => PyStr.parse_int t = None)
        (texts_of (XmlSum.iter "{DAV:}getcontentlength" tree)) ->
      XmlSum.add_xml_getcontentlength (Some tree) = Raise ValueError).
Proof.
  unfold XmlSum.add_xml_getcontentlength. cbn [bind]. split.
  - intros ns H. now rewrite (sum_contentlength_app _ 0 0 ns H).
  - apply sum_contentlength_fails.
Qed.

(** *** Shares grouped by URL *)

Lemma add_share_perm url sh d :
  Permutation (concat (map snd (add_share url sh d)))
    (concat (map snd d) ++ [sh]).
Proof.
  induction d as [|[u l] d IH]; cbn [add_share map snd concat app].
  - reflexivity.
  - destruct (eq u url); cbn [map snd concat].
    + rewrite <- !app_assoc. apply Permutation_app_head.
      apply Permutation_app_comm.
    + rewrite <- app_assoc. now apply Permutation_app_head.
Qed.

Lemma eq_refl_url (u : pyval) : eq u u = true.
Proof.
  destruct u as [s|n|b]; cbn.
  - apply String.eqb_refl.
  - apply Z.eqb_refl.
  - apply Z.eqb_refl.
Qed.

Lemma add_share_same_url url sh d :
  Dict.get "url" (uri sh) = Some url ->
  Forall same_url d -> Forall same_url (add_share url sh d).
Proof.
  intros Hu Hd.
  induction Hd as [|[u l] d (Hne & Hl) Hd IH]; cbn [add_share].
  - constructor; [|constructor]. split; [discriminate|].
    cbn [fst snd]. constructor; [|constructor].
    exists url. split; [exact Hu|apply eq_refl_url].
  - destruct (eq u url) eqn:E.
    + constructor; [|exact Hd]. split; cbn [fst snd] in *.
      * destruct l; discriminate.
      * apply Forall_app. split; [exact Hl|].
        constructor; [|constructor]. now exists url.
    + constructor; [|exact IH]. now split.
Qed.

Lemma add_share_keys url sh d :
  Forall (fun h => exists g, In g ((url, [sh]) :: d) /\ fst h = fst g)
    (add_share url sh d).
Proof.
  induction d as [|[u l] d IH]; cbn [add_share].
  - constructor; [|constructor]. eexists. split; [now left|reflexivity].
  - destruct (eq u url).
    + constructor.
      * exists (u, l). split; [right; now left|reflexivity].
      * apply Forall_forall. intros h Hh. exists h. split; [|reflexivity].
        right. now right.
    + constructor.
      * exists (u, l). split; [right; now left|reflexivity].
      * eapply Forall_impl; [|exact IH].
        intros h (g & [<-|Hg] & Hfst).
        -- eexists. split; [now left|exact Hfst].
        -- exists g. split; [right; now right|exact Hfst].
Qed.

Lemma add_share_distinct url sh d :
  distinct_urls d -> distinct_urls (add_share url sh d).
Proof.
  induction d as [|[u l] d IH]; cbn [add_share distinct_urls].
  - intros _. split; [constructor|exact I].
  - intros [Hu Hd]. destruct (eq u url) eqn:E; cbn [distinct_urls fst].
    + split; assumption.
    + split; [|now apply IH].
      pose proof (add_share_keys url sh d) as Hk.
      rewrite Forall_forall in *. intros h Hh.
      destruct (Hk h Hh) as (g & [<-|Hg] & ->); cbn [fst].
      * exact E.
      * now apply Hu.
Qed.

Lemma urls_dict_groups shares mask : forall d d',
  urls_dict shares mask d = Ret d' ->
  Forall same_url d -> distinct_urls d ->
  Forall same_url d' /\ distinct_urls d'
  /\ Permutation (concat (map snd d'))
       (concat (map snd d)
        ++ filter (fun sh => selected (id sh) mask) shares).
Proof.
  induction shares as [|sh rest IH]; intros d d'; cbn [urls_dict filter].
  - intros [= <-] Hs Hd. rewrite app_nil_r. auto.
  - destruct (selected (id sh) mask).
    + unfold Dict.subscript.
      destruct (Dict.get "url" (uri sh)) as [url|] eqn:Eu; [|discriminate].
      cbn [bind]. intros H Hs Hd.
      destruct (IH _ _ H (add_share_same_url _ _ _ Eu Hs)
                  (add_share_distinct url sh d Hd)) as (Hs' & Hd' & Hp).
      repeat split; try assumption.
      rewrite Hp, (add_share_perm url sh d), <- app_assoc. reflexivity.
    + apply IH.
Qed.

(** *** The order of the groups and of their shares *)

Lemma eq_url_sym (a b : pyval) : eq a b = eq b a.
Proof.
  destruct a as [s|n|x], b as [t|m|y]; cbn; try reflexivity;
    first [apply String.eqb_sym | apply Z.eqb_sym].
Qed.

Lemma eq_url_trans (a b c : pyval) :
  eq a b = true -> eq b c = true -> eq a c = true.
Proof.
  destruct a as [s|n|x], b as [t|m|y], c as [r|k|z]; cbn;
    try discriminate;
    rewrite ?String.eqb_eq, ?Z.eqb_eq; congruence.
Qed.

Lemma shares_url_refl sh u :
  Dict.get "url" (uri sh) = Some u -> shares_url sh sh = true.
Proof. unfold shares_url. intros ->. apply eq_refl_url. Qed.

Lemma shares_url_trans a b c :
  shares_url a b = true -> shares_url b c = true -> shares_url a c = true.
Proof.
  unfold shares_url.
  destruct (Dict.get "url" (uri a)); [|discriminate].
  destruct (Dict.get "url" (uri b)); [|discriminate].
  destruct (Dict.get "url" (uri c)); [|discriminate].
  apply eq_url_trans.
Qed.

Lemma first_occurrences_incl {A : Type} (same : A -> A -> bool) l x :
  In x (first_occurrences same l) -> In x l.
Proof.
  revert x. induction l as [|y l IH]; intros x; cbn [first_occurrences In];
    [auto|].
  intros [H|H]; [now left|]. apply filter_In in H as [H _]. right. now apply IH.
Qed.

(** Every share with a URL has its URL in common with one of the first
    occurrences. *)
Lemma first_occurrences_cover l :
  Forall (fun s => shares_url s s = true) l ->
  forall y, In y l ->
  exists x, In x (first_occurrences shares_url l) /\ shares_url x y = true.
Proof.
  induction 1 as [|x l Hx Hl IH]; intros y; cbn [In first_occurrences];
    [contradiction|].
  intros [<-|Hy].
  - exists x. split; [now left|assumption].
  - destruct (IH y Hy) as (z & Hz & Hzy).
    destruct (shares_url x z) eqn:Exz.
    + exists x. split; [now left|]. exact (shares_url_trans _ _ _ Exz Hzy).
    + exists z. split; [|assumption]. right. apply filter_In.
      split; [assumption|]. now rewrite Exz.
Qed.

Lemma forall2_in_l {A B : Type} (R : A -> B -> Prop) l1 l2 x :
  Forall2 R l1 l2 -> In x l1 -> exists y, In y l2 /\ R x y.
Proof.
  induction 1 as [|a b l1 l2 Hab _ IH]; cbn [In]; [contradiction|].
  intros [<-|Hx].
  - exists b. auto.
  - destruct (IH Hx) as (y & Hy & Hr). exists y. auto.
Qed.

Lemma forall2_in_r {A B : Type} (R : A -> B -> Prop) l1 l2 y :
  Forall2 R l1 l2 -> In y l2 -> exists x, In x l1 /\ R x y.
Proof.
  induction 1 as [|a b l1 l2 Hab _ IH]; cbn [In]; [contradiction|].
  intros [<-|Hy].
  - exists a. auto.
  - destruct (IH Hy) as (x & Hx & Hr). exists x. auto.
Qed.

(** With distinct URLs in the dict, [add_share] extends the one group
    that has the URL, or appends a new group. *)
Lemma add_share_map url sh d :
  distinct_urls d ->
  add_share url sh d
  = (map (fun g => if eq (fst g) url then (fst g, (snd g ++ [sh])%list) else g) d
     ++ (if existsb (fun g => eq (fst g) url) d then [] else [(url, [sh])]))%list.
Proof.
  induction d as [|[u l] d IH]; cbn [add_share map existsb fst snd app
                                      distinct_urls]; [reflexivity|].
  intros [Hu Hd]. destruct (eq u url) eqn:E; cbn [orb].
  - rewrite app_nil_r. f_equal. symmetry.
    rewrite <- (map_id d) at 2. apply map_ext_in. intros g Hg.
    rewrite Forall_forall in Hu. specialize (Hu g Hg). cbn [fst] in Hu.
    destruct (eq (fst g) url) eqn:Eg; [|reflexivity].
    rewrite eq_url_sym in Eg.
    now rewrite (eq_url_trans _ _ _ E Eg) in Hu.
  - now rewrite (IH Hd).
Qed.

Lemma group_of_snoc seen sh url g leader :
  Dict.get "url" (uri sh) = Some url ->
  group_of seen g leader ->
  group_of (seen ++ [sh])
    (if eq (fst g) url then (fst g, (snd g ++ [sh])%list) else g) leader.
Proof.
  intros Hu [Hl Hs]. unfold group_of. rewrite filter_app. cbn [filter].
  assert (E : shares_url leader sh = eq (fst g) url)
    by (unfold shares_url; now rewrite Hl, Hu).
  rewrite E. destruct (eq (fst g) url); cbn [fst snd].
  - now rewrite Hs.
  - now rewrite app_nil_r.
Qed.

(** What the first loop keeps true, [seen] being the selected shares it
    has looked at: the groups stand in the order in which their URLs
    first occur among [seen], and each holds the shares of [seen] with
    its URL, in order. *)
Lemma add_share_grouped seen sh url d :
  Dict.get "url" (uri sh) = Some url ->
  Forall (fun s => shares_url s s = true) seen ->
  distinct_urls d ->
  Forall2 (group_of seen) d (first_occurrences shares_url seen) ->
  Forall2 (group_of (seen ++ [sh])) (add_share url sh d)
    (first_occurrences shares_url (seen ++ [sh])).
Proof.
  intros Hu Hseen Hd Hg.
  assert (Hmatch : existsb (fun g => eq (fst g) url) d
                   = existsb (fun y => shares_url y sh) seen).
  { destruct (existsb (fun g => eq (fst g) url) d) eqn:E; symmetry.
    - apply existsb_exists in E as (g & Hin & E).
      destruct (forall2_in_l _ _ _ _ Hg Hin) as (leader & Hlin & Hl & _).
      apply existsb_exists. exists leader.
      split; [exact (first_occurrences_incl _ _ _ Hlin)|].
      unfold shares_url. now rewrite Hl, Hu.
    - destruct (existsb (fun y => shares_url y sh) seen) eqn:E'; [|reflexivity].
      apply existsb_exists in E' as (y & Hy & Ey).
      destruct (first_occurrences_cover _ Hseen y Hy) as (x & Hx & Exy).
      destruct (forall2_in_r _ _ _ _ Hg Hx) as (g & Hin & Hl & _).
      assert (existsb (fun g => eq (fst g) url) d = true); [|congruence].
      apply existsb_exists. exists g. split; [assumption|].
      pose proof (shares_url_trans _ _ _ Exy Ey) as Exs.
      unfold shares_url in Exs. now rewrite Hl, Hu in Exs. }
  rewrite (add_share_map _ _ _ Hd), ParserFacts.first_occurrences_snoc, Hmatch.
  assert (Hold : Forall2 (group_of (seen ++ [sh]))
                   (map (fun g => if eq (fst g) url
                                  then (fst g, (snd g ++ [sh])%list) else g) d)
                   (first_occurrences shares_url seen)).
  { clear Hmatch. induction Hg as [|g leader d L Hgl _ IH]; cbn [map];
      constructor.
    - exact (group_of_snoc _ _ _ _ _ Hu Hgl).
    - apply IH. now destruct Hd. }
  destruct (existsb (fun y => shares_url y sh) seen) eqn:E.
  - now rewrite app_nil_r.
  - apply Forall2_app; [exact Hold|]. constructor; [|constructor].
    split; [exact Hu|]. cbn [snd]. rewrite filter_app. cbn [filter].
    rewrite (shares_url_refl _ _ Hu).
    assert (Hnone : filter (shares_url sh) seen = []).
    { rewrite (filter_ext_in (shares_url sh) (fun _ => false));
        [apply filter_false|].
      intros y Hy. destruct (shares_url sh y) eqn:Esy; [|reflexivity].
      assert (existsb (fun y => shares_url y sh) seen = true); [|congruence].
      apply existsb_exists. exists y. split; [assumption|].
      unfold shares_url in *. rewrite Hu in *.
      destruct (Dict.get "url" (uri y)); [|discriminate].
      now rewrite eq_url_sym. }
    now rewrite Hnone.
Qed.

Lemma urls_dict_grouped shares mask : forall seen d d',
  urls_dict shares mask d = Ret d' ->
  Forall (fun s => shares_url s s = true) seen ->
  distinct_urls d ->
  Forall2 (group_of seen) d (first_occurrences shares_url seen) ->
  Forall2
    (group_of (seen ++ filter (fun sh => selected (id sh) mask) shares))
    d'
    (first_occurrences shares_url
       (seen ++ filter (fun sh => selected (id sh) mask) shares)).
Proof.
  induction shares as [|sh rest IH]; intros seen d d';
    cbn [urls_dict filter].
  - intros [= <-] _ _ Hg. now rewrite app_nil_r.
  - destruct (selected (id sh) mask); [|apply IH].
    unfold Dict.subscript.
    destruct (Dict.get "url" (uri sh)) as [url|] eqn:Eu; [|discriminate].
    cbn [bind]. intros H Hseen Hd Hg.
    change (sh :: filter (fun sh0 => selected (id sh0) mask) rest)
      with ([sh] ++ filter (fun sh0 => selected (id sh0) mask) rest)%list.
    rewrite app_assoc. apply (IH _ _ _ H).
    + apply Forall_app. split; [exact Hseen|].
      constructor; [|constructor]. exact (shares_url_refl _ _ Eu).
    + now apply add_share_distinct.
    + now apply add_share_grouped.
Qed.

(** [get_storage_endpoints], when it returns, has made one endpoint for
    each distinct URL among the shares the mask selects. The endpoints
    stand in the order in which their URLs first occur among the
    selected shares; each is made from the URL as its first share has
    it, and is given the selected shares with this URL one by one, in
    the order of the input. So every selected share is in exactly one
    group, no group is empty, and no two groups have equal URLs. *)
Theorem get_storage_endpoints_groups_by_url
    (endpoint : Type) (new_endpoint : pyval -> endpoint)
    (add_storage_share : storage_share -> endpoint -> endpoint)
    shares mask endpoints :
  get_storage_endpoints endpoint new_endpoint add_storage_share shares mask
  = Ret endpoints ->
  exists groups,
    endpoints
    = map (fun g => fold_left (fun e sh => add_storage_share sh e) (snd g)
                      (new_endpoint (fst g))) groups
    /\ Forall2 (group_of (filter (fun sh => selected (id sh) mask) shares))
         groups
         (first_occurrences shares_url
            (filter (fun sh => selected (id sh) mask) shares))
    /\ Forall same_url groups
    /\ distinct_urls groups
    /\ Permutation (concat (map snd groups))
         (filter (fun sh => selected (id sh) mask) shares).
Proof.
  unfold get_storage_endpoints.
  destruct (urls_dict shares mask []) as [d|] eqn:E; [|discriminate].
  cbn [bind]. intros [= <-]. exists d. split; [reflexivity|]. split.
  - exact (urls_dict_grouped _ _ [] _ _ E (Forall_nil _) I (Forall2_nil _)).
  - exact (urls_dict_groups _ _ _ _ E (Forall_nil _) I).
Qed.

(** A share the mask leaves out is never looked at: with it or without it,
    [get_storage_endpoints] gives the same result, be it a list or an
    exception, and this even when the share has no URL. *)
Theorem get_storage_endpoints_skips_unselected
    (endpoint : Type) (new_endpoint : pyval -> endpoint)
    (add_storage_share : storage_share -> endpoint -> endpoint)
    pre sh post mask :
  selected (id sh) mask = false ->
  get_storage_endpoints endpoint new_endpoint add_storage_share
    (pre ++ sh :: post) mask
  = get_storage_endpoints endpoint new_endpoint add_storage_share
      (pre ++ post) mask.
Proof.
  intros Hsel. unfold get_storage_endpoints. f_equal.
  generalize (@nil (pyval * list storage_share)) as d.
  induction pre as [|p pre IH]; intros d; cbn [app urls_dict].
  - now rewrite Hsel.
  - destruct (selected (id p) mask); [|apply IH].
    destruct (Dict.subscript "url" (uri p)); [|reflexivity].
    cbn [bind]. apply IH.
Qed.


Lemma add_xml_getcontentlength_sums_witness :
  XmlSum.add_xml_getcontentlength
    (Some (Xml.Element "{DAV:}multistatus" None
             [Xml.Element "{DAV:}response" None
                [Xml.Element "{DAV:}getcontentlength" (Some "100") []];
              Xml.Element "{DAV:}response" None
                [Xml.Element "{DAV:}getcontentlength" None []];
              Xml.Element "{DAV:}response" None
                [Xml.Element "{DAV:}getcontentlength" (Some "200") []]]))
  = Ret (300, 2)
  /\ XmlSum.add_xml_getcontentlength
       (Some (Xml.Element "{DAV:}multistatus" None
                [Xml.Element "{DAV:}getcontentlength" (Some "1.5") []]))
     = Raise ValueError.
Proof.
  split.
  - apply (proj1 (add_xml_getcontentlength_sums _) [100; 200]).
    repeat constructor.
  - apply (proj2 (add_xml_getcontentlength_sums _)).
    constructor. reflexivity.
Defined.

Lemma get_storage_endpoints_groups_by_url_witness :
  exists endpoints,
    get_storage_endpoints (pyval * list storage_share)
      (fun url => (url, []))
      (fun sh e => (fst e, (snd e ++ [sh])%list))
      [Examples.dav_share (VStr "api"); Examples.azure_share;
       Examples.dav_share (VInt 5000)] (VBool true)
    = Ret endpoints
    /\ endpoints
       = [(VStr "davs://host/data",
           [Examples.dav_share (VStr "api"); Examples.dav_share (VInt 5000)]);
          (VStr "https://account.blob.core.windows.net/container",
           [Examples.azure_share])].
Proof.
  eexists.
  match goal with
  | |- ?G = Ret ?g /\ _ =>
      assert (H : G = Ret g) by (vm_compute; reflexivity)
  end.
  split; [exact H|].
  destruct (get_storage_endpoints_groups_by_url _ _ _ _ _ _ H)
    as (groups & -> & Hg & _).
  cbn [filter selected Share.id Examples.dav_share Examples.azure_share
       Endpoints.eq orb] in Hg.
  cbv in Hg.
  inversion Hg as [|g1 l1 gs ls [Hu1 Hs1] Hrest]; subst.
  inversion Hrest as [|g2 l2 gs' ls' [Hu2 Hs2] Hnil]; subst.
  inversion Hnil; subst.
  destruct g1 as [u1 s1], g2 as [u2 s2]. cbn [fst snd] in *.
  injection Hu1 as <-. injection Hu2 as <-. subst s1 s2.
  reflexivity.
Defined.

Lemma get_storage_endpoints_skips_unselected_witness :
  get_storage_endpoints (pyval * list storage_share)
    (fun url => (url, []))
    (fun sh e => (fst e, (snd e ++ [sh])%list))
    [Examples.dav_share (VStr "api"); Examples.azure_share] (VStr "dav1")
  = get_storage_endpoints (pyval * list storage_share)
      (fun url => (url, []))
      (fun sh e => (fst e, (snd e ++ [sh])%list))
      [Examples.dav_share (VStr "api")] (VStr "dav1").
Proof.
  exact (get_storage_endpoints_skips_unselected _ _ _
           [Examples.dav_share (VStr "api")] Examples.azure_share []
           (VStr "dav1") eq_refl).
Defined.

End GroupFacts.

(** ** The configuration files of [ugrstoragestats.py] *)

Module GetConfigFacts.
Import PyStr GetConfig Support.

Lemma get_config_lines_app pre : forall post st,
  parse_lines (pre ++ post) st
  = (st' <- parse_lines pre st ;; parse_lines post st').
Proof.
  induction pre as [|l ls IH]; intros post st; cbn [parse_lines app].
  - reflexivity.
  - destruct (parse_line l st); cbn [bind]; [apply IH|reflexivity].
Qed.

Lemma get_config_files_app before : forall rest st,
  parse_files (before ++ rest) st
  = (st' <- parse_files before st ;; parse_files rest st').
Proof.
  induction before as [|f fs IH]; intros rest st; cbn [parse_files app].
  - reflexivity.
  - destruct (parse_lines f st); cbn [bind]; [apply IH|reflexivity].
Qed.

Lemma get_config_line_option raw st :
  is_option_line raw = true ->
  parse_line raw st =
  match cur_id st with
  | None => Raise (UnboundLocalError "_id")
  | Some _id =>
      if contains _id (option_key raw) then
        let e := setdefault_entry _id (endpoints st) in
        Ret {| endpoints :=
                 Dict.set _id
                   {| e_id := e_id e; e_url := e_url e;
                      e_plugin := e_plugin e;
                      e_plugin_options :=
                        Some (Dict.set
                                (last_item (split (_id ++ ".")
                                              (option_key raw)))
                                (strip (snd (partition2 ":" (strip raw))))
                                (match e_plugin_options e with
                                 | Some o => o
                                 | None => []
                                 end)) |}
                   (endpoints st);
               cur_id := cur_id st |}
      else Raise SystemExit
  end.
Proof.
  unfold is_option_line, parse_line, option_key. intros H.
  apply andb_true_iff in H as [H H3]. apply andb_true_iff in H as [H1 H2].
  rewrite H1. apply negb_true_iff in H2. rewrite H2, H3.
  destruct (partition2 ":" (strip raw)) as [key val]. cbn [fst snd].
  destruct (cur_id st); reflexivity.
Qed.

(** After a declaration, an option line whose key does not contain the ID
    declared last ends [get_config] with [SystemExit]: the mismatch error
    is raised, caught and answered with [sys.exit(1)] on the spot. *)
Theorem get_config_exits_on_mismatch before pre line post rest st0 st1 id :
  parse_files before {| endpoints := []; cur_id := None |} = Ret st0 ->
  parse_lines pre st0 = Ret st1 ->
  cur_id st1 = Some id ->
  is_option_line line = true ->
  contains id (option_key line) = false ->
  get_config (before ++ (pre ++ line :: post)%list :: rest)%list
  = Raise SystemExit.
Proof.
  intros Hb Hpre Hc Hopt Hk.
  unfold get_config. rewrite get_config_files_app, Hb. cbn [bind parse_files].
  rewrite get_config_lines_app, Hpre. cbn [bind parse_lines].
  now rewrite (get_config_line_option _ _ Hopt), Hc, Hk.
Qed.

Lemma get_config_exits_on_mismatch_witness :
  get_config
    [["glb.locplugin[]: /usr/lib64/ugr/libugrlocplugin_dav.so dav1 15 davs://host/data";
      "locplugin.dav1.ssl_check: false"];
     ["# another file"; "locplugin.s3a.s3.region: us-east-1"]]
  = Raise SystemExit.
Proof.
  assert (Hb : exists st0,
             parse_files
               [["glb.locplugin[]: /usr/lib64/ugr/libugrlocplugin_dav.so dav1 15 davs://host/data";
                 "locplugin.dav1.ssl_check: false"]]
               {| endpoints := []; cur_id := None |} = Ret st0
             /\ cur_id st0 = Some "dav1")
    by (eexists; split; vm_compute; reflexivity).
  destruct Hb as (st0 & Hb & Hc).
  exact (get_config_exits_on_mismatch
           [["glb.locplugin[]: /usr/lib64/ugr/libugrlocplugin_dav.so dav1 15 davs://host/data";
             "locplugin.dav1.ssl_check: false"]]
           ["# another file"] "locplugin.s3a.s3.region: us-east-1" [] []
           st0 st0 "dav1" Hb eq_refl Hc eq_refl eq_refl).
Defined.

(** An option line read before any declaration line, in whatever file,
    ends [get_config] with the error of the unassigned local [_id], which
    the handler for configuration errors does not catch. *)
Theorem get_config_option_before_declaration
    before pre line post rest st0 st1 :
  parse_files before {| endpoints := []; cur_id := None |} = Ret st0 ->
  parse_lines pre st0 = Ret st1 ->
  cur_id st1 = None ->
  is_option_line line = true ->
  get_config (before ++ (pre ++ line :: post)%list :: rest)%list
  = Raise (UnboundLocalError "_id").
Proof.
  intros Hb Hpre Hc Hopt.
  unfold get_config. rewrite get_config_files_app, Hb. cbn [bind parse_files].
  rewrite get_config_lines_app, Hpre. cbn [bind parse_lines].
  now rewrite (get_config_line_option _ _ Hopt), Hc.
Qed.

Lemma get_config_option_before_declaration_witness :
  get_config
    [["# endpoints"; "locplugin.dav1.ssl_check: false";
      "glb.locplugin[]: /usr/lib64/ugr/libugrlocplugin_dav.so dav1 15 davs://host/data"]]
  = Raise (UnboundLocalError "_id").
Proof.
  exact (get_config_option_before_declaration []
           ["# endpoints"] "locplugin.dav1.ssl_check: false"
           ["glb.locplugin[]: /usr/lib64/ugr/libugrlocplugin_dav.so dav1 15 davs://host/data"]
           [] _ _ eq_refl eq_refl eq_refl eq_refl).
Defined.

(** *** What [get_config] returns *)

Lemma get_config_initial_invariant :
  config_invariant {| endpoints := []; cur_id := None |}.
Proof. repeat split; cbn; try constructor. discriminate. Qed.

Lemma get_config_line_invariant raw st st' :
  config_invariant st -> parse_line raw st = Ret st' -> config_invariant st'.
Proof.
  intros (Hk & Hn & Hc). unfold parse_line.
  destruct (startswith "#" (strip raw)); cbn [negb]; [now intros [= <-]|].
  destruct (contains "glb.locplugin[]" (strip raw)).
  - destruct (tl (split " " (strip raw))) as [|p [|i [|c [|u [|]]]]];
      try discriminate.
    intros [= <-]. unfold config_invariant. cbn [endpoints cur_id].
    repeat split.
    + apply ParserFacts.forall_set; [exact Hk|].
      unfold complete_entry, conf_of. cbn. split; [reflexivity|discriminate].
    + now apply ParserFacts.nodup_set.
    + intros ? [= <-]. apply ValidationFacts.mem_set_same.
  - destruct (contains "locplugin" (strip raw)); [|now intros [= <-]].
    destruct (partition2 ":" (strip raw)) as [key val].
    destruct (cur_id st) as [id|] eqn:Ec; [|discriminate].
    destruct (contains id key); [|discriminate].
    intros [= <-]. unfold config_invariant. cbn [endpoints cur_id].
    repeat split.
    + apply ParserFacts.forall_set; [exact Hk|].
      specialize (Hc id eq_refl). unfold Dict.mem in Hc.
      unfold setdefault_entry.
      destruct (Dict.get id (endpoints st)) as [e|] eqn:Eg; [|discriminate].
      apply ParserFacts.get_in in Eg. rewrite Forall_forall in Hk.
      destruct (Hk _ Eg) as [Hid Hconf]. cbn [fst snd] in *.
      unfold complete_entry, conf_of in *. cbn [fst snd e_id e_url e_plugin].
      split; [exact Hid|].
      destruct (e_id e), (e_url e), (e_plugin e); try contradiction;
        discriminate.
    + now apply ParserFacts.nodup_set.
    + intros id' [= <-]. apply ValidationFacts.mem_set_mono. now apply Hc.
Qed.

Lemma get_config_lines_invariant lines : forall st st',
  config_invariant st -> parse_lines lines st = Ret st' ->
  config_invariant st'.
Proof.
  induction lines as [|l ls IH]; intros st st' Hinv; cbn [parse_lines].
  - now intros [= <-].
  - destruct (parse_line l st) as [st1|] eqn:E1; [|discriminate].
    cbn [bind]. apply IH. exact (get_config_line_invariant _ _ _ Hinv E1).
Qed.

Lemma get_config_files_invariant files : forall st st',
  config_invariant st -> parse_files files st = Ret st' ->
  config_invariant st'.
Proof.
  induction files as [|f fs IH]; intros st st' Hinv; cbn [parse_files].
  - now intros [= <-].
  - destruct (parse_lines f st) as [st1|] eqn:E1; [|discriminate].
    cbn [bind]. apply IH. exact (get_config_lines_invariant _ _ _ Hinv E1).
Qed.

(** Whatever [get_config] returns, every entry has the keys ['id'],
    ['url'] and ['plugin'], so that [get_endpoints] can read it, its
    ['id'] is the key it is stored under (stripped), and no key occurs
    twice. Only ['plugin_options'] can be missing. *)
Theorem get_config_entries_are_complete files d :
  get_config files = Ret d ->
  Forall complete_entry d /\ NoDup (Dict.keys d).
Proof.
  unfold get_config.
  destruct (parse_files files _) as [st|] eqn:E; [|discriminate].
  cbn [bind]. intros [= <-].
  destruct (get_config_files_invariant _ _ _ get_config_initial_invariant E) as (H1 & H2 & _).
  now split.
Qed.

Lemma get_config_entries_are_complete_witness :
  exists d,
    get_config
      [["glb.locplugin[]: /usr/lib64/ugr/libugrlocplugin_dav.so dav1 15 davs://host/data";
        "locplugin.dav1.ssl_check: false";
        "glb.locplugin[]: /usr/lib64/ugr/libugrlocplugin_s3.so s3a 15 s3://bucket.host/"]]
    = Ret d
    /\ Forall complete_entry d
    /\ map (fun kv => option_map Ugr.ep_plugin_options (conf_of (snd kv))) d
       = [Some (Some [("ssl_check", "false")]); Some None].
Proof.
  eexists.
  match goal with
  | |- ?G = Ret ?g /\ _ =>
      assert (H : G = Ret g) by (vm_compute; reflexivity)
  end.
  split; [exact H|]. split.
  - exact (proj1 (get_config_entries_are_complete _ _ H)).
  - reflexivity.
Defined.

End GetConfigFacts.

(** ** The bucket of an S3 endpoint *)

Module BucketFacts.
Import PyStr Ugr Support.

(** [partition2] cuts at the first separator. *)
Lemma partition2_spec (c : ascii) (s : string) :
  let '(a, b) := partition2 c s in
  contains (String c "") a = false
  /\ (s = a ++ String c b \/ (a = s /\ b = "")).
Proof.
  induction s as [|x s IH]; cbn [partition2].
  - split; [reflexivity|]. right. auto.
  - destruct (Ascii.eqb_spec x c) as [->|Hne].
    + split; [reflexivity|]. left. reflexivity.
    + destruct (partition2 c s) as [a b]. destruct IH as [Ha Hs].
      split.
      * cbn [contains prefix]. rewrite Ha.
        destruct (ascii_dec c x) as [->|]; [contradiction|].
        now destruct a.
      * destruct Hs as [->|[-> ->]]; [left|right]; auto.
Qed.

(** The end of [S3StorageStats.__init__] for an endpoint that does not
    use the alternate form of URL: the bucket is the text of the network
    location before its first dot and the domain is the text after it, so
    that bucket, dot and domain give the network location back; without a
    dot the bucket is the whole location and the domain is empty. Nothing
    else of the object changes. *)
Theorem bucket_and_domain_split_the_netloc self a :
  Dict.get "s3.alternate" (plugin_options self) = Some (VStr a) ->
  is_yes (lower a) = false ->
  exists b d,
    set_bucket self
    = (set_uri {| hostname := hostname (uri self);
                  netloc := netloc (uri self); path := path (uri self);
                  port := port (uri self); scheme := scheme (uri self);
                  url := url (uri self);
                  bucket := Some b; domain := Some d |} self, Ret tt)
    /\ contains "." b = false
    /\ (netloc (uri self) = b ++ "." ++ d
        \/ (b = netloc (uri self) /\ d = "")).
Proof.
  intros Ha Hyes.
  unfold set_bucket, option_lower, option_, Act.bind, Act.read, Act.lift,
    Act.modify, Dict.subscript.
  rewrite Ha. cbn [Py.lower]. rewrite Hyes.
  pose proof (partition2_spec "." (netloc (uri self))) as Hp.
  destruct (partition2 "." (netloc (uri self))) as [b d].
  exists b, d. split; [reflexivity|]. exact Hp.
Qed.

Lemma bucket_and_domain_split_the_netloc_witness :
  exists self b d,
    (self0 <- init Examples.urlsplit 0 S3StorageStats
                (Examples.s3_conf "b1" "5000") ;;
     construct (catch_config_file_error validate_plugin_options)
       (extend "S3" s3_validators self0)) = Ret self
    /\ bucket (uri (fst (set_bucket self))) = Some b
    /\ domain (uri (fst (set_bucket self))) = Some d
    /\ contains "." b = false
    /\ (netloc (uri self) = b ++ "." ++ d
        \/ (b = netloc (uri self) /\ d = "")).
Proof.
  eexists.
  match goal with
  | |- exists _ _, ?I = Ret ?s /\ _ =>
      assert (Hinit : I = Ret s) by (vm_compute; reflexivity)
  end.
  match type of Hinit with
  | _ = Ret ?s =>
      destruct (bucket_and_domain_split_the_netloc s "false"
                  eq_refl eq_refl) as (b & d & Hrun & Hb & Hsplit)
  end.
  exists b, d. split; [exact Hinit|]. rewrite Hrun.
  cbn [fst set_uri uri bucket domain]. auto.
Defined.

End BucketFacts.

(** ** Replies that cannot be used *)

Module ReplyFacts.
Import Share Xml Support.

Lemma process_result r sh :
  snd (process_rfc4331_response r sh) =
  match fromstring r with
  | Raise e => Raise e
  | Ret tree =>
      match find_text quota_available_bytes tree with
      | Raise e => Raise e
      | Ret None => Raise (ErrorDAVQuotaMethod "UnsupportedMethod")
      | Ret (Some _) =>
          match reported quota_used_bytes tree with
          | Raise e => Raise e
          | Ret used =>
              match reported quota_available_bytes tree with
              | Raise e => Raise e
              | Ret free =>
                  match Dict.get "storagestats.quota" (plugin_settings sh) with
                  | None => Raise (KeyError "storagestats.quota")
                  | Some q =>
                      if Py.eq_str q "api" then
                        if free =? 0
                        then Raise (DAVZeroQuotaWarning (content_str r))
                        else Ret tt
                      else match Py.int q with
                           | Ret _ => Ret tt
                           | Raise e => Raise e
                           end
                  end
              end
          end
      end
  end.
Proof.
  destruct (fromstring r) as [tree|e] eqn:Ht.
  - destruct (find_text quota_available_bytes tree) as [[txt|]|e] eqn:Ea.
    + destruct (reported quota_used_bytes tree) as [used|e] eqn:Hu.
      * destruct (reported quota_available_bytes tree) as [free|e] eqn:Hf.
        -- rewrite (CollectFacts.process_outcome _ _ _ _ _ Ht Hu Hf).
           cbv zeta.
           destruct (Dict.get "storagestats.quota" (plugin_settings sh))
             as [q|]; [|reflexivity].
           destruct (Py.eq_str q "api").
           ++ now destruct (free =? 0).
           ++ now destruct (Py.int q).
        -- unfold process_rfc4331_response, Act.bind, Act.lift.
           rewrite Ht, Ea.
           fold (reported quota_used_bytes tree). rewrite Hu.
           cbn [Act.modify bind].
           unfold reported in Hf. rewrite Ea in Hf. cbn [bind] in Hf.
           now rewrite Hf.
      * unfold process_rfc4331_response, Act.bind, Act.lift.
        rewrite Ht, Ea.
        fold (reported quota_used_bytes tree). now rewrite Hu.
    + unfold process_rfc4331_response, Act.bind, Act.lift.
      now rewrite Ht, Ea.
    + unfold process_rfc4331_response, Act.bind, Act.lift.
      now rewrite Ht, Ea.
  - unfold process_rfc4331_response, Act.bind, Act.lift. now rewrite Ht.
Qed.

(** [process_rfc4331_response] raises the error for the unsupported
    method exactly when the reply has a [quota-available-bytes] element and
    the first such element has no text; the share is then as it was. *)
Theorem unsupported_method_iff_empty_element r sh :
  process_rfc4331_response r sh
  = (sh, Raise (ErrorDAVQuotaMethod "UnsupportedMethod"))
  <-> exists tree e,
        fromstring r = Ret tree
        /\ find quota_available_bytes tree = Some e
        /\ text_of e = None.
Proof.
  split.
  - intros Hrun.
    assert (H : snd (process_rfc4331_response r sh)
                = Raise (ErrorDAVQuotaMethod "UnsupportedMethod"))
      by now rewrite Hrun.
    clear Hrun. rewrite process_result in H.
    destruct (fromstring r) as [tree|x] eqn:Ht.
    2:{ unfold fromstring in Ht. destruct (content r); [discriminate|].
        injection Ht as <-. discriminate. }
    unfold find_text in H.
    destruct (find quota_available_bytes tree) as [e|] eqn:Ef;
      [|discriminate].
    destruct (text_of e) as [txt|] eqn:Et.
    2:{ now exists tree, e. }
    exfalso.
    destruct (reported quota_used_bytes tree) as [used|x] eqn:Hu.
    2:{ destruct (CollectFacts.reported_raises _ _ _ Hu) as [->|[->| ->]];
        discriminate. }
    destruct (reported quota_available_bytes tree) as [free|x] eqn:Hf.
    2:{ destruct (CollectFacts.reported_raises _ _ _ Hf) as [->|[->| ->]];
        discriminate. }
    destruct (Dict.get "storagestats.quota" (plugin_settings sh)) as [q|];
      [|discriminate].
    destruct (Py.eq_str q "api").
    + destruct (free =? 0); discriminate.
    + destruct (Py.int q) as [n|x] eqn:Eq; [discriminate|].
      destruct q as [s| |]; cbn in Eq; try discriminate.
      unfold Size.int_of_str in Eq.
      destruct (PyStr.parse_int s); [discriminate|].
      injection Eq as <-. discriminate.
  - intros (tree & e & Ht & Hf & Htext).
    unfold process_rfc4331_response, Act.bind, Act.lift, find_text.
    now rewrite Ht, Hf, Htext.
Qed.

Lemma unsupported_method_iff_empty_element_witness :
  process_rfc4331_response
    {| status_code := 207;
       content := Some (Element "{DAV:}multistatus" None
                          [Element quota_available_bytes None [];
                           Element quota_used_bytes (Some "10") []]);
       content_str := "<multistatus/>" |}
    (Examples.dav_share (VStr "api"))
  = (Examples.dav_share (VStr "api"),
     Raise (ErrorDAVQuotaMethod "UnsupportedMethod")).
Proof.
  apply (proj2 (unsupported_method_iff_empty_element _ _)).
  eexists. eexists. repeat split; reflexivity.
Defined.

(** *** Failures of [list_blobs] *)

(** When [list_blobs] raises, the share is as it was, with two
    exceptions, both after the listing itself went well: when the share
    has no quota setting ([KeyError]), [bytesused] already holds the new
    sum; and when the quota setting is a text, so that the subtraction
    fails ([TypeError]), [bytesused] and [quota] already hold their new
    values. In neither case are [bytesfree] and [filecount] written. *)
Theorem list_blobs_failure_modes service sh e :
  snd (Azure.list_blobs service sh) = Raise e ->
  fst (Azure.list_blobs service sh) = sh
  \/ exists content_lengths,
       service = Azure.Blobs content_lengths
       /\ ((e = KeyError "storagestats.quota"
            /\ fst (Azure.list_blobs service sh)
               = set_bytesused
                   (VInt (fold_left Z.add content_lengths 0)) sh)
           \/ (e = TypeError
               /\ exists q,
                    Dict.get "storagestats.quota" (plugin_settings sh)
                    = Some (VStr q)
                    /\ fst (Azure.list_blobs service sh)
                       = set_quota (VStr q)
                           (set_bytesused
                              (VInt (fold_left Z.add content_lengths 0))
                              sh))).
Proof.
  unfold Azure.list_blobs, Act.bind, Act.lift, Act.raise, uri_part, setting,
    Act.read, Dict.subscript.
  destruct (Dict.get "account" (uri sh)); [|now left].
  destruct (Dict.get "azure.key" (plugin_settings sh)); [|now left].
  destruct (Dict.get "container" (uri sh)); [|now left].
  destruct (Dict.get "url" (uri sh)); [|now left].
  destruct (Dict.get "storagestats.api" (plugin_settings sh)) as [api|];
    [|now left].
  destruct (Py.lower api); [|now left].
  destruct (Dict.get "conn_timeout" (plugin_settings sh)) as [t|];
    [|now left].
  destruct (Py.int t); [|now left].
  destruct service as [ls|msg|msg|msg]; try (now left);
    try (destruct (Dict.get "storagestats.api" (plugin_settings sh));
         now left).
  cbn [Act.modify plugin_settings set_bytesused with_stats].
  destruct (Dict.get "storagestats.quota" (plugin_settings sh)) as [q|] eqn:Eq.
  - cbn [set_quota with_stats plugin_settings].
    unfold Py.sub. cbn [Py.number].
    destruct q as [s|n|b]; cbn [Py.number fst snd]; try discriminate.
    intros [= <-]. right. exists ls. split; [reflexivity|]. right.
    split; [reflexivity|]. exists s. split; reflexivity.
  - cbn [fst snd]. intros [= <-]. right. exists ls.
    split; [reflexivity|]. left. split; reflexivity.
Qed.

Lemma list_blobs_failure_modes_witness :
  fst (Azure.list_blobs (Azure.Blobs [100; 200])
         (Examples.dav_share (VStr "api")))
  = Examples.dav_share (VStr "api")
  /\ snd (Azure.list_blobs (Azure.AzureException "timed out")
            Examples.azure_share)
     = Raise (DSSConnectionError "ConnectionError" "400" "timed out")
  /\ fst (Azure.list_blobs (Azure.AzureException "timed out")
            Examples.azure_share)
     = Examples.azure_share.
Proof.
  split; [reflexivity|]. split; [reflexivity|].
  destruct (list_blobs_failure_modes (Azure.AzureException "timed out")
              Examples.azure_share _ eq_refl) as [H|(ls & Hs & _)].
  - exact H.
  - discriminate Hs.
Defined.

End ReplyFacts.

(** ** The output steps of the loop over the endpoints *)

Module OutputFacts.
Import Ugr Support.

(** With neither output option, the loop is the loop of the [try]
    statements. *)
Lemma dispatch_without_output new_client mc_set mc_get options collect eps :
  output_memcached options = false ->
  output_stdout options = false ->
  dispatch new_client mc_set mc_get options collect eps
  = poll_all collect eps.
Proof.
  intros Hm Hs. induction eps as [|e eps IH]; cbn [dispatch poll_all];
    [reflexivity|].
  unfold round, output. rewrite Hm, Hs.
  destruct (poll collect e) as [[e'|x]|]; [|reflexivity|reflexivity].
  unfold Act.bind, Act.ret. now rewrite IH.
Qed.

Lemma dispatch_app new_client mc_set mc_get options collect pre pre' post :
  Forall2 (fun e e' => round new_client mc_set mc_get options collect e
                       = Some (Ret e')) pre pre' ->
  dispatch new_client mc_set mc_get options collect (pre ++ post)%list
  = match dispatch new_client mc_set mc_get options collect post with
    | Some (Ret post') => Some (Ret (pre' ++ post')%list)
    | r => r
    end.
Proof.
  intros H. induction H as [|e e' pre pre' Hr _ IH]; cbn [app dispatch].
  - now destruct (dispatch new_client mc_set mc_get options collect post)
      as [[|]|].
  - rewrite Hr, IH.
    now destruct (dispatch new_client mc_set mc_get options collect post)
      as [[|]|].
Qed.

(** An object of the base class, which is what [get_endpoints] puts in
    the list for a plugin it does not support, has no [storageprotocol].
    Its collector does nothing; but as soon as one output option is on,
    the output step reads the missing attribute: the loop ends there with
    [AttributeError], and no endpoint after it is polled. With neither
    option the round returns the object as it is. *)
Theorem placeholder_ends_the_loop_when_output_is_on
    new_client mc_set mc_get options list_objects propfind ceph_admin fuel
    pre pre' ph post :
  let collect := get_storagestats list_objects propfind ceph_admin fuel in
  let memcached_srv := memcached_ip options ++ ":" ++ memcached_port options in
  Forall2 (fun e e' => round new_client mc_set mc_get options collect e
                       = Some (Ret e')) pre pre' ->
  class ph = StorageStats ->
  storageprotocol ph = None ->
  new_client memcached_srv = Ret tt ->
  (output_memcached options = false -> output_stdout options = true ->
   exists contents,
     mc_get memcached_srv ("Ugrstoragestats_" ++ id ph) = Ret contents) ->
  dispatch new_client mc_set mc_get options collect (pre ++ ph :: post)%list
  = if output_memcached options || output_stdout options
    then Some (Raise AttributeError)
    else match dispatch new_client mc_set mc_get options collect post with
         | Some (Ret post') => Some (Ret (pre' ++ ph :: post')%list)
         | r => r
         end.
Proof.
  intros collect memcached_srv Hpre Hc Hp Hn Hg.
  rewrite (dispatch_app _ _ _ _ _ _ _ _ Hpre). cbn [dispatch].
  assert (Hpoll : poll collect ph = Some (Ret ph)).
  { unfold poll, collect, get_storagestats. now rewrite Hc. }
  unfold round. rewrite Hpoll. unfold output.
  destruct (output_memcached options) eqn:Em; cbn [orb].
  - unfold upload_to_memcached, Act.bind, Act.lift, Act.read.
    fold memcached_srv. rewrite Hn. unfold memcached_record. rewrite Hp.
    reflexivity.
  - destruct (output_stdout options) eqn:Es.
    + destruct (Hg eq_refl eq_refl) as [contents Hget].
      unfold output_to_stdout, get_from_memcached, Act.bind, Act.lift,
        Act.read, Act.ret.
      fold memcached_srv. rewrite Hn, Hget.
      destruct contents as [c|].
      * rewrite Hp. reflexivity.
      * unfold memcached_index_error, error, make_exn, Act.modify,
          memcached_record.
        cbv beta iota.
        assert (Hrf : forall m d,
                   storageprotocol (record_failure m d ph) = None)
          by (intros; exact Hp).
        rewrite !Hrf. reflexivity.
    + unfold Act.bind, Act.ret.
      destruct (dispatch new_client mc_set mc_get options collect post)
        as [[post'|]|]; reflexivity.
Qed.

Lemma placeholder_ends_the_loop_when_output_is_on_witness :
  exists d1 r1 d2,
    get_endpoints Examples.urlsplit 0
      [("d1", Examples.dav_conf "d1" "api");
       ("r1", Examples.rucio_conf "r1");
       ("d2", Examples.dav_conf "d2" "api")] = Ret [d1; r1; d2]
    /\ dispatch (fun _ => Ret tt) (fun _ _ _ => Ret (VBool true))
         (fun _ _ => Ret None)
         {| memcached_ip := "127.0.0.1"; memcached_port := "11211";
            output_memcached := true; output_stdout := false |}
         (get_storagestats Examples.two_objects
            (Examples.dav_server (Examples.quota_reply "500" "1500"))
            Examples.no_ceph_admin 1) [d1; r1; d2]
       = Some (Raise AttributeError)
    /\ dispatch (fun _ => Ret tt) (fun _ _ _ => Ret (VBool true))
         (fun _ _ => Ret None)
         {| memcached_ip := "127.0.0.1"; memcached_port := "11211";
            output_memcached := false; output_stdout := true |}
         (get_storagestats Examples.two_objects
            (Examples.dav_server (Examples.quota_reply "500" "1500"))
            Examples.no_ceph_admin 1) [d1; r1; d2]
       = Some (Raise AttributeError).
Proof.
  eexists. eexists. eexists.
  split; [vm_compute; reflexivity|].
  split.
  - match goal with
    | |- dispatch ?n ?s ?g ?o (get_storagestats ?l ?p ?c ?f) [?a; ?b; ?d] = _ =>
        assert (Hround : exists a',
                   round n s g o (get_storagestats l p c f) a = Some (Ret a'))
          by (eexists; vm_compute; reflexivity);
        destruct Hround as [a' Hround];
        exact (placeholder_ends_the_loop_when_output_is_on n s g o l p c f
                 [a] [a'] b [d] (Forall2_cons _ _ Hround (Forall2_nil _))
                 eq_refl eq_refl eq_refl
                 (fun H => False_ind _ (Bool.diff_true_false H)))
    end.
  - match goal with
    | |- dispatch ?n ?s ?g ?o (get_storagestats ?l ?p ?c ?f) [?a; ?b; ?d] = _ =>
        assert (Hround : exists a',
                   round n s g o (get_storagestats l p c f) a = Some (Ret a'))
          by (eexists; vm_compute; reflexivity);
        destruct Hround as [a' Hround];
        exact (placeholder_ends_the_loop_when_output_is_on n s g o l p c f
                 [a] [a'] b [d] (Forall2_cons _ _ Hround (Forall2_nil _))
                 eq_refl eq_refl eq_refl
                 (fun _ _ => ex_intro _ None eq_refl))
    end.
Defined.

End OutputFacts.
